(** * Adaptive difficulty tracking and confidence-gated answering

    A shallow embedding of [services/adaptive_learning.py] and of the
    answer pipeline of [services/rag_service.py], with the properties of
    the specification stated and settled against it.

    Conventions of the embedding.
    - Python [int] is [Z]; Python [float] is idealised as an exact rational
      [Q] (true division, [statistics.mean] and [numpy.mean] become exact
      rational arithmetic, comparisons are comparisons of rationals).
    - A Python [dict] is an insertion-ordered association list with unique
      keys ([dict V]); the table of students, whose order is never
      observed, is a [gmap].
    - An exception is a value of [exn]; code that can raise returns a
      [result].  Code that mutates the profile and may raise half-way
      returns the profile as it stands when the exception leaves.
    - Console output and the JSON file written by [_save_data] are not
      modelled: [_save_data] only reads the table and swallows its own
      errors.  The wall clock is an explicit argument [now]. *)

From Stdlib Require Import ZArith QArith Qround Qminmax String Ascii List Lia.
From Stdlib Require Import Sorting.Sorted DecimalString.
From stdpp Require Import base option gmap strings list.

Open Scope string_scope.
Open Scope list_scope.

(** ** Exceptions *)

Inductive exn : Type :=
| KeyError (key : string)
| Exception (msg : string).

Inductive result (A : Type) : Type :=
| Return (a : A)
| Raise (e : exn).
Arguments Return {A} a.
Arguments Raise {A} e.

#[global] Instance result_ret : MRet result := fun _ a => Return a.
#[global] Instance result_bind : MBind result := fun _ _ f m =>
  match m with
  | Return a => f a
  | Raise e => Raise e
  end.

(** [try: body except: handler] *)
Definition try_except {A : Type} (body : result A) (handler : exn -> result A) : result A :=
  match body with
  | Return a => Return a
  | Raise e => handler e
  end.

(** ** Rationals standing for floats *)

Definition Qleb (a b : Q) : bool := Qle_bool a b.
Definition Qltb (a b : Q) : bool := negb (Qle_bool b a).

Definition Qsum (l : list Q) : Q := foldr Qplus 0%Q l.

(** [statistics.mean] and [numpy.mean]; every caller passes a non-empty
    list. *)
Definition mean (l : list Q) : Q := (Qsum l / inject_Z (Z.of_nat (length l)))%Q.

(** Python true division [a / b] of two ints. *)
Definition true_div (a b : Z) : Q := (inject_Z a / inject_Z b)%Q.

(** Built-in [max(a, b)]: the second argument wins only when strictly
    greater. *)
Definition py_max (a b : Q) : Q := if Qltb a b then b else a.

(** [round(x, 2)], ties to even. *)
Definition round_half_even (q : Q) : Z :=
  let f := Qfloor q in
  let r := (q - inject_Z f)%Q in
  match (r ?= 1 # 2)%Q with
  | Lt => f
  | Gt => (f + 1)%Z
  | Eq => if Z.even f then f else (f + 1)%Z
  end.
Definition round2 (q : Q) : Q := (inject_Z (round_half_even (q * 100)) / 100)%Q.

(** ** Python dictionaries *)

Section Dict.
Context {V : Type}.

Definition dict : Type := list (string * V).

(** [d.get(k)] *)
Fixpoint dict_get (k : string) (d : dict) : option V :=
  match d with
  | [] => None
  | (k', v) :: rest => if String.eqb k k' then Some v else dict_get k rest
  end.

(** [k in d] *)
Definition dict_mem (k : string) (d : dict) : bool :=
  match dict_get k d with Some _ => true | None => false end.

(** [d[k] = v]: an existing key keeps its position, a new key goes last. *)
Fixpoint dict_set (k : string) (v : V) (d : dict) : dict :=
  match d with
  | [] => [(k, v)]
  | (k', v') :: rest =>
      if String.eqb k k' then (k, v) :: rest else (k', v') :: dict_set k v rest
  end.

(** In-place mutation of the object stored under [k]. *)
Fixpoint dict_alter (f : V -> V) (k : string) (d : dict) : dict :=
  match d with
  | [] => []
  | (k', v') :: rest =>
      if String.eqb k k' then (k', f v') :: rest else (k', v') :: dict_alter f k rest
  end.

(** [d[k]], raising [KeyError] *)
Definition dict_index (k : string) (d : dict) : result V :=
  match dict_get k d with
  | Some v => Return v
  | None => Raise (KeyError k)
  end.

(** Python truthiness of a dict or list is non-emptiness; for the
    lists below it is tested by pattern matching. *)
Definition dict_keys (d : dict) : list string := d.*1.
Definition dict_values (d : dict) : list V := d.*2.
End Dict.
Arguments dict V : clear implicits.

(** [{k: f(v) for k, v in d.items()}], also the loop that fills a new dict
    with one entry per entry of [d]. *)
Definition dict_map {V W : Type} (f : V -> W) (d : dict V) : dict W :=
  map (fun item => (item.1, f item.2)) d.

(** Truthiness of a string. *)
Definition truthy (s : string) : bool := negb (String.eqb s "").

(** [sep.join(l)] *)
Definition join (sep : string) (l : list string) : string := String.concat sep l.

(** [l[-n:]] for a positive [n] *)
Definition last_n {A : Type} (n : nat) (l : list A) : list A := drop (length l - n) l.

(** [l[:limit]] for an arbitrary int [limit] *)
Definition slice_to {A : Type} (limit : Z) (l : list A) : list A :=
  if (0 <=? limit)%Z then take (Z.to_nat limit) l
  else take (length l - Z.to_nat (- limit)) l.

(** [sorted(l, key)]: Python's sort is stable, and a stable ascending sort
    is determined by its input; it is written here as an insertion sort
    that puts the new element after its equals. *)
Section Sort.
Context {A : Type} (key : A -> Q).

Fixpoint insert_sorted (x : A) (l : list A) : list A :=
  match l with
  | [] => [x]
  | y :: rest => if Qltb (key x) (key y) then x :: y :: rest else y :: insert_sorted x rest
  end.

Definition sort_by (l : list A) : list A := foldl (fun acc x => insert_sorted x acc) [] l.
End Sort.

(** ** services/adaptive_learning.py *)

Module AdaptiveLearning.

(** [QuestionAttempt] *)
Record QuestionAttempt : Type := {
  question_id : string;
  topic : string;
  difficulty : string;
  cognitive_level : string;
  correct : bool;
  time_taken : Q;
  timestamp : Z;
  confidence : Q
}.

(** The counter object [{'correct': c, 'total': t}]. *)
Record Tally : Type := { tally_correct : Z; tally_total : Z }.

(** [StudentProfile].  [recent_times] and [recent_attempts] are not
    fields of the dataclass: the code reaches them with [hasattr] and
    [getattr], so each is an attribute that may be absent. *)
Record StudentProfile : Type := {
  user_id : string;
  topic_performance : dict (dict Tally);
  cognitive_levels : dict Tally;
  learning_pace : Q;
  preferred_difficulty : string;
  last_activity : Z;
  total_questions : Z;
  correct_answers : Z;
  recent_times : option (list Q);
  recent_attempts : option (list QuestionAttempt)
}.

(** [self.students] *)
Abbreviation Students := (gmap string StudentProfile).

Definition set_basic_stats (tq ca la : Z) (p : StudentProfile) : StudentProfile :=
  {| user_id := user_id p; topic_performance := topic_performance p;
     cognitive_levels := cognitive_levels p; learning_pace := learning_pace p;
     preferred_difficulty := preferred_difficulty p; last_activity := la;
     total_questions := tq; correct_answers := ca;
     recent_times := recent_times p; recent_attempts := recent_attempts p |}.

Definition set_topic_performance (tp : dict (dict Tally)) (p : StudentProfile) : StudentProfile :=
  {| user_id := user_id p; topic_performance := tp;
     cognitive_levels := cognitive_levels p; learning_pace := learning_pace p;
     preferred_difficulty := preferred_difficulty p; last_activity := last_activity p;
     total_questions := total_questions p; correct_answers := correct_answers p;
     recent_times := recent_times p; recent_attempts := recent_attempts p |}.

Definition set_cognitive_levels (cl : dict Tally) (p : StudentProfile) : StudentProfile :=
  {| user_id := user_id p; topic_performance := topic_performance p;
     cognitive_levels := cl; learning_pace := learning_pace p;
     preferred_difficulty := preferred_difficulty p; last_activity := last_activity p;
     total_questions := total_questions p; correct_answers := correct_answers p;
     recent_times := recent_times p; recent_attempts := recent_attempts p |}.

Definition set_pace (rt : list Q) (pace : Q) (p : StudentProfile) : StudentProfile :=
  {| user_id := user_id p; topic_performance := topic_performance p;
     cognitive_levels := cognitive_levels p; learning_pace := pace;
     preferred_difficulty := preferred_difficulty p; last_activity := last_activity p;
     total_questions := total_questions p; correct_answers := correct_answers p;
     recent_times := Some rt; recent_attempts := recent_attempts p |}.

Definition set_preferred_difficulty (d : string) (p : StudentProfile) : StudentProfile :=
  {| user_id := user_id p; topic_performance := topic_performance p;
     cognitive_levels := cognitive_levels p; learning_pace := learning_pace p;
     preferred_difficulty := d; last_activity := last_activity p;
     total_questions := total_questions p; correct_answers := correct_answers p;
     recent_times := recent_times p; recent_attempts := recent_attempts p |}.

Definition zero_tally : Tally := {| tally_correct := 0; tally_total := 0 |}.

(** [stats['total'] += 1; if attempt.correct: stats['correct'] += 1] *)
Definition bump (is_correct : bool) (t : Tally) : Tally :=
  {| tally_correct := if is_correct then tally_correct t + 1 else tally_correct t;
     tally_total := tally_total t + 1 |}.

(** The profile [record_attempt] creates for a user it has not seen. *)
Definition new_profile (uid : string) (now : Z) : StudentProfile :=
  {| user_id := uid; topic_performance := []; cognitive_levels := [];
     learning_pace := 0; preferred_difficulty := "medium"; last_activity := now;
     total_questions := 0; correct_answers := 0;
     recent_times := None; recent_attempts := None |}.

Definition fresh_topic : dict Tally :=
  [("easy", zero_tally); ("medium", zero_tally); ("hard", zero_tally)].

(** [_update_learning_pace] *)
Definition pace_of (times : list Q) : Q :=
  let avg_time := mean times in
  if Qltb 0 avg_time then (60 / avg_time)%Q else 0%Q.

Definition _update_learning_pace (profile : StudentProfile) (attempt : QuestionAttempt)
  : StudentProfile :=
  let times := default [] (recent_times profile) in
  let times := times ++ [time_taken attempt] in
  let times := if (20 <? length times)%nat then last_n 20 times else times in
  set_pace times (pace_of times) profile.

(** [_update_preferred_difficulty]: one round of the inner loop, on the
    pair [(difficulty_scores, difficulty_counts)]. *)
Definition add_score (acc : dict Q * dict Z) (item : string * Tally)
  : result (dict Q * dict Z) :=
  let '(difficulty, stats) := item in
  if (0 <? tally_total stats)%Z then
    let score := true_div (tally_correct stats) (tally_total stats) in
    s ← dict_index difficulty acc.1;
    let scores := dict_set difficulty (s + score)%Q acc.1 in
    n ← dict_index difficulty acc.2;
    Return (scores, dict_set difficulty (n + 1)%Z acc.2)
  else Return acc.

(** A [for] loop whose body may raise. *)
Fixpoint for_each {A S : Type} (body : S -> A -> result S) (l : list A) (s : S) : result S :=
  match l with
  | [] => Return s
  | x :: rest => s' ← body s x; for_each body rest s'
  end.

Definition average_score (scores : dict Q) (counts : dict Z) (difficulty : string)
  : result Q :=
  n ← dict_index difficulty counts;
  if (0 <? n)%Z then
    s ← dict_index difficulty scores;
    Return (s / inject_Z n)%Q
  else Return 0%Q.

Definition add_topic_scores (acc : dict Q * dict Z) (topic_stats : dict Tally)
  : result (dict Q * dict Z) :=
  for_each add_score topic_stats acc.

Definition add_average (scores : dict Q) (counts : dict Z) (avg_scores : dict Q)
    (difficulty : string) : result (dict Q) :=
  a ← average_score scores counts difficulty;
  Return (dict_set difficulty a avg_scores).

Definition cascade (hard medium : Q) : string :=
  if Qleb 0.7 hard then "hard"
  else if Qleb 0.6 medium then "medium"
  else "easy".

Definition _update_preferred_difficulty (profile : StudentProfile) : result StudentProfile :=
  let difficulty_scores : dict Q := [("easy", 0%Q); ("medium", 0%Q); ("hard", 0%Q)] in
  let difficulty_counts : dict Z := [("easy", 0%Z); ("medium", 0%Z); ("hard", 0%Z)] in
  '(scores, counts) ←
    for_each add_topic_scores (dict_values (topic_performance profile))
             (difficulty_scores, difficulty_counts);
  avg_scores ← for_each (add_average scores counts) (dict_keys scores) [];
  hard ← dict_index "hard" avg_scores;
  medium ← dict_index "medium" avg_scores;
  Return (set_preferred_difficulty (cascade hard medium) profile).

(** The body of [record_attempt] on the profile object.  The profile is
    mutated in place, so the first component is the profile as it stands
    when the call returns or raises. *)
Definition update_basic_stats (now : Z) (attempt : QuestionAttempt) (profile : StudentProfile)
  : StudentProfile :=
  set_basic_stats (total_questions profile + 1)
                  (if correct attempt then correct_answers profile + 1
                   else correct_answers profile)
                  now profile.

Definition ensure_topic (attempt : QuestionAttempt) (profile : StudentProfile)
  : StudentProfile :=
  if dict_mem (topic attempt) (topic_performance profile) then profile
  else set_topic_performance
         (dict_set (topic attempt) fresh_topic (topic_performance profile)) profile.

Definition update_topic_stats (attempt : QuestionAttempt) (profile : StudentProfile)
  : result StudentProfile :=
  by_difficulty ← dict_index (topic attempt) (topic_performance profile);
  _ ← dict_index (difficulty attempt) by_difficulty;
  Return (set_topic_performance
            (dict_alter (dict_alter (bump (correct attempt)) (difficulty attempt))
                        (topic attempt) (topic_performance profile))
            profile).

Definition update_cognitive_level (attempt : QuestionAttempt) (profile : StudentProfile)
  : StudentProfile :=
  let levels := cognitive_levels profile in
  let levels :=
    if dict_mem (cognitive_level attempt) levels then levels
    else dict_set (cognitive_level attempt) zero_tally levels in
  set_cognitive_levels
    (dict_alter (bump (correct attempt)) (cognitive_level attempt) levels) profile.

Definition record_on_profile (now : Z) (attempt : QuestionAttempt) (profile : StudentProfile)
  : StudentProfile * result unit :=
  let profile := update_basic_stats now attempt profile in
  let profile := ensure_topic attempt profile in
  match update_topic_stats attempt profile with
  | Raise e => (profile, Raise e)
  | Return profile =>
      let profile := update_cognitive_level attempt profile in
      let profile := _update_learning_pace profile attempt in
      match _update_preferred_difficulty profile with
      | Raise e => (profile, Raise e)
      | Return profile => (profile, Return tt)
      end
  end.

(** [record_attempt]: the table after the call, and how the call ended. *)
Definition record_attempt (uid : string) (now : Z) (attempt : QuestionAttempt)
    (students : Students) : Students * result unit :=
  let profile := default (new_profile uid now) (students !! uid) in
  let '(profile, outcome) := record_on_profile now attempt profile in
  (<[uid := profile]> students, outcome).

(** [get_recommended_difficulty]; [topic] defaults to [None]. *)
Definition topic_score (stats : Tally) : Q :=
  if (3 <=? tally_total stats)%Z
  then true_div (tally_correct stats) (tally_total stats)
  else 0%Q.

Definition get_recommended_difficulty (uid : string) (topic : option string)
    (students : Students) : string :=
  match students !! uid with
  | None => "medium"
  | Some profile =>
      match topic with
      | Some topic =>
          if truthy topic && dict_mem topic (topic_performance profile) then
            let topic_stats := default [] (dict_get topic (topic_performance profile)) in
            let scores := dict_map topic_score topic_stats in
            cascade (default 0%Q (dict_get "hard" scores))
                    (default 0%Q (dict_get "medium" scores))
          else preferred_difficulty profile
      | None => preferred_difficulty profile
      end
  end.

(** The two running sums over [stats.values()]. *)
Definition topic_correct (stats : dict Tally) : Z :=
  foldl (fun acc difficulty_stats => acc + tally_correct difficulty_stats)%Z 0%Z
        (dict_values stats).
Definition topic_total (stats : dict Tally) : Z :=
  foldl (fun acc difficulty_stats => acc + tally_total difficulty_stats)%Z 0%Z
        (dict_values stats).

(** [get_weak_topics] *)
Definition weak_candidate (item : string * dict Tally) : option (string * Q) :=
  let '(topic, stats) := item in
  let total_correct := topic_correct stats in
  let total_questions := topic_total stats in
  if (5 <=? total_questions)%Z
  then Some (topic, true_div total_correct total_questions)
  else None.

Definition get_weak_topics (uid : string) (limit : Z) (students : Students)
  : list (string * Q) :=
  match students !! uid with
  | None => []
  | Some profile =>
      let topic_scores := omap weak_candidate (topic_performance profile) in
      slice_to limit (sort_by snd topic_scores)
  end.

(** [get_strength_analysis] *)
Record StrengthAnalysis : Type := {
  sa_overall_score : Q;
  sa_total_questions : Z;
  sa_correct_answers : Z;
  sa_learning_pace : Q;
  sa_preferred_difficulty : string;
  sa_weak_topics : list (string * Q);
  sa_topic_performance : dict Q;
  sa_cognitive_levels : dict Z;
  sa_recommendations : list string
}.

Definition topic_accuracy (stats : dict Tally) : Q :=
  if (0 <? topic_total stats)%Z
  then true_div (topic_correct stats) (topic_total stats)
  else 0%Q.

Definition count_levels (levels : dict Tally) : dict Z :=
  foldl (fun cognitive_levels item =>
           if dict_mem item.1 cognitive_levels
           then dict_set item.1 (tally_total item.2) cognitive_levels
           else cognitive_levels)
        [("easy", 0%Z); ("medium", 0%Z); ("hard", 0%Z)] levels.

Definition get_strength_analysis (uid : string) (students : Students) : StrengthAnalysis :=
  match students !! uid with
  | None =>
      {| sa_overall_score := 0; sa_total_questions := 0; sa_correct_answers := 0;
         sa_learning_pace := 0; sa_preferred_difficulty := "medium";
         sa_weak_topics := []; sa_topic_performance := [];
         sa_cognitive_levels := [("easy", 0%Z); ("medium", 0%Z); ("hard", 0%Z)];
         sa_recommendations := [] |}
  | Some profile =>
      let overall_score :=
        if (0 <? total_questions profile)%Z
        then true_div (correct_answers profile) (total_questions profile)
        else 0%Q in
      let topic_performance := dict_map topic_accuracy (topic_performance profile) in
      let cognitive_levels := count_levels (cognitive_levels profile) in
      let recommendations :=
        if Qltb overall_score 0.5
        then ["Focus on fundamental concepts and basic recall questions"]
        else if Qltb overall_score 0.7
        then ["Practice application-based questions to improve understanding"]
        else ["Challenge yourself with analytical and complex problem-solving questions"] in
      let weak_topics := get_weak_topics uid 3 students in
      let recommendations :=
        match weak_topics with
        | [] => recommendations
        | _ :: _ =>
            recommendations ++
              ["Focus on improving: " +:+ join ", " (map fst weak_topics)]
        end in
      {| sa_overall_score := overall_score;
         sa_total_questions := total_questions profile;
         sa_correct_answers := correct_answers profile;
         sa_learning_pace := learning_pace profile;
         sa_preferred_difficulty := preferred_difficulty profile;
         sa_weak_topics := weak_topics;
         sa_topic_performance := topic_performance;
         sa_cognitive_levels := cognitive_levels;
         sa_recommendations := recommendations |}
  end.

(** [generate_adaptive_questions] *)
Record AdaptiveQuestions : Type := {
  recommended_difficulty : string;
  num_questions : Z;
  aq_topic : string;
  adaptive_reasoning : string
}.

Definition recent_score (recent : list QuestionAttempt) : Q :=
  true_div (Z.of_nat (length (filter (fun a => correct a = true) recent)))
           (Z.of_nat (length recent)).

Definition adjust_for_recent (recent : list QuestionAttempt) (recommended : string) : string :=
  match recent with
  | [] => recommended
  | _ :: _ =>
      if Qltb 0.8 (recent_score recent) && negb (String.eqb recommended "hard")
      then "hard"
      else if Qltb (recent_score recent) 0.4 && negb (String.eqb recommended "easy")
      then "easy"
      else recommended
  end.

Definition generate_adaptive_questions (uid topic : string) (num_questions : Z)
    (students : Students) : AdaptiveQuestions :=
  let recommended_difficulty := get_recommended_difficulty uid (Some topic) students in
  let recommended_difficulty :=
    match students !! uid with
    | Some profile =>
        let recent_attempts := last_n 10 (default [] (recent_attempts profile)) in
        adjust_for_recent recent_attempts recommended_difficulty
    | None => recommended_difficulty
    end in
  {| recommended_difficulty := recommended_difficulty;
     num_questions := num_questions;
     aq_topic := topic;
     adaptive_reasoning :=
       "Based on your performance in " +:+ topic +:+ ", we recommend "
         +:+ recommended_difficulty +:+ " level questions" |}.

(** The callers of [record_attempt] (the routes of [app.py]) catch what
    it raises and go on serving; a run of calls threads the table. *)
Record Call : Type := { call_user : string; call_now : Z; call_attempt : QuestionAttempt }.

Definition record_attempts (calls : list Call) (students : Students) : Students :=
  foldl (fun students c =>
           (record_attempt (call_user c) (call_now c) (call_attempt c) students).1)
        students calls.

End AdaptiveLearning.

(** ** services/rag_service.py: the answer pipeline *)

Module RAGService.

(** A retrieved chunk, as [search_relevant_content] packages it. *)
Record Chunk : Type := {
  content : string;
  metadata : gmap string string;
  distance : Q;
  id : option string
}.

(** The dict the pipeline returns.  The error results carry no
    ['context_chunks'] key. *)
Record Answer : Type := {
  answer : string;
  confidence : Q;
  sources : list string;
  context_chunks : option Z;
  answer_type : option string
}.

(** [result['answer_type'] = t] *)
Definition set_answer_type (t : string) (result : Answer) : Answer :=
  {| answer := answer result; confidence := confidence result;
     sources := sources result; context_chunks := context_chunks result;
     answer_type := Some t |}.

(** [llm_service.generate_answer]: the external generator, which may
    raise. *)
Abbreviation LLM := (string -> result string).

(** [list(set(l))]: the distinct elements in an order the code does not
    fix. *)
Definition list_set (l : list string) : list string :=
  elements (list_to_set l : gset string).

Definition nl : string := String (ascii_of_nat 10) EmptyString.

Definition curriculum_prompt (context_text query : string) : string :=
  "Based on the following curriculum content, please answer the student's question accurately and helpfully.

Context from curriculum:
" +:+ context_text +:+ "

Student's Question: " +:+ query +:+ "

Please provide:
1. A clear, accurate answer based on the curriculum content
2. Additional explanation if needed
3. Any important concepts the student should understand

Answer:".

Definition hinted_prompt (query context_text : string) : string :=
  "The student asked: " +:+ query +:+ "

I have some related curriculum content, but it may not be directly relevant:
" +:+ context_text +:+ "

Please provide a comprehensive answer using your general knowledge. If the curriculum content is relevant, incorporate it. If not, provide a thorough explanation based on general knowledge.

Please include:
1. A clear, accurate answer
2. Additional context and explanations
3. Related concepts that might be helpful
4. Suggestions for further learning if applicable

Answer:".

Definition plain_prompt (query : string) : string :=
  "The student asked: " +:+ query +:+ "

Please provide a comprehensive answer using your general knowledge. This appears to be a general question not covered in the uploaded curriculum materials.

Please include:
1. A clear, accurate answer
2. Additional context and explanations
3. Related concepts that might be helpful
4. Suggestions for further learning if applicable

Answer:".

Definition context_of (chunks : list Chunk) : string :=
  join (nl +:+ nl) (map content chunks).

(** [_generate_general_knowledge_answer]; [context_chunks] defaults to
    [None], and an empty list is as falsy as [None]. *)
Definition general_prompt (query : string) (context_chunks : option (list Chunk)) : string :=
  match context_chunks with
  | Some ((_ :: _) as chunks) => hinted_prompt query (context_of (take 2 chunks))
  | _ => plain_prompt query
  end.

Definition _generate_general_knowledge_answer (query : string) (llm_service : LLM)
    (context_chunks : option (list Chunk)) : result Answer :=
  try_except
    (let prompt := general_prompt query context_chunks in
     answer ← llm_service prompt;
     Return {| answer := answer;
               confidence := 0.7;
               sources := ["General Knowledge"];
               context_chunks :=
                 Some match context_chunks with
                      | Some ((_ :: _) as chunks) => Z.of_nat (length chunks)
                      | _ => 0%Z
                      end;
               answer_type := Some "general_knowledge" |})
    (fun _ =>
       Return {| answer := "I'm sorry, I'm having trouble generating an answer right now. Please try again or rephrase your question.";
                 confidence := 0.0;
                 sources := [];
                 context_chunks := None;
                 answer_type := Some "error" |}).

(** [generate_answer_with_context] *)
Definition source_of (chunk : Chunk) : string :=
  default "Unknown" (metadata chunk !! "pdf_filename").

Definition confidence_of (context_chunks : list Chunk) : Q :=
  let avg_distance := mean (map distance context_chunks) in
  py_max 0.1 (1.0 - avg_distance).

Definition generate_answer_with_context (query : string) (context_chunks : list Chunk)
    (llm_service : LLM) : result Answer :=
  try_except
    (match context_chunks with
     | [] => _generate_general_knowledge_answer query llm_service None
     | _ :: _ =>
         let context_text := context_of context_chunks in
         let sources := map source_of context_chunks in
         let confidence := confidence_of context_chunks in
         if Qltb confidence 0.3 then
           _generate_general_knowledge_answer query llm_service (Some context_chunks)
         else
           let prompt := curriculum_prompt context_text query in
           answer ← llm_service prompt;
           Return {| answer := answer;
                     confidence := round2 confidence;
                     sources := list_set sources;
                     context_chunks := Some (Z.of_nat (length context_chunks));
                     answer_type := Some "curriculum_based" |}
     end)
    (fun _ =>
       Return {| answer := "Sorry, I encountered an error while generating the answer. Please try again.";
                 confidence := 0.0;
                 sources := [];
                 context_chunks := None;
                 answer_type := Some "error" |}).

(** [process_question].  [search] stands for
    [search_relevant_content(query, top_k=5)], which turns every failure
    of its own into an empty list.  [save_question_answer] writes to the
    question store, catches its own exceptions and has its result
    dropped, so it leaves no trace in the value returned. *)
Definition process_question (search : string -> list Chunk) (query : string)
    (llm_service : LLM) (user_id : option string) : result Answer :=
  try_except
    (let context_chunks := search query in
     answer_result ← generate_answer_with_context query context_chunks llm_service;
     let answer_result :=
       match answer_type answer_result with
       | Some _ => answer_result
       | None => set_answer_type "unknown" answer_result
       end in
     Return answer_result)
    (fun _ =>
       Return {| answer := "I'm sorry, I encountered an error while processing your question. Please try again.";
                 confidence := 0.0;
                 sources := [];
                 context_chunks := None;
                 answer_type := Some "error" |}).

(** The prompt [process_question] hands to the generator. *)
Definition prompt_sent (query : string) (chunks : list Chunk) : string :=
  match chunks with
  | [] => general_prompt query None
  | _ :: _ =>
      if Qltb (confidence_of chunks) 0.3 then general_prompt query (Some chunks)
      else curriculum_prompt (context_of chunks) query
  end.

End RAGService.

(** * Vocabulary of the properties *)

(** The three difficulty buckets every topic starts with. *)
Definition three : list string := ["easy"; "medium"; "hard"].

(** Ascending order of a list under a rational key. *)
Definition by_key {A : Type} (key : A -> Q) (x y : A) : Prop := (key x <= key y)%Q.

Section AdaptiveVocabulary.
Import AdaptiveLearning.

(** Every topic of the profile carries exactly the three buckets, in the
    order [record_attempt] creates them. *)
Definition wf_profile (p : StudentProfile) : Prop :=
  Forall (fun item : string * dict Tally => dict_keys item.2 = three) (topic_performance p).

(** The sum of a counter over the buckets of one topic, and the sum of
    the [total] counters over every topic and bucket. *)
Definition sum_over (f : Tally -> Z) (by_difficulty : dict Tally) : Z :=
  foldr (fun item acc => (f item.2 + acc)%Z) 0%Z by_difficulty.

Definition ledger_of (tp : dict (dict Tally)) : Z :=
  foldr (fun item acc => (sum_over tally_total item.2 + acc)%Z) 0%Z tp.

Definition ledger_total (p : StudentProfile) : Z := ledger_of (topic_performance p).

(** The two accumulators of [_update_preferred_difficulty] keep their three keys. *)
Definition three_keys (acc : dict Q * dict Z) : Prop :=
  dict_keys acc.1 = three /\ dict_keys acc.2 = three.

(** The profile once every counter of [record_attempt] has been updated,
    before the preferred difficulty is recomputed. *)
Definition counted (now : Z) (a : QuestionAttempt) (p : StudentProfile) : StudentProfile :=
  let p1 := ensure_topic a (update_basic_stats now a p) in
  _update_learning_pace
    (update_cognitive_level a
       (set_topic_performance
          (dict_alter (dict_alter (bump (correct a)) (difficulty a)) (topic a)
                      (topic_performance p1)) p1)) a.

(** The profile a call leaves behind when the bucket lookup raises. *)
Definition interrupted (now : Z) (a : QuestionAttempt) (p : StudentProfile) : StudentProfile :=
  ensure_topic a (update_basic_stats now a p).

(** The calls made for one user, in order. *)
Definition calls_of (u : string) (calls : list Call) : list Call :=
  filter (fun c => call_user c = u) calls.

(** The calls that return: those whose difficulty names a bucket. *)
Definition accepted (calls : list Call) : list Call :=
  filter (fun c => difficulty (call_attempt c) ∈ three) calls.

Definition answered_right (calls : list Call) : list Call :=
  filter (fun c => correct (call_attempt c) = true) calls.

Definition times_of (calls : list Call) : list Q :=
  map (fun c => time_taken (call_attempt c)) calls.

(** One call seen from the profile of user [u], absent before the first. *)
Definition step_profile (u : string) (op : option StudentProfile) (c : Call)
  : option StudentProfile :=
  Some (record_on_profile (call_now c) (call_attempt c)
          (default (new_profile u (call_now c)) op)).1.

(** What a profile records about the calls [l] made for its user. *)
Record profile_inv (l : list Call) (p : StudentProfile) : Prop := {
  inv_wf : wf_profile p;
  inv_total : total_questions p = Z.of_nat (length l);
  inv_correct : correct_answers p = Z.of_nat (length (answered_right l));
  inv_ledger : ledger_total p = Z.of_nat (length (accepted l));
  inv_times : default [] (recent_times p) = last_n 20 (times_of (accepted l));
  inv_attr : recent_times p = None <-> accepted l = [];
  inv_pace : learning_pace p =
               match accepted l with
               | [] => 0%Q
               | _ :: _ => pace_of (default [] (recent_times p))
               end;
  inv_window : recent_attempts p = None
}.

(** The topics with at least five attempts, weakest first. *)
Definition qualifying (p : StudentProfile) : list (string * Q) :=
  sort_by snd (omap weak_candidate (topic_performance p)).


(** Sample data. *)
Definition sample_attempt (t d level : string) (right : bool) (seconds : Q)
  : QuestionAttempt :=
  {| question_id := "q1"; topic := t; difficulty := d; cognitive_level := level;
     correct := right; time_taken := seconds; timestamp := 0; confidence := 0.5 |}.

Definition sample_call (u : string) (a : QuestionAttempt) : Call :=
  {| call_user := u; call_now := 0; call_attempt := a |}.

Definition sample_calls : list Call :=
  [sample_call "u1" (sample_attempt "Math" "easy" "recall" true 30);
   sample_call "u2" (sample_attempt "Math" "hard" "analysis" false 50);
   sample_call "u1" (sample_attempt "Math" "medium" "application" false 90)].

Definition sample_profile : StudentProfile :=
  {| user_id := "u1";
     topic_performance :=
       [("Algebra", [("easy", {| tally_correct := 0; tally_total := 4 |});
                     ("medium", zero_tally); ("hard", zero_tally)]);
        ("Geometry", [("easy", {| tally_correct := 2; tally_total := 2 |});
                      ("medium", zero_tally);
                      ("hard", {| tally_correct := 3; tally_total := 3 |})]);
        ("History", [("easy", {| tally_correct := 1; tally_total := 6 |});
                     ("medium", zero_tally); ("hard", zero_tally)])];
     cognitive_levels := [("recall", {| tally_correct := 6; tally_total := 15 |})];
     learning_pace := 2; preferred_difficulty := "hard"; last_activity := 0;
     total_questions := 15; correct_answers := 6;
     recent_times := Some [30%Q]; recent_attempts := None |}.

Definition sample_students : Students := {["u1" := sample_profile]}.

Definition sample_after : StudentProfile :=
  Eval vm_compute in
    default (new_profile "u1" 0) (record_attempts sample_calls ∅ !! "u1").
End AdaptiveVocabulary.

Section AnswerVocabulary.
Import RAGService.

(** The confidence in the words of the specification. *)
Definition spec_confidence (chunks : list Chunk) : Q :=
  Qmax 0.1 (1.0 - mean (map distance chunks)).

Definition sample_chunk (file : string) (d : Q) : Chunk :=
  {| content := "Photosynthesis makes sugar from light.";
     metadata := {["pdf_filename" := file]};
     distance := d; id := Some (file +:+ "_chunk_0") |}.
End AnswerVocabulary.

(** * Vocabulary of the further properties *)

Section LedgerVocabulary.
Import AdaptiveLearning.

(** The calls about one topic, one bucket of a topic, one cognitive level. *)
Definition on_topic (t : string) (calls : list Call) : list Call :=
  filter (fun c => topic (call_attempt c) = t) calls.

Definition in_bucket (t d : string) (calls : list Call) : list Call :=
  filter (fun c => topic (call_attempt c) = t /\ difficulty (call_attempt c) = d) calls.

Definition at_level (level : string) (calls : list Call) : list Call :=
  filter (fun c => cognitive_level (call_attempt c) = level) calls.

(** The counter a list of calls adds up to. *)
Definition tally_of (calls : list Call) : Tally :=
  {| tally_correct := Z.of_nat (length (answered_right calls));
     tally_total := Z.of_nat (length calls) |}.

(** The three buckets of topic [t] after the calls [l]. *)
Definition buckets_after (t : string) (l : list Call) : dict Tally :=
  [("easy", tally_of (in_bucket t "easy" l));
   ("medium", tally_of (in_bucket t "medium" l));
   ("hard", tally_of (in_bucket t "hard" l))].

Definition topic_after (t : string) (l : list Call) : option (dict Tally) :=
  match on_topic t l with
  | [] => None
  | _ :: _ => Some (buckets_after t l)
  end.

Definition level_after (level : string) (l : list Call) : option Tally :=
  match at_level level (accepted l) with
  | [] => None
  | _ :: _ => Some (tally_of (at_level level (accepted l)))
  end.
Definition sound_tally (s : Tally) : Prop :=
  (0 <= tally_correct s <= tally_total s)%Z.



End LedgerVocabulary.

(** ** app.py: the routes that call the two services *)

Module Routes.
Import RAGService.
Import AdaptiveLearning.

(** What [jsonify] is given: the answer fields, or an error message. *)
Inductive Body : Type :=
| AnswerBody (success : bool) (question answer : string) (confidence : Q)
             (sources : list string) (context_chunks : Z) (answer_type : string)
| ErrorBody (error : string).

Record Response : Type := { body : Body; status : Z }.

(** [str(e)]: a [KeyError] prints the repr of its key. *)
Definition str (e : exn) : string :=
  match e with
  | KeyError key => "'" +:+ key +:+ "'"
  | Exception msg => msg
  end.

(** The body of [ask_question] (route [/api/ask_question]) and of the POST
    branch of [ask_question_page] (route [/ask]), which are the same, from
    the point where [question] holds the stripped text of the request and
    [user_id] the id of the session. *)
Definition ask_question (search : string -> list Chunk) (llm_service : LLM)
    (user_id question : string) : result Response :=
  try_except
    (if negb (truthy question)
     then Return {| body := ErrorBody "Question is required"; status := 400 |}
     else
       answer_data ← process_question search question llm_service (Some user_id);
       chunks ← match RAGService.context_chunks answer_data with
                | Some n => Return n
                | None => Raise (KeyError "context_chunks")
                end;
       Return {| body := AnswerBody true question (answer answer_data)
                           (RAGService.confidence answer_data) (sources answer_data) chunks
                           (default "unknown" (answer_type answer_data));
                 status := 200 |})
    (fun e =>
       Return {| body := ErrorBody ("Error processing question: " +:+ str e);
                 status := 500 |}).

(** [str(i)] for an index. *)
Definition str_nat (i : nat) : string := NilZero.string_of_uint (Nat.to_uint i).

(** A question of a submitted quiz, as the JSON object the request carries;
    a field is [None] when the key is absent. *)
Record QuizQuestion : Type := {
  q_topic : option string;
  q_difficulty : option string;
  q_cognitive_level : option string;
  q_correct_answer : option string;
  q_answer : option string
}.

(** [question.get(key, fallback)] followed by
    [if not value or value == '': value = fallback]. *)
Definition or_default (fallback : string) (value : option string) : string :=
  match value with
  | Some v => if truthy v then v else fallback
  | None => fallback
  end.

(** [question.get('correct_answer') or question.get('answer', '')] *)
Definition expected_answer (question : QuizQuestion) : string :=
  match q_correct_answer question with
  | Some v => if truthy v then v else default "" (q_answer question)
  | None => default "" (q_answer question)
  end.

(** The attempt [submit_quiz] builds for question [i]. *)
Definition quiz_attempt (attempt_id : string) (answers : dict string) (time_taken : Q)
    (total_questions : nat) (now : Z) (i : nat) (question : QuizQuestion)
  : QuestionAttempt :=
  let user_answer := default "" (dict_get (str_nat i) answers) in
  let correct_answer := expected_answer question in
  let is_correct := String.eqb user_answer correct_answer in
  let avg_time_per_question :=
    if (0 <? total_questions)%nat
    then (time_taken / inject_Z (Z.of_nat total_questions))%Q else 0%Q in
  {| question_id := "quiz_" +:+ attempt_id +:+ "_q_" +:+ str_nat i;
     topic := or_default "General" (q_topic question);
     difficulty := or_default "medium" (q_difficulty question);
     cognitive_level := or_default "application" (q_cognitive_level question);
     correct := is_correct;
     time_taken := avg_time_per_question;
     timestamp := now;
     AdaptiveLearning.confidence := 0.5 |}.

(** The loop of [submit_quiz] that records the questions one by one; an
    exception of [record_attempt] leaves the loop. *)
Fixpoint record_quiz_loop (user_id attempt_id : string) (answers : dict string)
    (time_taken : Q) (total_questions : nat) (stamp clock : nat -> Z)
    (i : nat) (questions : list QuizQuestion) (students : Students)
  : Students * result unit :=
  match questions with
  | [] => (students, Return tt)
  | question :: rest =>
      let attempt :=
        quiz_attempt attempt_id answers time_taken total_questions (stamp i) i question in
      match record_attempt user_id (clock i) attempt students with
      | (students, Raise e) => (students, Raise e)
      | (students, Return _) =>
          record_quiz_loop user_id attempt_id answers time_taken total_questions stamp clock
                           (S i) rest students
      end
  end.

(** The block of [submit_quiz] that feeds the adaptive learning system: the
    loop inside its [try], whose [except] logs the exception and goes on.
    [stamp i] is the time read for the timestamp of question [i], [clock i]
    the time [record_attempt] reads when it is called for it. *)
Definition record_quiz (user_id attempt_id : string) (questions : list QuizQuestion)
    (answers : dict string) (time_taken : Q) (stamp clock : nat -> Z) (students : Students)
  : Students :=
  (record_quiz_loop user_id attempt_id answers time_taken (length questions) stamp clock
                    0 questions students).1.




End Routes.

Section RouteVocabulary.
Import AdaptiveLearning Routes.

(** Every profile of the table is well formed. *)
Definition table_wf (st : Students) : Prop :=
  forall u p, st !! u = Some p -> wf_profile p.

(** The calls of [record_attempt] that [submit_quiz] makes for the questions
    from index [i] on, were none to raise. *)
Fixpoint quiz_calls (user_id attempt_id : string) (answers : dict string)
    (time_taken : Q) (total_questions : nat) (stamp clock : nat -> Z)
    (i : nat) (questions : list QuizQuestion) : list Call :=
  match questions with
  | [] => []
  | question :: rest =>
      {| call_user := user_id; call_now := clock i;
         call_attempt :=
           quiz_attempt attempt_id answers time_taken total_questions (stamp i) i question |}
      :: quiz_calls user_id attempt_id answers time_taken total_questions stamp clock (S i) rest
  end.

(** The calls up to and including the first whose difficulty is no bucket. *)
Fixpoint until_rejected (calls : list Call) : list Call :=
  match calls with
  | [] => []
  | c :: rest =>
      if decide (difficulty (call_attempt c) ∈ three)
      then c :: until_rejected rest
      else [c]
  end.

End RouteVocabulary.

(** ** services/rag_service.py: the subject of a text *)

Module SubjectClassifier.

(** [needle in hay] for two strings *)
Fixpoint contains (needle hay : string) : bool :=
  String.prefix needle hay ||
  match hay with
  | EmptyString => false
  | String _ rest => contains needle rest
  end.

Definition subject_keywords : dict (list string) :=
  [("mathematics", ["equation"; "formula"; "calculate"; "solve"; "number"; "math";
                    "algebra"; "geometry"; "trigonometry"]);
   ("science", ["experiment"; "hypothesis"; "theory"; "molecule"; "atom"; "chemical";
                "physics"; "biology"; "chemistry"]);
   ("history", ["ancient"; "century"; "war"; "king"; "queen"; "empire"; "civilization";
                "historical"; "past"]);
   ("geography", ["country"; "continent"; "ocean"; "mountain"; "river"; "climate";
                  "population"; "map"; "location"]);
   ("english", ["grammar"; "literature"; "poem"; "novel"; "sentence"; "vocabulary";
                "writing"; "reading"]);
   ("hindi", ["हिंदी"; "कविता"; "कहानी"; "व्याकरण"; "साहित्य"; "भाषा"])].

(** [sum(1 for keyword in keywords if keyword in text_lower)] *)
Definition keyword_score (text_lower : string) (keywords : list string) : Z :=
  Z.of_nat (length (filter (fun keyword => contains keyword text_lower = true) keywords)).

(** [max(d, key=d.get)] on the keys of a non-empty dict: the first key, in
    the order of the dict, whose value no other key exceeds. *)
Definition max_key (scores : dict Z) : option string :=
  match scores with
  | [] => None
  | (k, v) :: rest =>
      Some (foldl (fun best item => if (best.2 <? item.2)%Z then item else best)
                  (k, v) rest).1
  end.

(** [classify_subject]; [lower] is [str.lower]. *)
Definition classify_subject (lower : string -> string) (text : string) : string :=
  let text_lower := lower text in
  let subject_scores := dict_map (keyword_score text_lower) subject_keywords in
  match subject_scores with
  | _ :: _ => default "general" (max_key subject_scores)
  | [] => "general"
  end.

End SubjectClassifier.

(** ** services/rag_service.py: cutting a text into chunks *)

Module Chunker.

(** A Python [str] is a sequence of code points. *)
Abbreviation text := (list N).

Definition newline : N := 10%N.
Definition carriage_return : N := 13%N.
Definition space : N := 32%N.

(** The characters [str.split()] and [str.strip()] treat as whitespace. *)
Definition is_space (c : N) : bool :=
  (((9 <=? c) && (c <=? 13)) || ((28 <=? c) && (c <=? 32)) ||
   (c =? 133) || (c =? 160) || (c =? 5760) ||
   ((8192 <=? c) && (c <=? 8202)) ||
   (c =? 8232) || (c =? 8233) || (c =? 8239) || (c =? 8287) || (c =? 12288))%N.

(** [c in '.!?'] *)
Definition ends_sentence (c : N) : bool := ((c =? 46) || (c =? 33) || (c =? 63))%N.

(** [s.replace(old, new)] for two single characters *)
Definition replace (old new : N) (s : text) : text :=
  map (fun c => if (c =? old)%N then new else c) s.

(** [s.split()]: the maximal runs of characters that are not whitespace;
    [word] is the run being read. *)
Fixpoint split_from (word : text) (s : text) : list text :=
  match s with
  | [] => match word with [] => [] | _ :: _ => [word] end
  | c :: rest =>
      if is_space c
      then match word with
           | [] => split_from [] rest
           | _ :: _ => word :: split_from [] rest
           end
      else split_from (word ++ [c]) rest
  end.
Definition split (s : text) : list text := split_from [] s.

(** [' '.join(words)] *)
Fixpoint join_spaces (words : list text) : text :=
  match words with
  | [] => []
  | [word] => word
  | word :: rest => word ++ space :: join_spaces rest
  end.

(** [s.strip()] *)
Fixpoint lstrip (s : text) : text :=
  match s with
  | [] => []
  | c :: rest => if is_space c then lstrip rest else s
  end.
Definition strip (s : text) : text := rev (lstrip (rev (lstrip s))).

(** [s[start:stop]] for arbitrary ints *)
Definition clamp (n : nat) (i : Z) : nat :=
  if (i <? 0)%Z then Z.to_nat (Z.max (i + Z.of_nat n) 0)
  else Nat.min (Z.to_nat i) n.
Definition slice (s : text) (start stop : Z) : text :=
  let a := clamp (length s) start in
  let b := clamp (length s) stop in
  take (b - a) (drop a s).

(** [s[i]] for an arbitrary int, raising [IndexError] *)
Definition index (s : text) (i : Z) : result N :=
  let n := Z.of_nat (length s) in
  let j := if (i <? 0)%Z then (i + n)%Z else i in
  if (0 <=? j)%Z && (j <? n)%Z
  then match s !! Z.to_nat j with
       | Some c => Return c
       | None => Raise (Exception "string index out of range")
       end
  else Raise (Exception "string index out of range").

(** The [for i in range(i, ..., -1)] loop with [steps] values of [i] left:
    the new [end] at the first sentence end met, or none. *)
Fixpoint sentence_boundary (s : text) (i : Z) (steps : nat) : result (option Z) :=
  match steps with
  | O => Return None
  | S steps =>
      c ← index s i;
      if ends_sentence c then Return (Some (i + 1)%Z)
      else sentence_boundary s (i - 1)%Z steps
  end.

(** The [while] loop, [fuel] rounds of it at most: [None] when they do not
    suffice. *)
Fixpoint chunk_loop (fuel : nat) (s : text) (chunk_size overlap : Z)
    (start : Z) (chunks : list text) : option (result (list text)) :=
  match fuel with
  | O => None
  | S fuel =>
      let n := Z.of_nat (length s) in
      if (start <? n)%Z then
        let stop := (start + chunk_size)%Z in
        let found :=
          if (stop <? n)%Z
          then
            let bound := Z.max (start + chunk_size - 100) start in
            sentence_boundary s stop (Z.to_nat (stop - bound))
          else Return None in
        match found with
        | Raise e => Some (Raise e)
        | Return found =>
            let stop := default stop found in
            let chunk := strip (slice s start stop) in
            let chunks := match chunk with [] => chunks | _ :: _ => chunks ++ [chunk] end in
            let start := (stop - overlap)%Z in
            if (n <=? start)%Z then Some (Return chunks)
            else chunk_loop fuel s chunk_size overlap start chunks
        end
      else Some (Return chunks)
  end.

(** The text after [replace], [split] and [join]. *)
Definition normalize (s : text) : text :=
  join_spaces (split (replace carriage_return space (replace newline space s))).

(** [extract_and_chunk_text], with the number of rounds its loop may take. *)
Definition extract_and_chunk_text (fuel : nat) (s : text) (chunk_size overlap : Z)
  : option (result (list text)) :=
  match s with
  | [] => Some (Return [])
  | _ :: _ => chunk_loop fuel (normalize s) chunk_size overlap 0 []
  end.

(** The code points of an ASCII literal. *)
Definition codes (s : string) : text := map N_of_ascii (list_ascii_of_string s).

End Chunker.

Section ChunkVocabulary.
Import Chunker.

(** A contiguous piece of a text. *)
Definition piece_of (chunk s : text) : Prop := exists before after, s = before ++ chunk ++ after.

(** A text that neither starts nor ends with whitespace. *)
Definition trimmed (s : text) : Prop :=
  (forall c, head s = Some c -> is_space c = false) /\
  (forall c, last s = Some c -> is_space c = false).

(** A word of [split]: not empty, and free of whitespace. *)
Definition bare_word (w : text) : Prop := w <> [] /\ Forall (fun c => is_space c = false) w.

(** What every chunk of the text [s] cut with [chunk_size] is like. *)
Definition good_chunk (s : text) (chunk_size : Z) (chunk : text) : Prop :=
  chunk <> [] /\ (Z.of_nat (length chunk) <= chunk_size + 1)%Z /\
  trimmed chunk /\ piece_of chunk s.
End ChunkVocabulary.

Definition sample_text : Chunker.text :=
  Chunker.codes "  Plants make food.  They use light, water and air. ".

Definition sample_run_on : Chunker.text :=
  Chunker.codes "one two three four five six seven".

Definition sample_search (query : string) (top_k : Z) (subject : string)
  : list RAGService.Chunk :=
  if String.eqb subject "science"
  then [sample_chunk "light.pdf" 0.4; sample_chunk "plants.pdf" 0.2]
  else [].

(** ** services/rag_service.py: searching several subjects *)

Module SubjectSearch.
Import RAGService.

(** [self.subjects] *)
Definition known_subjects : list string :=
  ["mathematics"; "science"; "history"; "geography"; "english"; "hindi"].

(** A result dict after [result['subject'] = subject]. *)
Record Hit : Type := {
  chunk : Chunk;
  subject : string
}.

(** The dict [search_across_subjects] returns. *)
Record Report : Type := {
  query : string;
  subjects_searched : list string;
  results : list Hit;
  subject_breakdown : dict Z
}.

Section Search.
(** [str.lower], and [search_relevant_content] of a query, a [top_k] and a
    subject, which catches its own exceptions and so always returns a list. *)
Variable lower : string -> string.
Variable search_relevant_content : string -> Z -> string -> list Chunk.

(** [if not subjects: subjects = self.subjects] *)
Definition searched (subjects : option (list string)) : list string :=
  match subjects with
  | None | Some [] => known_subjects
  | Some subjects => subjects
  end.

Definition search_subject (query : string) (top_k : Z)
    (all_results : dict (list Chunk)) (subject : string) : dict (list Chunk) :=
  if bool_decide (lower subject ∈ known_subjects)
  then dict_set subject (search_relevant_content query top_k subject) all_results
  else all_results.

Definition combine (all_results : dict (list Chunk)) : list Hit :=
  flat_map (fun item => map (fun result => {| chunk := result; subject := item.1 |}) item.2)
           all_results.

Definition search_across_subjects (query : string) (subjects : option (list string))
    (top_k : Z) : Report :=
  let subjects := searched subjects in
  let all_results := foldl (search_subject query top_k) [] subjects in
  let combined_results := combine all_results in
  let combined_results := sort_by (fun x => distance (chunk x)) combined_results in
  {| query := query;
     subjects_searched := subjects;
     results := slice_to top_k combined_results;
     subject_breakdown := dict_map (fun results => Z.of_nat (length results)) all_results |}.
End Search.

End SubjectSearch.

(** ** services/adaptive_learning.py: the history of a student *)

Module StudentHistory.
Import AdaptiveLearning.

(** An entry of ['difficulty_progression'][topic]. *)
Record Progress : Type := {
  progress_total : Z;
  progress_correct : Z;
  progress_score : Q
}.

(** An entry of ['learning_pace_history']. *)
Record PaceEntry : Type := {
  entry_attempt : Z;
  entry_pace : Q;
  entry_time_taken : Q
}.

(** An entry of ['recent_activity']. *)
Record Activity : Type := {
  activity_type : string;
  activity_description : string;
  activity_time : string;
  activity_score : string
}.

(** The dict [get_student_history] returns; the one for an unknown user has
    no ['last_activity'] key. *)
Record History : Type := {
  h_total_questions : Z;
  h_correct_answers : Z;
  h_overall_score : Q;
  h_topics_attempted : list string;
  h_difficulty_progression : dict (dict Progress);
  h_learning_pace_history : list PaceEntry;
  h_recent_activity : list Activity;
  h_last_activity : option string
}.

(** [str(i)] for an int *)
Definition str_int (i : Z) : string := NilZero.string_of_int (Z.to_int i).

(** The inner loop over the buckets of one topic. *)
Definition progress_of (stats : dict Tally) : dict Progress :=
  omap (fun item : string * Tally =>
          let '(difficulty, difficulty_stats) := item in
          if (0 <? tally_total difficulty_stats)%Z
          then Some (difficulty,
                     {| progress_total := tally_total difficulty_stats;
                        progress_correct := tally_correct difficulty_stats;
                        progress_score := true_div (tally_correct difficulty_stats)
                                                   (tally_total difficulty_stats) |})
          else None)
       stats.

(** [recent_times[max(0, i-4):i+1]] *)
Definition window (recent_times : list Q) (i : nat) : list Q :=
  drop (i - 4) (take (i + 1) recent_times).

Definition pace_entry (recent_times : list Q) (i : nat) : PaceEntry :=
  let avg_time := mean (window recent_times i) in
  let pace := if Qltb 0 avg_time then (60 / avg_time)%Q else 0%Q in
  {| entry_attempt := Z.of_nat i + 1;
     entry_pace := round2 pace;
     entry_time_taken := round2 avg_time |}.

Section History.
(** [datetime.strftime('%Y-%m-%d %H:%M')] and [datetime.isoformat()] *)
Variable strftime : Z -> string.
Variable isoformat : Z -> string.

Definition get_student_history (uid : string) (students : Students) : History :=
  match students !! uid with
  | None =>
      {| h_total_questions := 0; h_correct_answers := 0; h_overall_score := 0;
         h_topics_attempted := []; h_difficulty_progression := [];
         h_learning_pace_history := []; h_recent_activity := [];
         h_last_activity := None |}
  | Some profile =>
      let topics_attempted := dict_keys (topic_performance profile) in
      let difficulty_progression := dict_map progress_of (topic_performance profile) in
      let learning_pace_history :=
        match recent_times profile with
        | Some ((_ :: _) as recent_times) =>
            map (pace_entry recent_times) (seq 0 (length recent_times))
        | _ => []
        end in
      let recent_activity :=
        match recent_times profile with
        | Some ((_ :: _) as recent_times) =>
            [{| activity_type := "quiz_completion";
                activity_description :=
                  "Completed " +:+ str_int (Z.of_nat (length recent_times)) +:+ " questions";
                activity_time := strftime (last_activity profile);
                activity_score :=
                  str_int (correct_answers profile) +:+ "/" +:+
                  str_int (total_questions profile) +:+ " correct" |}]
        | _ => []
        end in
      {| h_total_questions := total_questions profile;
         h_correct_answers := correct_answers profile;
         h_overall_score :=
           if (0 <? total_questions profile)%Z
           then true_div (correct_answers profile) (total_questions profile)
           else 0%Q;
         h_topics_attempted := topics_attempted;
         h_difficulty_progression := difficulty_progression;
         h_learning_pace_history := learning_pace_history;
         h_recent_activity := recent_activity;
         h_last_activity := Some (isoformat (last_activity profile)) |}
  end.
End History.

End StudentHistory.

(** The progress entry of a bucket that holds the calls [l]. *)
Definition progress_after (l : list AdaptiveLearning.Call) : StudentHistory.Progress :=
  {| StudentHistory.progress_total := Z.of_nat (length l);
     StudentHistory.progress_correct := Z.of_nat (length (answered_right l));
     StudentHistory.progress_score :=
       true_div (Z.of_nat (length (answered_right l))) (Z.of_nat (length l)) |}.

(** * Properties *)

(** ** Comparisons of rationals *)

Lemma Qltb_true a b : Qltb a b = true <-> (a < b)%Q.
Proof.
  unfold Qltb. rewrite negb_true_iff, <- not_true_iff_false, Qle_bool_iff.
  split; [apply Qnot_le_lt | apply Qlt_not_le].
Qed.

Lemma Qltb_false a b : Qltb a b = false <-> (b <= a)%Q.
Proof. unfold Qltb. rewrite negb_false_iff. apply Qle_bool_iff. Qed.



Lemma py_max_Qmax a b : (py_max a b == Qmax a b)%Q.
Proof.
  unfold py_max. destruct (Qltb a b) eqn:E.
  - apply Qltb_true in E. symmetry. apply Q.max_r. by apply Qlt_le_weak.
  - apply Qltb_false in E. symmetry. by apply Q.max_l.
Qed.

(** ** Dictionaries *)


Section DictFacts.
Context {V : Type}.
Implicit Types (d : dict V) (k : string) (v : V).

Lemma dict_get_set_eq k v d : dict_get k (dict_set k v d) = Some v.
Proof.
  induction d as [|[k' v'] d IH]; simpl.
  - by rewrite String.eqb_refl.
  - destruct (String.eqb k k') eqn:E; simpl.
    + by rewrite String.eqb_refl.
    + by rewrite E.
Qed.

Lemma dict_get_set_ne k k' v d : k <> k' -> dict_get k' (dict_set k v d) = dict_get k' d.
Proof.
  intros Hne. induction d as [|[k0 v0] d IH]; simpl.
  - by destruct (String.eqb_spec k' k); simplify_eq.
  - destruct (String.eqb_spec k k0); simpl.
    + subst k0. by destruct (String.eqb_spec k' k); simplify_eq.
    + by rewrite IH.
Qed.

Lemma dict_get_alter_eq f k d : dict_get k (dict_alter f k d) = f <$> dict_get k d.
Proof.
  induction d as [|[k' v'] d IH]; simpl; [done|].
  destruct (String.eqb k k') eqn:E; simpl; by rewrite E.
Qed.

Lemma dict_get_alter_ne f k k' d : k <> k' -> dict_get k' (dict_alter f k d) = dict_get k' d.
Proof.
  intros Hne. induction d as [|[k0 v0] d IH]; simpl; [done|].
  destruct (String.eqb_spec k k0); simpl.
  - subst k0. by destruct (String.eqb_spec k' k); simplify_eq.
  - by rewrite IH.
Qed.

Lemma dict_keys_alter f k d : dict_keys (dict_alter f k d) = dict_keys d.
Proof.
  unfold dict_keys. induction d as [|[k' v'] d IH]; simpl; [done|].
  destruct (String.eqb k k'); simpl; [done | f_equal; exact IH].
Qed.

Lemma dict_keys_set_present k v d :
  is_Some (dict_get k d) -> dict_keys (dict_set k v d) = dict_keys d.
Proof.
  unfold dict_keys. induction d as [|[k' v'] d IH]; simpl.
  - by intros [? ?].
  - destruct (String.eqb_spec k k'); simpl; intros H; [by subst|].
    f_equal. by apply IH.
Qed.

Lemma dict_keys_set_absent k v d :
  dict_get k d = None -> dict_keys (dict_set k v d) = dict_keys d ++ [k].
Proof.
  unfold dict_keys. induction d as [|[k' v'] d IH]; simpl; [done|].
  destruct (String.eqb_spec k k'); simpl; intros H; [done|].
  f_equal. by apply IH.
Qed.

Lemma dict_get_Some_keys k d : is_Some (dict_get k d) <-> k ∈ dict_keys d.
Proof.
  unfold dict_keys. induction d as [|[k' v'] d IH]; simpl.
  - split; [by intros [? ?] | by intros ?%elem_of_nil].
  - rewrite elem_of_cons. destruct (String.eqb_spec k k').
    + split; eauto.
    + rewrite IH. split; [by right | by intros [?|?]].
Qed.

Lemma dict_get_None_keys k d : dict_get k d = None <-> k ∉ dict_keys d.
Proof. rewrite <- dict_get_Some_keys, eq_None_not_Some. done. Qed.

Lemma dict_get_elem_of k v d : dict_get k d = Some v -> (k, v) ∈ d.
Proof.
  induction d as [|[k' v'] d IH]; simpl; [done|].
  destruct (String.eqb_spec k k').
  - intros [= ->]. subst. left.
  - intros H. right. auto.
Qed.

Lemma dict_elem_of_get k v d : NoDup (dict_keys d) -> (k, v) ∈ d -> dict_get k d = Some v.
Proof.
  unfold dict_keys. induction d as [|[k' v'] d IH]; simpl.
  - by intros _ ?%elem_of_nil.
  - rewrite NoDup_cons. intros [Hnotin Hnd] [Heq|Hin]%elem_of_cons.
    + injection Heq as -> ->. by rewrite String.eqb_refl.
    + destruct (String.eqb_spec k k'); [|auto].
      subst k'. exfalso. apply Hnotin. apply (list_elem_of_fmap_2 fst) in Hin. done.
Qed.

Lemma dict_get_map {W} (f : V -> W) k d : dict_get k (dict_map f d) = f <$> dict_get k d.
Proof.
  induction d as [|[k' v'] d IH]; simpl; [done|].
  destruct (String.eqb k k'); simpl; auto.
Qed.
End DictFacts.

Lemma keys_three_inv {V} (d : dict V) :
  dict_keys d = three ->
  exists a b c, d = [("easy", a); ("medium", b); ("hard", c)].
Proof.
  unfold dict_keys, three. intros H.
  destruct d as [|[k1 a] [|[k2 b] [|[k3 c] [|? ?]]]]; simplify_eq/=.
  by exists a, b, c.
Qed.

Lemma elem_of_three (k : string) : k ∈ three <-> k = "easy" \/ k = "medium" \/ k = "hard".
Proof. unfold three. rewrite !elem_of_cons, elem_of_nil. tauto. Qed.

(** ** The profile under [record_attempt] *)

Section ProfileFacts.
Import AdaptiveLearning.



Lemma wf_new_profile uid now : wf_profile (new_profile uid now).
Proof. constructor. Qed.

Lemma wf_lookup p t by_difficulty :
  wf_profile p -> dict_get t (topic_performance p) = Some by_difficulty ->
  dict_keys by_difficulty = three.
Proof.
  unfold wf_profile. intros Hwf Hget%dict_get_elem_of.
  rewrite Forall_forall in Hwf. apply (Hwf _ Hget).
Qed.

Lemma wf_dict_set t by_difficulty (tp : dict (dict Tally)) :
  Forall (fun item : string * dict Tally => dict_keys item.2 = three) tp ->
  dict_keys by_difficulty = three ->
  Forall (fun item : string * dict Tally => dict_keys item.2 = three)
         (dict_set t by_difficulty tp).
Proof.
  intros Hwf Hk. induction Hwf as [|[k v] tp Hv Htp IH]; simpl.
  - by repeat constructor.
  - destruct (String.eqb t k); constructor; auto.
Qed.

Lemma wf_dict_alter f t (tp : dict (dict Tally)) :
  (forall by_difficulty, dict_keys (f by_difficulty) = dict_keys by_difficulty) ->
  Forall (fun item : string * dict Tally => dict_keys item.2 = three) tp ->
  Forall (fun item : string * dict Tally => dict_keys item.2 = three)
         (dict_alter f t tp).
Proof.
  intros Hf Hwf. induction Hwf as [|[k v] tp Hv Htp IH]; simpl; [constructor|].
  destruct (String.eqb t k); constructor; auto. simpl in *. by rewrite Hf.
Qed.

(** *** [_update_preferred_difficulty] returns on a well-formed profile *)


Lemma add_scores_ok (topic_stats : dict Tally) acc :
  dict_keys topic_stats = three -> three_keys acc ->
  exists acc', add_topic_scores acc topic_stats = Return acc' /\ three_keys acc'.
Proof.
  unfold add_topic_scores. intros (a & b & c & ->)%keys_three_inv [Hs Hc].
  destruct acc as [scores counts]. simpl in Hs, Hc.
  apply keys_three_inv in Hs as (s1 & s2 & s3 & ->).
  apply keys_three_inv in Hc as (c1 & c2 & c3 & ->).
  unfold three_keys. simpl.
  destruct (0 <? tally_total a)%Z, (0 <? tally_total b)%Z, (0 <? tally_total c)%Z;
    simpl; eexists; (split; [reflexivity | done]).
Qed.

Lemma all_scores_ok (tps : list (dict Tally)) acc :
  Forall (fun topic_stats => dict_keys topic_stats = three) tps -> three_keys acc ->
  exists acc',
    for_each add_topic_scores tps acc = Return acc' /\ three_keys acc'.
Proof.
  intros Hwf. revert acc. induction Hwf as [|ts tps Hts Htps IH]; intros acc Hacc.
  - simpl. eauto.
  - destruct (add_scores_ok ts acc Hts Hacc) as (acc1 & Heq & Hacc1).
    cbn [for_each]. rewrite Heq. by apply IH.
Qed.

Lemma update_preferred_difficulty_returns p :
  wf_profile p ->
  exists d, _update_preferred_difficulty p = Return (set_preferred_difficulty d p).
Proof.
  intros Hwf. unfold _update_preferred_difficulty. cbv zeta.
  destruct (all_scores_ok (dict_values (topic_performance p))
              (([("easy", 0%Q); ("medium", 0%Q); ("hard", 0%Q)] : dict Q),
               ([("easy", 0%Z); ("medium", 0%Z); ("hard", 0%Z)] : dict Z)))
    as ([scores counts] & -> & Hs & Hc).
  - unfold dict_values. apply Forall_fmap. exact Hwf.
  - done.
  - simpl in Hs, Hc.
    apply keys_three_inv in Hs as (s1 & s2 & s3 & ->).
    apply keys_three_inv in Hc as (c1 & c2 & c3 & ->).
    simpl. unfold add_average, average_score. simpl.
    destruct (0 <? c1)%Z, (0 <? c2)%Z, (0 <? c3)%Z; simpl; eauto.
Qed.
End ProfileFacts.

Section RecordFacts.
Import AdaptiveLearning.


Lemma ensure_topic_performance a p :
  topic_performance (ensure_topic a p) =
    if dict_mem (topic a) (topic_performance p) then topic_performance p
    else dict_set (topic a) fresh_topic (topic_performance p).
Proof. unfold ensure_topic. by destruct (dict_mem _ _). Qed.

Lemma ensure_topic_present a p :
  exists by_difficulty,
    dict_get (topic a) (topic_performance (ensure_topic a p)) = Some by_difficulty.
Proof.
  rewrite ensure_topic_performance. unfold dict_mem.
  destruct (dict_get (topic a) (topic_performance p)) as [bd|] eqn:E.
  - eauto.
  - rewrite dict_get_set_eq. eauto.
Qed.

Lemma ensure_topic_wf a p : wf_profile p -> wf_profile (ensure_topic a p).
Proof.
  unfold wf_profile. rewrite ensure_topic_performance. intros Hwf.
  destruct (dict_mem _ _); [done|]. by apply wf_dict_set.
Qed.

Lemma interrupted_wf now a p : wf_profile p -> wf_profile (interrupted now a p).
Proof. intros Hwf. by apply ensure_topic_wf. Qed.

Lemma counted_wf now a p : wf_profile p -> wf_profile (counted now a p).
Proof.
  intros Hwf. unfold wf_profile, counted. simpl.
  apply wf_dict_alter; [apply dict_keys_alter|].
  by apply (ensure_topic_wf a (update_basic_stats now a p)).
Qed.

Lemma update_topic_stats_raise a p by_difficulty :
  dict_get (topic a) (topic_performance p) = Some by_difficulty ->
  dict_get (difficulty a) by_difficulty = None ->
  update_topic_stats a p = Raise (KeyError (difficulty a)).
Proof.
  intros H1 H2. unfold update_topic_stats, dict_index. rewrite H1. simpl. by rewrite H2.
Qed.

Lemma update_topic_stats_return a p by_difficulty stats :
  dict_get (topic a) (topic_performance p) = Some by_difficulty ->
  dict_get (difficulty a) by_difficulty = Some stats ->
  update_topic_stats a p =
    Return (set_topic_performance
              (dict_alter (dict_alter (bump (correct a)) (difficulty a)) (topic a)
                          (topic_performance p)) p).
Proof.
  intros H1 H2. unfold update_topic_stats, dict_index. rewrite H1. simpl. by rewrite H2.
Qed.

Lemma bucket_of_interrupted now a p :
  wf_profile p ->
  exists by_difficulty,
    dict_get (topic a) (topic_performance (interrupted now a p)) = Some by_difficulty /\
    dict_keys by_difficulty = three.
Proof.
  intros Hwf. destruct (ensure_topic_present a (update_basic_stats now a p)) as [bd Hbd].
  exists bd. split; [done|].
  apply (wf_lookup (interrupted now a p) (topic a)); [|done]. by apply interrupted_wf.
Qed.

Lemma record_on_profile_raise now a p :
  wf_profile p -> difficulty a ∉ three ->
  record_on_profile now a p = (interrupted now a p, Raise (KeyError (difficulty a))).
Proof.
  intros Hwf Hbad.
  destruct (bucket_of_interrupted now a p Hwf) as (bd & Hbd & Hkeys).
  rewrite <- Hkeys in Hbad. apply dict_get_None_keys in Hbad.
  unfold record_on_profile. cbv zeta. fold (interrupted now a p).
  by rewrite (update_topic_stats_raise a _ bd Hbd Hbad).
Qed.

Lemma record_on_profile_return now a p :
  wf_profile p -> difficulty a ∈ three ->
  exists d,
    record_on_profile now a p = (set_preferred_difficulty d (counted now a p), Return tt).
Proof.
  intros Hwf Hgood.
  destruct (bucket_of_interrupted now a p Hwf) as (bd & Hbd & Hkeys).
  rewrite <- Hkeys in Hgood. apply dict_get_Some_keys in Hgood as [stats Hstats].
  unfold record_on_profile. cbv zeta. fold (interrupted now a p).
  rewrite (update_topic_stats_return a _ bd stats Hbd Hstats).
  change (_update_learning_pace _ a) with (counted now a p).
  destruct (update_preferred_difficulty_returns (counted now a p)) as [d ->].
  - by apply counted_wf.
  - eauto.
Qed.

(** *** The ledger of bucket totals *)

Lemma foldl_sum (f : Tally -> Z) (l : list Tally) (z : Z) :
  foldl (fun acc t => acc + f t)%Z z l = (z + foldr (fun t acc => f t + acc) 0 l)%Z.
Proof.
  revert z. induction l as [|t l IH]; intros z; simpl; [lia|]. rewrite IH. lia.
Qed.

Lemma sum_over_values (f : Tally -> Z) (by_difficulty : dict Tally) :
  sum_over f by_difficulty = foldr (fun t acc => f t + acc)%Z 0%Z (dict_values by_difficulty).
Proof.
  unfold sum_over, dict_values.
  induction by_difficulty as [|[k t] l IH]; simpl; [done|]. by rewrite IH.
Qed.

Lemma topic_total_sum by_difficulty : topic_total by_difficulty = sum_over tally_total by_difficulty.
Proof. unfold topic_total. rewrite foldl_sum, sum_over_values. lia. Qed.

Lemma topic_correct_sum by_difficulty :
  topic_correct by_difficulty = sum_over tally_correct by_difficulty.
Proof. unfold topic_correct. rewrite foldl_sum, sum_over_values. lia. Qed.

Lemma sum_total_bump is_correct d (by_difficulty : dict Tally) :
  dict_keys by_difficulty = three -> d ∈ three ->
  sum_over tally_total (dict_alter (bump is_correct) d by_difficulty)
  = (sum_over tally_total by_difficulty + 1)%Z.
Proof.
  intros (a & b & c & ->)%keys_three_inv Hd%elem_of_three.
  destruct Hd as [-> | [-> | ->]]; unfold sum_over; simpl; lia.
Qed.

Lemma ledger_alter f t (tp : dict (dict Tally)) by_difficulty :
  dict_get t tp = Some by_difficulty ->
  ledger_of (dict_alter f t tp)
  = (ledger_of tp - sum_over tally_total by_difficulty
     + sum_over tally_total (f by_difficulty))%Z.
Proof.
  induction tp as [|[k v] tp IH]; simpl; [done|].
  destruct (String.eqb t k); simpl.
  - intros [= ->]. lia.
  - intros H. rewrite (IH H). lia.
Qed.

Lemma ledger_set_absent t v (tp : dict (dict Tally)) :
  dict_get t tp = None ->
  ledger_of (dict_set t v tp) = (ledger_of tp + sum_over tally_total v)%Z.
Proof.
  induction tp as [|[k v'] tp IH]; simpl; [lia|].
  destruct (String.eqb t k); simpl; [done|].
  intros H. rewrite (IH H). lia.
Qed.

Lemma ledger_ensure_topic a p :
  ledger_total (ensure_topic a p) = ledger_total p.
Proof.
  unfold ledger_total. rewrite ensure_topic_performance. unfold dict_mem.
  destruct (dict_get (topic a) (topic_performance p)) eqn:E; [done|].
  rewrite ledger_set_absent by done. unfold sum_over. simpl. lia.
Qed.

Lemma ledger_interrupted now a p : ledger_total (interrupted now a p) = ledger_total p.
Proof. unfold interrupted. by rewrite ledger_ensure_topic. Qed.

Lemma ledger_counted now a p :
  wf_profile p -> difficulty a ∈ three ->
  ledger_total (counted now a p) = (ledger_total p + 1)%Z.
Proof.
  intros Hwf Hgood.
  destruct (bucket_of_interrupted now a p Hwf) as (bd & Hbd & Hkeys).
  change (ledger_total (counted now a p))
    with (ledger_of (dict_alter (dict_alter (bump (correct a)) (difficulty a)) (topic a)
                       (topic_performance (interrupted now a p)))).
  rewrite (ledger_alter _ _ _ bd Hbd), sum_total_bump by done.
  change (ledger_of (topic_performance (interrupted now a p)))
    with (ledger_total (interrupted now a p)).
  rewrite ledger_interrupted. lia.
Qed.
End RecordFacts.

(** ** Runs of calls *)

Section Sequences.
Import AdaptiveLearning.


Lemma record_attempt_lookup u v now a (st : Students) :
  (record_attempt v now a st).1 !! u =
    if decide (v = u)
    then Some (record_on_profile now a (default (new_profile u now) (st !! u))).1
    else st !! u.
Proof.
  unfold record_attempt.
  destruct (record_on_profile now a (default (new_profile v now) (st !! v))) as [p o] eqn:E.
  simpl. case_decide as Huv.
  - subst v. rewrite lookup_insert_eq. by rewrite E.
  - by rewrite lookup_insert_ne.
Qed.

Lemma record_attempts_lookup u calls (st : Students) :
  record_attempts calls st !! u = foldl (step_profile u) (st !! u) (calls_of u calls).
Proof.
  unfold record_attempts, calls_of. revert st.
  induction calls as [|c calls IH]; intros st; [done|].
  simpl. rewrite IH, record_attempt_lookup, filter_cons.
  case_decide as Hu; [|done]. subst u. done.
Qed.

Lemma accepted_all (calls : list Call) :
  Forall (fun c => difficulty (call_attempt c) ∈ three) calls -> accepted calls = calls.
Proof.
  unfold accepted. induction 1 as [|c l Hc Hl IH]; [done|].
  rewrite filter_cons_True by done. by rewrite IH.
Qed.

Lemma last_n_short {A} n (l : list A) : length l <= n -> last_n n l = l.
Proof. intros H. unfold last_n. by replace (length l - n) with 0 by lia. Qed.

Lemma length_last_n {A} n (l : list A) : length (last_n n l) <= n.
Proof. unfold last_n. rewrite length_drop. lia. Qed.

Lemma last_n_snoc {A} n (l : list A) x :
  0 < n -> last_n n (last_n n l ++ [x]) = last_n n (l ++ [x]).
Proof.
  intros Hn. destruct (decide (length l <= n)) as [Hle|Hgt].
  - by rewrite (last_n_short n l).
  - unfold last_n. rewrite !length_app, length_drop. simpl.
    replace (length l - (length l - n) + 1 - n) with 1 by lia.
    replace (length l + 1 - n) with (length l - n + 1) by lia.
    rewrite (drop_app_le l), (drop_app_le (drop _ l)), drop_drop; [done| |lia].
    rewrite length_drop. lia.
Qed.

Lemma keep_last_20 (times : list Q) x :
  (if (20 <? length (times ++ [x]))%nat then last_n 20 (times ++ [x]) else times ++ [x])
  = last_n 20 (times ++ [x]).
Proof.
  destruct (Nat.ltb_spec 20 (length (times ++ [x]))); [done|].
  by rewrite last_n_short.
Qed.

Lemma recent_times_counted now a p :
  recent_times (counted now a p)
  = Some (last_n 20 (default [] (recent_times p) ++ [time_taken a])).
Proof.
  unfold counted, _update_learning_pace. cbv zeta. simpl.
  rewrite keep_last_20.
  replace (recent_times (ensure_topic a (update_basic_stats now a p)))
    with (recent_times p); [done|].
  unfold ensure_topic. by destruct (dict_mem _ _).
Qed.

Lemma learning_pace_counted now a p :
  learning_pace (counted now a p)
  = pace_of (last_n 20 (default [] (recent_times p) ++ [time_taken a])).
Proof.
  unfold counted, _update_learning_pace. cbv zeta. simpl.
  rewrite keep_last_20.
  replace (recent_times (ensure_topic a (update_basic_stats now a p)))
    with (recent_times p); [done|].
  unfold ensure_topic. by destruct (dict_mem _ _).
Qed.

Lemma interrupted_fields now a p :
  total_questions (interrupted now a p) = (total_questions p + 1)%Z /\
  correct_answers (interrupted now a p)
    = (if correct a then correct_answers p + 1 else correct_answers p)%Z /\
  cognitive_levels (interrupted now a p) = cognitive_levels p /\
  recent_times (interrupted now a p) = recent_times p /\
  learning_pace (interrupted now a p) = learning_pace p /\
  preferred_difficulty (interrupted now a p) = preferred_difficulty p /\
  recent_attempts (interrupted now a p) = recent_attempts p.
Proof. unfold interrupted, ensure_topic. by destruct (dict_mem _ _). Qed.

Lemma counted_fields now a p :
  total_questions (counted now a p) = (total_questions p + 1)%Z /\
  correct_answers (counted now a p)
    = (if correct a then correct_answers p + 1 else correct_answers p)%Z /\
  recent_attempts (counted now a p) = recent_attempts p.
Proof. unfold counted, ensure_topic. simpl. by destruct (dict_mem _ _). Qed.
End Sequences.

Section Invariant.
Import AdaptiveLearning.


Lemma profile_inv_new uid now : profile_inv [] (new_profile uid now).
Proof. constructor; first [apply wf_new_profile | reflexivity | by split]. Qed.

Lemma accepted_snoc_good l c :
  difficulty (call_attempt c) ∈ three -> accepted (l ++ [c]) = accepted l ++ [c].
Proof.
  intros H. unfold accepted. rewrite filter_app, filter_cons.
  by rewrite decide_True.
Qed.

Lemma accepted_snoc_bad l c :
  difficulty (call_attempt c) ∉ three -> accepted (l ++ [c]) = accepted l.
Proof.
  intros H. unfold accepted. rewrite filter_app, filter_cons.
  rewrite decide_False by done. by rewrite app_nil_r.
Qed.

Lemma answered_right_snoc l c :
  Z.of_nat (length (answered_right (l ++ [c])))
  = (if correct (call_attempt c)
     then Z.of_nat (length (answered_right l)) + 1
     else Z.of_nat (length (answered_right l)))%Z.
Proof.
  unfold answered_right. rewrite filter_app, filter_cons, length_app.
  destruct (correct (call_attempt c)).
  - rewrite decide_True by done. simpl. lia.
  - rewrite decide_False by done. simpl. lia.
Qed.

Lemma profile_inv_step l p c :
  profile_inv l p ->
  profile_inv (l ++ [c]) (record_on_profile (call_now c) (call_attempt c) p).1.
Proof.
  intros [Hwf Htot Hcor Hled Htimes Hattr Hpace Hwin].
  assert (exists now a, now = call_now c /\ a = call_attempt c) as (now & a & Hnow & Ha)
      by eauto.
  rewrite <- Hnow, <- Ha.
  destruct (decide (difficulty a ∈ three)) as [Hgood|Hbad].
  - destruct (record_on_profile_return now a p Hwf Hgood) as [d ->]. simpl.
    destruct (counted_fields now a p) as (Ht & Hc & Hw).
    assert (accepted (l ++ [c]) = accepted l ++ [c]) as Hacc
        by (apply accepted_snoc_good; by rewrite <- Ha).
    assert (time_taken (call_attempt c) = time_taken a) as Htime by (by rewrite Ha).
    assert (correct (call_attempt c) = correct a) as Hright by (by rewrite Ha).
    set (q := counted now a p) in *.
    constructor.
    + apply (counted_wf now a p Hwf).
    + change (total_questions q = Z.of_nat (length (l ++ [c]))).
      rewrite Ht, Htot, length_app. simpl. lia.
    + change (correct_answers q = Z.of_nat (length (answered_right (l ++ [c])))).
      rewrite Hc, Hcor, answered_right_snoc, Hright. done.
    + change (ledger_total q = Z.of_nat (length (accepted (l ++ [c])))).
      unfold q. rewrite ledger_counted, Hled, Hacc, length_app by done. simpl. lia.
    + change (default [] (recent_times q) = last_n 20 (times_of (accepted (l ++ [c])))).
      unfold q. rewrite recent_times_counted, Htimes, Hacc. simpl.
      unfold times_of. rewrite map_app. simpl. rewrite Htime. apply last_n_snoc. lia.
    + change (recent_times q = None <-> accepted (l ++ [c]) = []).
      unfold q. rewrite recent_times_counted, Hacc. split; [done|].
      intros H. by apply app_eq_nil in H as [_ ?].
    + change (learning_pace q =
                match accepted (l ++ [c]) with
                | [] => 0%Q
                | _ :: _ => pace_of (default [] (recent_times q))
                end).
      unfold q. rewrite learning_pace_counted, recent_times_counted, Hacc. simpl.
      by destruct (accepted l).
    + change (recent_attempts q = None). by rewrite Hw.
  - rewrite (record_on_profile_raise now a p Hwf Hbad). simpl.
    destruct (interrupted_fields now a p) as (Ht & Hc & _ & Hr & Hp & _ & Hw).
    assert (accepted (l ++ [c]) = accepted l) as Hacc
        by (apply accepted_snoc_bad; by rewrite <- Ha).
    assert (correct (call_attempt c) = correct a) as Hright by (by rewrite Ha).
    constructor.
    + by apply interrupted_wf.
    + rewrite Ht, Htot, length_app. simpl. lia.
    + rewrite Hc, Hcor, answered_right_snoc, Hright. done.
    + rewrite ledger_interrupted, Hled, Hacc. done.
    + by rewrite Hr, Hacc.
    + by rewrite Hr, Hacc.
    + by rewrite Hp, Hr, Hacc.
    + by rewrite Hw.
Qed.

Lemma profile_inv_fold u (l : list Call) :
  match foldl (step_profile u) None l with
  | None => l = []
  | Some p => l <> [] /\ profile_inv l p
  end.
Proof.
  induction l as [|c l IH] using rev_ind; [done|].
  rewrite foldl_app. simpl. split; [by destruct l|].
  destruct (foldl (step_profile u) None l) as [p|].
  - destruct IH as [_ IH]. by apply profile_inv_step.
  - subst l. simpl. apply (profile_inv_step [] _ c), profile_inv_new.
Qed.

Lemma profile_after_calls u calls (st : Students) :
  st !! u = None ->
  match record_attempts calls st !! u with
  | None => calls_of u calls = []
  | Some p => calls_of u calls <> [] /\ profile_inv (calls_of u calls) p
  end.
Proof. intros H. rewrite record_attempts_lookup, H. apply profile_inv_fold. Qed.
End Invariant.

(** ** Weak topics *)


Section SortFacts.
Context {A : Type} (key : A -> Q).


Lemma insert_sorted_perm x l : insert_sorted key x l ≡ₚ x :: l.
Proof.
  induction l as [|y l IH]; simpl; [done|].
  destruct (Qltb (key x) (key y)); [done|].
  rewrite IH. apply Permutation_swap.
Qed.

Lemma insert_sorted_sorted x l :
  StronglySorted (by_key key) l -> StronglySorted (by_key key) (insert_sorted key x l).
Proof.
  induction 1 as [|y l Hl IH Hy]; simpl.
  - repeat constructor.
  - destruct (Qltb (key x) (key y)) eqn:E.
    + apply Qltb_true in E. constructor; [by constructor|].
      constructor; [by apply Qlt_le_weak|].
      eapply Forall_impl; [exact Hy|]. intros z Hz. unfold by_key in *.
      eapply Qle_trans; [by apply Qlt_le_weak|done].
    + apply Qltb_false in E. constructor; [done|].
      rewrite insert_sorted_perm. by constructor.
Qed.

Lemma sort_from_sorted acc l :
  StronglySorted (by_key key) acc ->
  StronglySorted (by_key key) (foldl (fun acc x => insert_sorted key x acc) acc l).
Proof.
  revert acc. induction l as [|x l IH]; intros acc Hacc; simpl; [done|].
  by apply IH, insert_sorted_sorted.
Qed.

Lemma sort_from_perm acc l :
  foldl (fun acc x => insert_sorted key x acc) acc l ≡ₚ acc ++ l.
Proof.
  revert acc. induction l as [|x l IH]; intros acc; simpl.
  - by rewrite app_nil_r.
  - rewrite IH, insert_sorted_perm. simpl. apply Permutation_middle.
Qed.

Lemma sort_by_sorted l : StronglySorted (by_key key) (sort_by key l).
Proof. apply sort_from_sorted. constructor. Qed.

Lemma sort_by_perm l : sort_by key l ≡ₚ l.
Proof. unfold sort_by. by rewrite sort_from_perm. Qed.

Lemma StronglySorted_take n l : StronglySorted (by_key key) l -> StronglySorted (by_key key) (take n l).
Proof.
  intros H. revert n. induction H as [|y l Hl IH Hy]; intros [|n]; simpl; try constructor.
  - apply IH.
  - by apply Forall_take.
Qed.
End SortFacts.

Lemma slice_to_count {A} (n : nat) (l : list A) : slice_to (Z.of_nat n) l = take n l.
Proof.
  unfold slice_to. destruct (Z.leb_spec 0 (Z.of_nat n)); [|lia]. by rewrite Nat2Z.id.
Qed.

Section WeakTopics.
Import AdaptiveLearning.


Lemma weak_candidate_Some t stats t' s :
  weak_candidate (t, stats) = Some (t', s) <->
  t' = t /\ (5 <= sum_over tally_total stats)%Z /\
  s = true_div (sum_over tally_correct stats) (sum_over tally_total stats).
Proof.
  unfold weak_candidate. rewrite topic_total_sum, topic_correct_sum.
  destruct (Z.leb_spec 5 (sum_over tally_total stats)).
  - split; [by intros [= <- <-]| by intros (-> & _ & ->)].
  - split; [done | intros (_ & ? & _); lia].
Qed.

Lemma elem_of_qualifying p t s :
  (t, s) ∈ qualifying p <->
  exists stats, (t, stats) ∈ topic_performance p /\
                (5 <= sum_over tally_total stats)%Z /\
                s = true_div (sum_over tally_correct stats) (sum_over tally_total stats).
Proof.
  unfold qualifying. rewrite sort_by_perm, list_elem_of_omap. split.
  - intros ([t0 stats] & Hin & (-> & H5 & ->)%weak_candidate_Some). eauto.
  - intros (stats & Hin & H5 & ->). exists (t, stats). split; [done|].
    by apply weak_candidate_Some.
Qed.

(** C9.  For a user with a profile, [get_weak_topics] returns the first
    [limit] entries of the list of qualifying topics: a pair sits in that
    list exactly when some topic of the profile has at least 5 attempts
    summed over its buckets and the pair is that topic with its overall
    accuracy; the list, and so the result, ascends in accuracy; at most
    [limit] pairs come back, all of them when there are no more than
    [limit]; a topic with fewer than 5 attempts never appears (the keys of
    a Python dict being distinct).  [limit] is a count. *)
Theorem weak_topics_need_five_attempts (st : Students) u p (limit : nat) :
  st !! u = Some p ->
  let weak := get_weak_topics u (Z.of_nat limit) st in
  weak = take limit (qualifying p) /\
  (forall t s,
      (t, s) ∈ qualifying p <->
      exists stats, (t, stats) ∈ topic_performance p /\
                    (5 <= sum_over tally_total stats)%Z /\
                    s = true_div (sum_over tally_correct stats)
                                 (sum_over tally_total stats)) /\
  StronglySorted (fun a b => (a.2 <= b.2)%Q) (qualifying p) /\
  StronglySorted (fun a b => (a.2 <= b.2)%Q) weak /\
  length weak <= limit /\
  (length (qualifying p) <= limit -> weak = qualifying p) /\
  (forall t stats s,
      NoDup (dict_keys (topic_performance p)) ->
      dict_get t (topic_performance p) = Some stats ->
      (sum_over tally_total stats < 5)%Z ->
      (t, s) ∉ weak).
Proof.
  intros Hp weak.
  assert (weak = take limit (qualifying p)) as Hweak.
  { unfold weak, get_weak_topics. rewrite Hp. apply slice_to_count. }
  rewrite Hweak. repeat split.
  - by apply elem_of_qualifying.
  - by apply elem_of_qualifying.
  - apply (sort_by_sorted snd).
  - apply (StronglySorted_take snd), (sort_by_sorted snd).
  - rewrite length_take. lia.
  - intros Hlen. by apply take_ge.
  - intros t stats s Hnd Hget Hlow Hin.
    apply (subseteq_take limit) in Hin.
    apply elem_of_qualifying in Hin as (stats' & Hin & H5 & _).
    apply (dict_elem_of_get _ _ _ Hnd) in Hin. simplify_eq. lia.
Qed.
End WeakTopics.

(** ** Recommended difficulty *)


Section Recommendation.
Import AdaptiveLearning.






End Recommendation.

(** ** Counters and exceptions *)

Section Ledger.
Import AdaptiveLearning.

Lemma reachable_wf calls u p :
  record_attempts calls ∅ !! u = Some p -> wf_profile p.
Proof.
  intros Hp. pose proof (profile_after_calls u calls ∅ (lookup_empty u)) as H.
  rewrite Hp in H. destruct H as [_ H]. apply (inv_wf _ _ H).
Qed.

Lemma cognitive_levels_counted now a p :
  dict_get (cognitive_level a) (cognitive_levels (counted now a p))
  = Some (bump (correct a)
            (default zero_tally (dict_get (cognitive_level a) (cognitive_levels p)))).
Proof.
  unfold counted, _update_learning_pace, update_cognitive_level. cbv zeta. simpl.
  replace (cognitive_levels (ensure_topic a (update_basic_stats now a p)))
    with (cognitive_levels p) by (unfold ensure_topic; by destruct (dict_mem _ _)).
  rewrite dict_get_alter_eq. unfold dict_mem.
  destruct (dict_get (cognitive_level a) (cognitive_levels p)) as [t|] eqn:E.
  - by rewrite E.
  - by rewrite dict_get_set_eq.
Qed.

(** C10.  In a table built by [record_attempt] calls, for a user whose
    profile exists: when the difficulty of the attempt is none of "easy",
    "medium", "hard", the call raises [KeyError] on that string, because
    the topic's map holds exactly those three buckets; the profile is
    left with the question counted and the topic created, but with its
    buckets, cognitive levels and recent times untouched.  When the
    difficulty is one of the three, the call returns whatever the
    cognitive level is, and that level holds the old counter, or a fresh
    one, advanced by this attempt. *)
Theorem unknown_difficulty_raises_KeyError calls u p now a :
  let st := record_attempts calls ∅ in
  st !! u = Some p ->
  (difficulty a ∉ three ->
     record_attempt u now a st
       = (<[u := interrupted now a p]> st, Raise (KeyError (difficulty a))) /\
     (exists by_difficulty,
         dict_get (topic a) (topic_performance (interrupted now a p)) = Some by_difficulty /\
         dict_keys by_difficulty = three /\
         dict_get (difficulty a) by_difficulty = None) /\
     total_questions (interrupted now a p) = (total_questions p + 1)%Z /\
     ledger_total (interrupted now a p) = ledger_total p /\
     cognitive_levels (interrupted now a p) = cognitive_levels p /\
     recent_times (interrupted now a p) = recent_times p) /\
  (difficulty a ∈ three ->
     exists p',
       record_attempt u now a st = (<[u := p']> st, Return tt) /\
       dict_get (cognitive_level a) (cognitive_levels p')
       = Some (bump (correct a)
                 (default zero_tally
                          (dict_get (cognitive_level a) (cognitive_levels p))))).
Proof.
  intros st Hp. pose proof (reachable_wf calls u p Hp) as Hwf. split.
  - intros Hbad. split; [|split].
    + unfold record_attempt. rewrite Hp. simpl.
      by rewrite (record_on_profile_raise now a p Hwf Hbad).
    + destruct (bucket_of_interrupted now a p Hwf) as (bd & Hbd & Hkeys).
      exists bd. repeat split; [done..|].
      apply dict_get_None_keys. by rewrite Hkeys.
    + destruct (interrupted_fields now a p) as (Ht & _ & Hc & Hr & _).
      by rewrite ledger_interrupted.
  - intros Hgood.
    destruct (record_on_profile_return now a p Hwf Hgood) as [d Hret].
    exists (set_preferred_difficulty d (counted now a p)). split.
    + unfold record_attempt. rewrite Hp. simpl. by rewrite Hret.
    + apply cognitive_levels_counted.
Qed.

(** C6, amended.  After any run of [record_attempt] calls, for a user who
    had no profile before and has at least one call: [total_questions] is
    the number of the user's calls, [correct_answers] the number of those
    whose attempt was correct, so [correct_answers <= total_questions];
    the sum of the per-bucket totals over all topics is the number of
    calls whose difficulty names a bucket, and equals [total_questions]
    when every call of the user does. *)
Theorem ledger_counts_accepted_calls (st : Students) u calls :
  st !! u = None -> calls_of u calls <> [] ->
  exists p,
    record_attempts calls st !! u = Some p /\
    total_questions p = Z.of_nat (length (calls_of u calls)) /\
    correct_answers p = Z.of_nat (length (answered_right (calls_of u calls))) /\
    (correct_answers p <= total_questions p)%Z /\
    ledger_total p = Z.of_nat (length (accepted (calls_of u calls))) /\
    (Forall (fun c => difficulty (call_attempt c) ∈ three) (calls_of u calls) ->
     total_questions p = ledger_total p).
Proof.
  intros Hnew Hcalls. pose proof (profile_after_calls u calls st Hnew) as H.
  destruct (record_attempts calls st !! u) as [p|]; [|done].
  destruct H as [_ [Hwf Htot Hcor Hled _ _ _ _]]. exists p.
  split; [done|]. split; [done|]. split; [done|]. split; [|split; [done|]].
  - rewrite Htot, Hcor. unfold answered_right.
    pose proof (length_filter (fun c => correct (call_attempt c) = true) (calls_of u calls)).
    lia.
  - intros Hall. by rewrite Htot, Hled, accepted_all.
Qed.
End Ledger.

(** ** Learning pace, session policy, strength analysis *)

Section Pace.
Import AdaptiveLearning.

(** C8, amended.  After any run of [record_attempt] calls, for a user who
    had no profile before and has at least one call: [recent_times] holds
    at most 20 elements, namely the [time_taken] of the last (up to 20)
    calls that returned, in order of arrival, hence of the last calls
    when all returned; it is absent exactly when no call returned; and
    [learning_pace] is 60 over the mean of [recent_times] when that mean
    is strictly positive, else 0. *)
Theorem recent_times_keep_last_twenty (st : Students) u calls :
  st !! u = None -> calls_of u calls <> [] ->
  exists p,
    record_attempts calls st !! u = Some p /\
    let served := accepted (calls_of u calls) in
    let times := default [] (recent_times p) in
    length times <= 20 /\
    times = last_n 20 (times_of served) /\
    (recent_times p = None <-> served = []) /\
    (served = calls_of u calls -> times = last_n 20 (times_of (calls_of u calls))) /\
    (served <> [] -> (0 < mean times)%Q -> learning_pace p = (60 / mean times)%Q) /\
    (served <> [] -> ~ (0 < mean times)%Q -> learning_pace p = 0%Q) /\
    (served = [] -> learning_pace p = 0%Q).
Proof.
  intros Hnew Hcalls. pose proof (profile_after_calls u calls st Hnew) as H.
  destruct (record_attempts calls st !! u) as [p|]; [|done].
  destruct H as [_ [_ _ _ _ Htimes Hattr Hpace _]]. exists p.
  split; [done|]. cbv zeta.
  split; [rewrite Htimes; apply length_last_n|].
  split; [done|]. split; [done|].
  split; [intros Heq; by rewrite Htimes, Heq|].
  destruct (accepted (calls_of u calls)) as [|c served]; repeat split; try done.
  - intros _ Hpos%Qltb_true. rewrite Hpace. unfold pace_of. by rewrite Hpos.
  - intros _ Hnot. rewrite Hpace. unfold pace_of.
    destruct (Qltb 0 (mean (default [] (recent_times p)))) eqn:E; [|done].
    by apply Qltb_true in E.
Qed.

(** C8, as stated, fails after a call that raises: one call with the
    difficulty "expert" and a [time_taken] of 30 leaves a profile without
    [recent_times] and with a [learning_pace] of 0. *)
Lemma raising_call_records_no_time :
  let c := sample_call "u1" (sample_attempt "Math" "expert" "recall" true 30) in
  let st := record_attempts [c] ∅ in
  recent_times <$> st !! "u1" = Some None /\
  learning_pace <$> st !! "u1" = Some 0%Q /\
  time_taken (call_attempt c) = 30%Q.
Proof. vm_compute. by repeat split. Qed.

(** C6, as stated, fails after a call that raises: one call with the
    difficulty "expert" leaves [total_questions] at 1 while the bucket
    totals sum to 0. *)
Lemma unknown_difficulty_breaks_ledger :
  let c := sample_call "u1" (sample_attempt "Math" "expert" "recall" true 30) in
  let st := record_attempts [c] ∅ in
  total_questions <$> st !! "u1" = Some 1%Z /\
  ledger_total <$> st !! "u1" = Some 0%Z.
Proof. vm_compute. by split. Qed.
End Pace.

Section Session.
Import AdaptiveLearning.

(** No call of [record_attempt] ever sets [recent_attempts], so the
    session policy always returns the long-term recommendation. *)
Lemma session_policy_ignores_recent_attempts calls u t n :
  let st := record_attempts calls ∅ in
  recommended_difficulty (generate_adaptive_questions u t n st)
  = get_recommended_difficulty u (Some t) st.
Proof.
  intros st. unfold generate_adaptive_questions. simpl.
  pose proof (profile_after_calls u calls ∅ (lookup_empty u)) as H. fold st in H.
  destruct (st !! u) as [p|]; [|done].
  destruct H as [_ H]. by rewrite (inv_window _ _ H).
Qed.

(** C1, at the failing input.  After ten correct "easy" attempts on
    "Math" the long-term recommendation is "easy" and the window of the
    last ten recorded attempts has accuracy above 0.80, for which the
    rule of the policy gives "hard"; [generate_adaptive_questions]
    returns "easy". *)
Theorem recent_window_never_escalates :
  let a := sample_attempt "Math" "easy" "recall" true 30 in
  let attempts := replicate 10 a in
  let st := record_attempts (map (sample_call "u1") attempts) ∅ in
  get_recommended_difficulty "u1" (Some "Math") st = "easy" /\
  Qltb 0.8 (recent_score (last_n 10 attempts)) = true /\
  adjust_for_recent (last_n 10 attempts) "easy" = "hard" /\
  recommended_difficulty (generate_adaptive_questions "u1" "Math" 5 st) = "easy".
Proof. vm_compute. by repeat split. Qed.

(** The counts of [get_strength_analysis] are keyed by the difficulty
    names, whatever the cognitive levels of the profile. *)
Lemma count_levels_keys (levels : dict Tally) : dict_keys (count_levels levels) = three.
Proof.
  unfold count_levels.
  assert (forall acc : dict Z,
             dict_keys acc = three ->
             dict_keys (foldl (fun cognitive_levels (item : string * Tally) =>
                                 if dict_mem item.1 cognitive_levels
                                 then dict_set item.1 (tally_total item.2) cognitive_levels
                                 else cognitive_levels) acc levels) = three) as H.
  { induction levels as [|[k t] levels IH]; intros acc Hacc; simpl; [done|].
    apply IH. unfold dict_mem.
    destruct (dict_get k acc) eqn:E; [|done].
    rewrite dict_keys_set_present; [done|by eexists]. }
  by apply H.
Qed.

(** C4, at the failing input.  After one attempt at the cognitive level
    "recall" the profile counts one attempt there, while
    [get_strength_analysis] reports 0 under "easy", "medium" and "hard"
    and has no entry for "recall". *)
Theorem strength_analysis_misses_cognitive_levels :
  let st := record_attempts
              [sample_call "u1" (sample_attempt "Math" "easy" "recall" true 30)] ∅ in
  cognitive_levels <$> st !! "u1"
    = Some [("recall", {| tally_correct := 1; tally_total := 1 |})] /\
  sa_cognitive_levels (get_strength_analysis "u1" st)
    = [("easy", 0%Z); ("medium", 0%Z); ("hard", 0%Z)] /\
  dict_get "recall" (sa_cognitive_levels (get_strength_analysis "u1" st)) = None.
Proof. vm_compute. by repeat split. Qed.
End Session.

(** ** The answer pipeline *)


Section RAGFacts.
Import RAGService.




Lemma confidence_of_spec chunks : (confidence_of chunks == spec_confidence chunks)%Q.
Proof. apply py_max_Qmax. Qed.





Lemma general_knowledge_returns query (llm : LLM) ctx text :
  llm (general_prompt query ctx) = Return text ->
  exists r,
    _generate_general_knowledge_answer query llm ctx = Return r /\
    answer_type r = Some "general_knowledge" /\
    confidence r = 0.7%Q /\
    sources r = ["General Knowledge"] /\
    (ctx = None -> context_chunks r = Some 0%Z).
Proof.
  intros Hllm. unfold _generate_general_knowledge_answer. rewrite Hllm. simpl.
  eexists; split; [reflexivity|]. simpl. repeat split. by intros ->.
Qed.

(** C3.  When the retriever returns no chunk, or chunks whose confidence
    max(0.1, 1.0 - mean distance) is below 0.3, and the generator
    returns, the result has type "general_knowledge" and confidence 0.7
    in either case; with no chunk its sources are ["General Knowledge"]. *)
Theorem fallback_reports_general_knowledge search query (llm : LLM) uid text :
  let chunks := search query in
  chunks = [] \/ (spec_confidence chunks < 0.3)%Q ->
  llm (prompt_sent query chunks) = Return text ->
  exists r,
    generate_answer_with_context query chunks llm = Return r /\
    process_question search query llm uid = Return r /\
    answer_type r = Some "general_knowledge" /\
    confidence r = 0.7%Q /\
    (chunks = [] -> sources r = ["General Knowledge"] /\ context_chunks r = Some 0%Z).
Proof.
  intros chunks Hcase Hllm.
  assert (exists ctx,
             generate_answer_with_context query chunks llm
             = try_except (_generate_general_knowledge_answer query llm ctx)
                 (fun _ => Return {| answer := "Sorry, I encountered an error while generating the answer. Please try again.";
                                     confidence := 0.0; sources := [];
                                     context_chunks := None;
                                     answer_type := Some "error" |}) /\
             prompt_sent query chunks = general_prompt query ctx /\
             (chunks = [] -> ctx = None)) as (ctx & Hgen & Hprompt & Hctx).
  { unfold generate_answer_with_context, prompt_sent.
    destruct chunks as [|c rest] eqn:E.
    - exists None. auto.
    - destruct Hcase as [|Hlow]; [done|].
      rewrite <- confidence_of_spec in Hlow. apply Qltb_true in Hlow.
      rewrite Hlow. exists (Some (c :: rest)). repeat split. done. }
  rewrite Hprompt in Hllm.
  destruct (general_knowledge_returns query llm ctx text Hllm)
    as (r & Hr & Htype & Hconf & Hsrc & Hcount).
  exists r. unfold process_question. fold chunks.
  rewrite Hgen, Hr. simpl. rewrite Htype. simpl.
  repeat split; auto.
Qed.

(** C5.  When the generator raises on the prompt [process_question]
    sends it, [process_question] returns, without raising, a result of
    type "error" with confidence 0.0 and no sources. *)
Theorem generator_failure_is_recovered search query (llm : LLM) uid e :
  llm (prompt_sent query (search query)) = Raise e ->
  exists r,
    process_question search query llm uid = Return r /\
    answer_type r = Some "error" /\
    confidence r = 0.0%Q /\
    sources r = [].
Proof.
  intros Hllm. unfold process_question, generate_answer_with_context.
  unfold prompt_sent in Hllm.
  destruct (search query) as [|c rest].
  - unfold _generate_general_knowledge_answer. rewrite Hllm. simpl. eauto.
  - destruct (Qltb (confidence_of (c :: rest)) 0.3).
    + unfold _generate_general_knowledge_answer. rewrite Hllm. simpl. eauto.
    + rewrite Hllm. simpl. eauto.
Qed.
End RAGFacts.



(** ** The theorems at sample inputs *)

Section Witnesses.
Import AdaptiveLearning.

Lemma not_a_bucket : "expert" ∉ three.
Proof. intros H. apply elem_of_three in H. by destruct H as [|[|]]. Qed.

Lemma weak_topics_need_five_attempts_witness :
  sample_students !! "u1" = Some sample_profile /\
  get_weak_topics "u1" 5 sample_students = [("History", 1 # 6); ("Geometry", 5 # 5)] /\
  ("Algebra", 0 # 4) ∉ get_weak_topics "u1" 5 sample_students.
Proof.
  assert (sample_students !! "u1" = Some sample_profile) as Hp by reflexivity.
  destruct (weak_topics_need_five_attempts sample_students "u1" sample_profile 5 Hp)
    as (Hweak & _ & _ & _ & _ & _ & Hlow).
  split; [exact Hp|]. split; [exact Hweak|].
  apply (Hlow "Algebra" [("easy", {| tally_correct := 0; tally_total := 4 |});
                         ("medium", zero_tally); ("hard", zero_tally)]).
  - apply (bool_decide_unpack _). vm_compute. exact I.
  - reflexivity.
  - reflexivity.
Defined.


Lemma unknown_difficulty_raises_KeyError_witness :
  record_attempts sample_calls ∅ !! "u1" = Some sample_after /\
  (record_attempt "u1" 7 (sample_attempt "Math" "expert" "recall" true 12)
                  (record_attempts sample_calls ∅)).2 = Raise (KeyError "expert") /\
  (record_attempt "u1" 7 (sample_attempt "Math" "hard" "intuition" true 12)
                  (record_attempts sample_calls ∅)).2 = Return tt.
Proof.
  assert (record_attempts sample_calls ∅ !! "u1" = Some sample_after) as Hp
      by (vm_compute; reflexivity).
  split; [exact Hp|]. split.
  - destruct (unknown_difficulty_raises_KeyError sample_calls "u1" sample_after 7
                (sample_attempt "Math" "expert" "recall" true 12) Hp) as [Hbad _].
    destruct (Hbad not_a_bucket) as [-> _]. reflexivity.
  - destruct (unknown_difficulty_raises_KeyError sample_calls "u1" sample_after 7
                (sample_attempt "Math" "hard" "intuition" true 12) Hp) as [_ Hgood].
    destruct Hgood as (p' & -> & _); [|reflexivity].
    apply elem_of_three. auto.
Defined.

Lemma ledger_counts_accepted_calls_witness :
  exists p,
    record_attempts sample_calls ∅ !! "u1" = Some p /\
    total_questions p = 2%Z /\ correct_answers p = 1%Z /\ ledger_total p = 2%Z.
Proof.
  destruct (ledger_counts_accepted_calls ∅ "u1" sample_calls)
    as (p & Hp & Ht & Hc & _ & Hl & _).
  - reflexivity.
  - vm_compute. discriminate.
  - exists p. split; [exact Hp|]. split; [exact Ht|]. split; [exact Hc | exact Hl].
Defined.

Lemma recent_times_keep_last_twenty_witness :
  exists p,
    record_attempts sample_calls ∅ !! "u1" = Some p /\
    default [] (recent_times p) = [30%Q; 90%Q].
Proof.
  destruct (recent_times_keep_last_twenty ∅ "u1" sample_calls)
    as (p & Hp & _ & Htimes & _).
  - reflexivity.
  - vm_compute. discriminate.
  - exists p. split; [exact Hp | exact Htimes].
Defined.
End Witnesses.

Section AnswerWitnesses.
Import RAGService.


Lemma fallback_reports_general_knowledge_witness :
  exists r,
    process_question (fun _ => [sample_chunk "bio.pdf" 0.95]) "What is gravity?"
                     (fun _ => Return "A force.") (Some "u1")
    = Return r /\
    answer_type r = Some "general_knowledge" /\ confidence r = 0.7%Q.
Proof.
  destruct (fallback_reports_general_knowledge
              (fun _ => [sample_chunk "bio.pdf" 0.95]) "What is gravity?"
              (fun _ => Return "A force.") (Some "u1") "A force.")
    as (r & _ & H & Ht & Hc & _).
  - right. vm_compute. reflexivity.
  - reflexivity.
  - exists r. auto.
Defined.

Lemma generator_failure_is_recovered_witness :
  exists r,
    process_question (fun _ => [sample_chunk "bio.pdf" 0.2]) "What is gravity?"
                     (fun _ => Raise (Exception "quota exceeded")) None
    = Return r /\
    answer_type r = Some "error" /\ confidence r = 0.0%Q /\ sources r = [].
Proof.
  destruct (generator_failure_is_recovered
              (fun _ => [sample_chunk "bio.pdf" 0.2]) "What is gravity?"
              (fun _ => Raise (Exception "quota exceeded")) None
              (Exception "quota exceeded"))
    as (r & H).
  - reflexivity.
  - exists r. exact H.
Defined.
End AnswerWitnesses.

(** * Further properties *)

(** ** Profiles of different users *)

Section Frame.
Import AdaptiveLearning.

Lemma calls_of_idemp u calls : calls_of u (calls_of u calls) = calls_of u calls.
Proof.
unfold calls_of. induction calls as [|c calls IH]; [done|].
rewrite filter_cons. case_decide as Hc; [|done].
rewrite filter_cons_True by done. by rewrite IH.
Qed.

(** X1.  A call changes no profile but its user's, and what a run of calls makes
    of a user's profile depends on that user's calls alone, whatever the
    calls of the others interleaved with them. *)
Theorem profiles_are_independent (st : Students) u calls :
  (forall v now a, v <> u -> (record_attempt v now a st).1 !! u = st !! u) /\
  record_attempts calls st !! u = record_attempts (calls_of u calls) st !! u /\
  (calls_of u calls = [] -> record_attempts calls st !! u = st !! u).
Proof.
split; [|split].
- intros v now a Hne. rewrite record_attempt_lookup. by rewrite decide_False.
- by rewrite !record_attempts_lookup, calls_of_idemp.
- intros Hnone. by rewrite record_attempts_lookup, Hnone.
Qed.
End Frame.

(** ** Induction over the calls of one user *)

Section RunInduction.
Import AdaptiveLearning.

Lemma record_on_profile_cases now a p :
  wf_profile p ->
  (difficulty a ∈ three /\
   (exists d, d ∈ three /\
              (record_on_profile now a p).1 = set_preferred_difficulty d (counted now a p))) \/
  ((difficulty a ∉ three) /\ (record_on_profile now a p).1 = interrupted now a p).
Proof.
intros Hwf. destruct (decide (difficulty a ∈ three)) as [Hgood|Hbad].
- left. split; [done|].
  unfold record_on_profile. cbv zeta. fold (interrupted now a p).
  destruct (bucket_of_interrupted now a p Hwf) as (bd & Hbd & Hkeys).
  pose proof Hgood as Hin. rewrite <- Hkeys in Hin.
  apply dict_get_Some_keys in Hin as [stats Hstats].
  rewrite (update_topic_stats_return a _ bd stats Hbd Hstats).
  change (_update_learning_pace _ a) with (counted now a p).
  pose proof (counted_wf now a p Hwf) as Hwf'.
  unfold _update_preferred_difficulty. cbv zeta.
  destruct (all_scores_ok (dict_values (topic_performance (counted now a p)))
              (([("easy", 0%Q); ("medium", 0%Q); ("hard", 0%Q)] : dict Q),
               ([("easy", 0%Z); ("medium", 0%Z); ("hard", 0%Z)] : dict Z)))
    as ([scores counts] & -> & Hs & Hc).
  { unfold dict_values. apply Forall_fmap. exact Hwf'. }
  { done. }
  simpl in Hs, Hc.
  apply keys_three_inv in Hs as (s1 & s2 & s3 & ->).
  apply keys_three_inv in Hc as (c1 & c2 & c3 & ->).
  simpl. unfold add_average, average_score. simpl.
  assert (forall h m, cascade h m ∈ three) as Hcas.
  { intros h m. unfold cascade. apply elem_of_three.
    destruct (Qleb 0.7 h); [auto|]. destruct (Qleb 0.6 m); auto. }
  destruct (0 <? c1)%Z, (0 <? c2)%Z, (0 <? c3)%Z; simpl; eauto.
- right. split; [done|]. by rewrite record_on_profile_raise.
Qed.

(** A property of the profile that holds of a new profile and is kept by
    every call holds after every run of calls. *)
Lemma run_invariant (P : list Call -> StudentProfile -> Prop) u :
  (forall now, P [] (new_profile u now)) ->
  (forall l p c, profile_inv l p -> P l p ->
                 P (l ++ [c]) (record_on_profile (call_now c) (call_attempt c) p).1) ->
  forall l p, foldl (step_profile u) None l = Some p -> P l p.
Proof.
intros Hnew Hstep l. induction l as [|c l IH] using rev_ind; [done|].
intros p. rewrite foldl_app. simpl. intros [= <-].
pose proof (profile_inv_fold u l) as Hinv.
destruct (foldl (step_profile u) None l) as [q|].
- destruct Hinv as [_ Hinv]. apply Hstep; [done|]. by apply IH.
- subst l. simpl. apply (Hstep [] _ c); [apply profile_inv_new | apply Hnew].
Qed.
End RunInduction.

(** ** What each counter counts *)

Section Counters.
Import AdaptiveLearning.

Lemma topic_after_interrupted now a p t :
  dict_get t (topic_performance (interrupted now a p)) =
    if decide (t = topic a)
    then Some (default fresh_topic (dict_get t (topic_performance p)))
    else dict_get t (topic_performance p).
Proof.
unfold interrupted. rewrite ensure_topic_performance. simpl. unfold dict_mem.
case_decide as Ht.
- subst t. destruct (dict_get (topic a) (topic_performance p)) eqn:E; simpl.
  + by rewrite E.
  + by rewrite dict_get_set_eq.
- destruct (dict_get (topic a) (topic_performance p)); [done|].
  by rewrite dict_get_set_ne.
Qed.

Lemma topic_after_counted now a p t :
  dict_get t (topic_performance (counted now a p)) =
    if decide (t = topic a)
    then Some (dict_alter (bump (correct a)) (difficulty a)
                 (default fresh_topic (dict_get t (topic_performance p))))
    else dict_get t (topic_performance p).
Proof.
change (topic_performance (counted now a p))
  with (dict_alter (dict_alter (bump (correct a)) (difficulty a)) (topic a)
          (topic_performance (interrupted now a p))).
case_decide as Ht.
- subst t. rewrite dict_get_alter_eq, topic_after_interrupted.
  by rewrite decide_True.
- rewrite dict_get_alter_ne by done. rewrite topic_after_interrupted.
  by rewrite decide_False.
Qed.

Lemma levels_after_counted now a p level :
  dict_get level (cognitive_levels (counted now a p)) =
    if decide (level = cognitive_level a)
    then Some (bump (correct a)
                 (default zero_tally (dict_get level (cognitive_levels p))))
    else dict_get level (cognitive_levels p).
Proof.
case_decide as Hl; [subst level; apply cognitive_levels_counted|].
unfold counted, _update_learning_pace, update_cognitive_level. cbv zeta. simpl.
replace (cognitive_levels (ensure_topic a (update_basic_stats now a p)))
  with (cognitive_levels p) by (unfold ensure_topic; by destruct (dict_mem _ _)).
rewrite dict_get_alter_ne by done.
destruct (dict_mem (cognitive_level a) (cognitive_levels p)); [done|].
by rewrite dict_get_set_ne.
Qed.

Lemma tally_of_snoc l c :
  tally_of (l ++ [c]) = bump (correct (call_attempt c)) (tally_of l).
Proof.
unfold tally_of, bump. simpl. f_equal.
- apply answered_right_snoc.
- rewrite length_app. simpl. lia.
Qed.

Lemma sound_tally_of l : sound_tally (tally_of l).
Proof.
unfold sound_tally, tally_of, answered_right. simpl.
pose proof (length_filter (fun c => correct (call_attempt c) = true) l). lia.
Qed.

Lemma on_topic_snoc t l c :
  on_topic t (l ++ [c]) =
    on_topic t l ++ (if decide (topic (call_attempt c) = t) then [c] else []).
Proof. unfold on_topic. by rewrite filter_app, filter_cons. Qed.

Lemma in_bucket_snoc t d l c :
  in_bucket t d (l ++ [c]) =
    in_bucket t d l ++
      (if decide (topic (call_attempt c) = t /\ difficulty (call_attempt c) = d)
       then [c] else []).
Proof. unfold in_bucket. by rewrite filter_app, filter_cons. Qed.

Lemma at_level_snoc level l c :
  at_level level (l ++ [c]) =
    at_level level l ++
      (if decide (cognitive_level (call_attempt c) = level) then [c] else []).
Proof. unfold at_level. by rewrite filter_app, filter_cons. Qed.

Lemma in_bucket_on_topic t d l : on_topic t l = [] -> in_bucket t d l = [].
Proof.
unfold on_topic, in_bucket. induction l as [|c l IH]; [done|].
rewrite !filter_cons. case_decide as Ht; [done|]. intros H.
rewrite decide_False by tauto. auto.
Qed.
End Counters.

Section CounterInvariants.
Import AdaptiveLearning.

Lemma buckets_default t l :
  default fresh_topic (topic_after t l) = buckets_after t l.
Proof.
unfold topic_after. destruct (on_topic t l) eqn:E; [|done].
unfold buckets_after. by rewrite !in_bucket_on_topic.
Qed.

Lemma in_bucket_snoc_other t d l c :
  ~ (topic (call_attempt c) = t /\ difficulty (call_attempt c) = d) ->
  in_bucket t d (l ++ [c]) = in_bucket t d l.
Proof. intros H. rewrite in_bucket_snoc, decide_False by done. apply app_nil_r. Qed.

Lemma in_bucket_snoc_same l c :
  tally_of (in_bucket (topic (call_attempt c)) (difficulty (call_attempt c)) (l ++ [c]))
  = bump (correct (call_attempt c))
         (tally_of (in_bucket (topic (call_attempt c)) (difficulty (call_attempt c)) l)).
Proof. rewrite in_bucket_snoc, decide_True by done. apply tally_of_snoc. Qed.

Lemma buckets_after_other t l c :
  topic (call_attempt c) <> t \/ difficulty (call_attempt c) ∉ three ->
  buckets_after t (l ++ [c]) = buckets_after t l.
Proof.
intros H. unfold buckets_after.
rewrite !in_bucket_snoc_other; [done|..];
  intros [Ht Hd]; destruct H as [H|H]; try done;
  apply H; rewrite Hd; apply elem_of_three; auto.
Qed.

Lemma buckets_after_same l c :
  difficulty (call_attempt c) ∈ three ->
  buckets_after (topic (call_attempt c)) (l ++ [c])
  = dict_alter (bump (correct (call_attempt c))) (difficulty (call_attempt c))
               (buckets_after (topic (call_attempt c)) l).
Proof.
intros Hd. apply elem_of_three in Hd. unfold buckets_after.
destruct Hd as [Hd|[Hd|Hd]].
- rewrite (in_bucket_snoc_other _ "medium"), (in_bucket_snoc_other _ "hard")
    by (rewrite Hd; by intros [_ ?]).
  pose proof (in_bucket_snoc_same l c) as H. rewrite Hd in H |- *. by rewrite H.
- rewrite (in_bucket_snoc_other _ "easy"), (in_bucket_snoc_other _ "hard")
    by (rewrite Hd; by intros [_ ?]).
  pose proof (in_bucket_snoc_same l c) as H. rewrite Hd in H |- *. by rewrite H.
- rewrite (in_bucket_snoc_other _ "easy"), (in_bucket_snoc_other _ "medium")
    by (rewrite Hd; by intros [_ ?]).
  pose proof (in_bucket_snoc_same l c) as H. rewrite Hd in H |- *. by rewrite H.
Qed.

Lemma topic_after_snoc_same l c :
  topic_after (topic (call_attempt c)) (l ++ [c])
  = Some (buckets_after (topic (call_attempt c)) (l ++ [c])).
Proof.
unfold topic_after. rewrite on_topic_snoc, decide_True by done.
by destruct (on_topic _ l).
Qed.

Lemma topic_after_snoc_other t l c :
  topic (call_attempt c) <> t -> topic_after t (l ++ [c]) = topic_after t l.
Proof.
intros Ht. unfold topic_after.
rewrite on_topic_snoc, decide_False, app_nil_r by done.
rewrite buckets_after_other by auto. done.
Qed.

Lemma topics_follow_calls u l p :
  foldl (step_profile u) None l = Some p ->
  forall t, dict_get t (topic_performance p) = topic_after t l.
Proof.
revert l p.
apply (run_invariant
         (fun l p => forall t, dict_get t (topic_performance p) = topic_after t l) u);
  [done|].
intros l p c Hinv IH t.
destruct (record_on_profile_cases (call_now c) (call_attempt c) p (inv_wf _ _ Hinv))
  as [(Hgood & d & _ & ->)|(Hbad & ->)].
- change (topic_performance (set_preferred_difficulty d ?q)) with (topic_performance q).
  rewrite topic_after_counted. case_decide as Ht.
  + subst t. rewrite IH, buckets_default, topic_after_snoc_same.
    by rewrite buckets_after_same.
  + rewrite IH. by rewrite topic_after_snoc_other.
- rewrite topic_after_interrupted. case_decide as Ht.
  + subst t. rewrite IH, buckets_default, topic_after_snoc_same.
    by rewrite buckets_after_other by auto.
  + rewrite IH. by rewrite topic_after_snoc_other.
Qed.

Lemma level_after_snoc level l c :
  level_after level (l ++ [c]) =
    if decide (difficulty (call_attempt c) ∈ three /\
               cognitive_level (call_attempt c) = level)
    then Some (bump (correct (call_attempt c))
                 (default zero_tally (level_after level l)))
    else level_after level l.
Proof.
unfold level_after. case_decide as H.
- destruct H as [Hd Hl]. rewrite accepted_snoc_good, at_level_snoc by done.
  rewrite decide_True by done. rewrite tally_of_snoc.
  by destruct (at_level level (accepted l)).
- destruct (decide (difficulty (call_attempt c) ∈ three)) as [Hd|Hd].
  + rewrite accepted_snoc_good, at_level_snoc by done.
    rewrite decide_False by tauto. by rewrite app_nil_r.
  + by rewrite accepted_snoc_bad.
Qed.

Lemma levels_follow_calls u l p :
  foldl (step_profile u) None l = Some p ->
  forall level, dict_get level (cognitive_levels p) = level_after level l.
Proof.
revert l p.
apply (run_invariant
         (fun l p => forall level,
              dict_get level (cognitive_levels p) = level_after level l) u);
  [done|].
intros l p c Hinv IH level. rewrite level_after_snoc.
destruct (record_on_profile_cases (call_now c) (call_attempt c) p (inv_wf _ _ Hinv))
  as [(Hgood & d & _ & ->)|(Hbad & ->)].
- change (cognitive_levels (set_preferred_difficulty d ?q)) with (cognitive_levels q).
  rewrite levels_after_counted. case_decide as Hl.
  + rewrite decide_True by done. by rewrite IH.
  + rewrite decide_False by (intros [_ ?]; done). apply IH.
- rewrite decide_False by tauto.
  destruct (interrupted_fields (call_now c) (call_attempt c) p) as (_ & _ & -> & _).
  apply IH.
Qed.

Lemma keys_follow_calls u l p :
  foldl (step_profile u) None l = Some p ->
  NoDup (dict_keys (topic_performance p)) /\ preferred_difficulty p ∈ three.
Proof.
revert l p.
apply (run_invariant
         (fun _ p => NoDup (dict_keys (topic_performance p)) /\
                     preferred_difficulty p ∈ three) u).
{ intros now. split; [constructor|]. apply elem_of_three. auto. }
intros l p c Hinv [Hnd Hpref].
assert (NoDup (dict_keys (topic_performance
                            (interrupted (call_now c) (call_attempt c) p)))) as Hnd'.
{ unfold interrupted. rewrite ensure_topic_performance. simpl. unfold dict_mem.
  destruct (dict_get _ _) eqn:E; [done|].
  rewrite dict_keys_set_absent by done.
  apply NoDup_app. split; [done|]. split; [|apply NoDup_singleton].
  intros k Hk ->%list_elem_of_singleton. by apply dict_get_None_keys in E. }
destruct (record_on_profile_cases (call_now c) (call_attempt c) p (inv_wf _ _ Hinv))
  as [(Hgood & d & Hd & ->)|(Hbad & ->)].
- split; [|done].
  change (topic_performance (set_preferred_difficulty d ?q)) with (topic_performance q).
  change (topic_performance (counted (call_now c) (call_attempt c) p))
    with (dict_alter (dict_alter (bump (correct (call_attempt c)))
                                 (difficulty (call_attempt c)))
                     (topic (call_attempt c))
                     (topic_performance (interrupted (call_now c) (call_attempt c) p))).
  by rewrite dict_keys_alter.
- split; [done|].
  by destruct (interrupted_fields (call_now c) (call_attempt c) p)
    as (_ & _ & _ & _ & _ & -> & _).
Qed.
End CounterInvariants.

Section CounterTheorems.
Import AdaptiveLearning.

Lemma profile_of_run (st : Students) u calls p :
  st !! u = None -> record_attempts calls st !! u = Some p ->
  foldl (step_profile u) None (calls_of u calls) = Some p.
Proof. intros Hnew. by rewrite record_attempts_lookup, Hnew. Qed.

(** X2.  After any run of calls, for a user who had no profile before: the
    profile holds a topic exactly when one of the user's calls named it,
    whether or not that call returned; the topic then has the three
    buckets, and each bucket's [total] and [correct] are the number of the
    user's calls for that topic and difficulty and the number of those that
    were correct. *)
Theorem buckets_count_their_calls (st : Students) u calls p :
  st !! u = None -> record_attempts calls st !! u = Some p ->
  let mine := calls_of u calls in
  (forall t, on_topic t mine = [] -> dict_get t (topic_performance p) = None) /\
  (forall t, on_topic t mine <> [] ->
     exists by_difficulty,
       dict_get t (topic_performance p) = Some by_difficulty /\
       dict_keys by_difficulty = three /\
       forall d, d ∈ three ->
                 dict_get d by_difficulty = Some (tally_of (in_bucket t d mine))).
Proof.
intros Hnew Hp mine.
pose proof (topics_follow_calls u mine p (profile_of_run st u calls p Hnew Hp)) as H.
split.
- intros t Ht. rewrite H. unfold topic_after. by rewrite Ht.
- intros t Ht. exists (buckets_after t mine). split; [|split].
  + rewrite H. unfold topic_after. by destruct (on_topic t mine).
  + done.
  + intros d Hd%elem_of_three. by destruct Hd as [->|[->| ->]].
Qed.

(** X3.  After any run of calls, for a user who had no profile before: a
    cognitive level is a key of [cognitive_levels] exactly when one of the
    user's calls that returned was at that level, and its [total] and
    [correct] are the number of those calls and the number of them that
    were correct. *)
Theorem levels_count_the_calls_that_returned (st : Students) u calls p :
  st !! u = None -> record_attempts calls st !! u = Some p ->
  forall level,
    let served := at_level level (accepted (calls_of u calls)) in
    (served = [] -> dict_get level (cognitive_levels p) = None) /\
    (served <> [] -> dict_get level (cognitive_levels p) = Some (tally_of served)).
Proof.
intros Hnew Hp level served.
rewrite (levels_follow_calls u _ p (profile_of_run st u calls p Hnew Hp)).
unfold level_after. fold served. by destruct served.
Qed.

Lemma true_div_unit a b :
  (0 <= a <= b)%Z -> (0 < b)%Z -> (0 <= true_div a b <= 1)%Q.
Proof.
intros [Ha Hb] Hpos. unfold true_div.
assert (0 < inject_Z b)%Q as Hq by (unfold Qlt; simpl; lia).
split.
- apply Qle_shift_div_l; [done|]. rewrite Qmult_0_l. unfold Qle. simpl. lia.
- apply Qle_shift_div_r; [done|]. rewrite Qmult_1_l. unfold Qle. simpl. lia.
Qed.

Lemma sum_over_buckets_after t l :
  (0 <= sum_over tally_correct (buckets_after t l)
     <= sum_over tally_total (buckets_after t l))%Z.
Proof.
unfold sum_over, buckets_after. simpl.
pose proof (sound_tally_of (in_bucket t "easy" l)).
pose proof (sound_tally_of (in_bucket t "medium" l)).
pose proof (sound_tally_of (in_bucket t "hard" l)).
unfold sound_tally in *. simpl in *. lia.
Qed.

Lemma slice_to_take {A} (limit : Z) (l : list A) : exists n, slice_to limit l = take n l.
Proof. unfold slice_to. destruct (0 <=? limit)%Z; eauto. Qed.

Lemma weak_candidates_keys (tp : dict (dict Tally)) :
  (omap weak_candidate tp).*1 `sublist_of` dict_keys tp.
Proof.
unfold dict_keys. induction tp as [|[t stats] tp IH]; [done|].
simpl. unfold weak_candidate at 1.
destruct (5 <=? topic_total stats)%Z; simpl.
- by apply sublist_skip.
- by apply sublist_cons.
Qed.

(** X4.  After any run of calls, for a user who had no profile before: every
    counter of the profile has [0 <= correct <= total], no topic is listed
    twice, and [get_weak_topics], whatever the limit, lists no topic twice
    and gives each a score between 0 and 1. *)
Theorem counters_and_scores_stay_in_range (st : Students) u calls p (limit : Z) :
  st !! u = None -> record_attempts calls st !! u = Some p ->
  (forall t by_difficulty d stats,
      dict_get t (topic_performance p) = Some by_difficulty ->
      dict_get d by_difficulty = Some stats ->
      (0 <= tally_correct stats <= tally_total stats)%Z) /\
  NoDup (dict_keys (topic_performance p)) /\
  NoDup (get_weak_topics u limit (record_attempts calls st)).*1 /\
  (forall t s, (t, s) ∈ get_weak_topics u limit (record_attempts calls st) ->
               (0 <= s <= 1)%Q).
Proof.
intros Hnew Hp.
pose proof (profile_of_run st u calls p Hnew Hp) as Hrun.
pose proof (topics_follow_calls u _ p Hrun) as Htopics.
destruct (keys_follow_calls u _ p Hrun) as [Hnd _].
assert (get_weak_topics u limit (record_attempts calls st)
        = slice_to limit (qualifying p)) as Hweak.
{ unfold get_weak_topics. by rewrite Hp. }
destruct (slice_to_take limit (qualifying p)) as [n Hn].
rewrite Hweak, Hn. split; [|split; [done|split]].
- intros t bd d stats Ht Hd. rewrite Htopics in Ht. unfold topic_after in Ht.
  destruct (on_topic t (calls_of u calls)); [done|]. injection Ht as <-.
  unfold buckets_after in Hd. simpl in Hd.
  repeat (destruct (String.eqb d _); [injection Hd as <-; apply sound_tally_of|]).
  done.
- eapply sublist_NoDup; [|apply fmap_sublist, sublist_take].
  unfold qualifying. rewrite sort_by_perm.
  eapply sublist_NoDup; [exact Hnd|apply weak_candidates_keys].
- intros t s Hin%(subseteq_take n).
  apply elem_of_qualifying in Hin as (stats & Hin & H5 & ->).
  apply (dict_elem_of_get _ _ _ Hnd) in Hin. rewrite Htopics in Hin.
  unfold topic_after in Hin. destruct (on_topic t (calls_of u calls)); [done|].
  injection Hin as <-.
  apply true_div_unit; [apply sum_over_buckets_after | lia].
Qed.

(** X5.  On a table built by [record_attempt] calls, the recommended difficulty
    is always one of "easy", "medium", "hard", for every user, known or
    not, and every topic, and so is the difficulty
    [generate_adaptive_questions] returns. *)
Theorem recommendation_is_a_level calls u topic t n :
  let st := record_attempts calls ∅ in
  get_recommended_difficulty u topic st ∈ three /\
  recommended_difficulty (generate_adaptive_questions u t n st) ∈ three.
Proof.
intros st.
assert (forall topic, get_recommended_difficulty u topic st ∈ three) as Hrec.
{ intros topic'. unfold get_recommended_difficulty.
  destruct (st !! u) as [p|] eqn:Hp; [|apply elem_of_three; auto].
  destruct (keys_follow_calls u _ p (profile_of_run ∅ u calls p (lookup_empty u) Hp))
    as [_ Hpref].
  destruct topic' as [t'|]; [|done].
  destruct (truthy t' && dict_mem t' (topic_performance p)); [|done].
  unfold cascade. apply elem_of_three.
  destruct (Qleb 0.7 _); [auto|]. destruct (Qleb 0.6 _); auto. }
split; [apply Hrec|].
pose proof (session_policy_ignores_recent_attempts calls u t n) as Hsame.
cbv zeta in Hsame. fold st in Hsame. rewrite Hsame. apply Hrec.
Qed.
End CounterTheorems.

(** ** The preferred difficulty *)

Section PreferredDifficulty.
Import AdaptiveLearning.

Lemma Qsum_cons x l : Qsum (x :: l) = (x + Qsum l)%Q.
Proof. done. Qed.

Lemma omap_cons_eq {A B} (f : A -> option B) x l :
  omap f (x :: l) = match f x with Some y => y :: omap f l | None => omap f l end.
Proof. done. Qed.









End PreferredDifficulty.

(** ** The strength analysis *)

Section StrengthAnalysisFacts.
Import AdaptiveLearning.

(** X7.  After any run of calls, for a user who had no profile before and has
    one now, [get_strength_analysis] reports the number of the user's calls
    and of the correct ones among them (calls that raised included), their
    quotient as overall score, which lies between 0 and 1, a preferred
    difficulty that is one of the three levels, at most three weak topics,
    and one recommendation for the tier of the overall score, followed by
    the weak-topics callout exactly when there is a weak topic. *)
Theorem strength_analysis_reports_the_run (st : Students) u calls p :
  st !! u = None -> record_attempts calls st !! u = Some p ->
  let sa := get_strength_analysis u (record_attempts calls st) in
  let asked := Z.of_nat (length (calls_of u calls)) in
  let right := Z.of_nat (length (answered_right (calls_of u calls))) in
  sa_total_questions sa = asked /\
  sa_correct_answers sa = right /\
  sa_overall_score sa = true_div right asked /\
  (0 <= sa_overall_score sa <= 1)%Q /\
  sa_preferred_difficulty sa ∈ three /\
  sa_weak_topics sa = get_weak_topics u 3 (record_attempts calls st) /\
  length (sa_weak_topics sa) <= 3 /\
  exists tier,
    sa_recommendations sa =
      tier :: match sa_weak_topics sa with
              | [] => []
              | _ :: _ => ["Focus on improving: " +:+ join ", " (map fst (sa_weak_topics sa))]
              end /\
    ((sa_overall_score sa < 0.5)%Q ->
     tier = "Focus on fundamental concepts and basic recall questions") /\
    ((0.5 <= sa_overall_score sa)%Q -> (sa_overall_score sa < 0.7)%Q ->
     tier = "Practice application-based questions to improve understanding") /\
    ((0.7 <= sa_overall_score sa)%Q ->
     tier = "Challenge yourself with analytical and complex problem-solving questions").
Proof.
intros Hnew Hp sa asked right.
pose proof (profile_after_calls u calls st Hnew) as Hinv. rewrite Hp in Hinv.
destruct Hinv as [Hne [_ Htot Hcor _ _ _ _ _]].
destruct (keys_follow_calls u _ p (profile_of_run st u calls p Hnew Hp)) as [_ Hpref].
assert (0 < asked)%Z as Hpos.
{ unfold asked. destruct (calls_of u calls); [done|]. simpl. lia. }
assert (0 <= right <= asked)%Z as Hrange.
{ unfold right, asked, answered_right.
  pose proof (length_filter (fun c => correct (call_attempt c) = true) (calls_of u calls)).
  lia. }
assert (sa_overall_score sa = true_div right asked) as Hscore.
{ unfold sa, get_strength_analysis. rewrite Hp. simpl. rewrite Htot, Hcor.
  fold asked right. by destruct (Z.ltb_spec 0 asked); [|lia]. }
unfold sa, get_strength_analysis in *. rewrite Hp in *. simpl in *.
split; [done|]. split; [done|]. split; [done|].
split; [rewrite Hscore; by apply true_div_unit|].
split; [done|]. split; [done|].
split.
{ unfold get_weak_topics. rewrite Hp. rewrite (slice_to_count 3), length_take. lia. }
rewrite Hscore.
destruct (Qltb (true_div right asked) 0.5) eqn:E1;
  [|destruct (Qltb (true_div right asked) 0.7) eqn:E2].
- eexists. split; [by destruct (get_weak_topics u 3 _)|].
  apply Qltb_true in E1. split; [done|]. split.
  + intros H. by apply Qle_not_lt in H.
  + intros H. exfalso. apply (Qlt_not_le _ _ E1). eapply Qle_trans; [|exact H]. done.
- eexists. split; [by destruct (get_weak_topics u 3 _)|].
  apply Qltb_false in E1. apply Qltb_true in E2. split; [|split; [done|]].
  + intros H. by apply Qle_not_lt in E1.
  + intros H. by apply Qle_not_lt in H.
- eexists. split; [by destruct (get_weak_topics u 3 _)|].
  apply Qltb_false in E1. apply Qltb_false in E2. split; [|split; [|done]].
  + intros H. by apply Qle_not_lt in E1.
  + intros _ H. by apply Qle_not_lt in E2.
Qed.
End StrengthAnalysisFacts.

(** ** More on the answer pipeline *)

Section AnswerFacts.
Import RAGService.

Lemma Qsum_nonneg (l : list Q) : Forall (fun x => (0 <= x)%Q) l -> (0 <= Qsum l)%Q.
Proof.
induction 1 as [|x l Hx Hl IH]; [done|].
rewrite Qsum_cons. rewrite <- (Qplus_0_l 0). by apply Qplus_le_compat.
Qed.

Lemma mean_nonneg (l : list Q) : l <> [] -> Forall (fun x => (0 <= x)%Q) l -> (0 <= mean l)%Q.
Proof.
intros Hne Hl. unfold mean. apply Qle_shift_div_l.
- destruct l; [done|]. unfold Qlt. simpl. lia.
- rewrite Qmult_0_l. by apply Qsum_nonneg.
Qed.

Lemma round_half_even_floor q :
  (Qfloor q <= round_half_even q <= Qfloor q + 1)%Z.
Proof.
unfold round_half_even. cbv zeta.
destruct (q - inject_Z (Qfloor q) ?= 1 # 2)%Q; [destruct (Z.even _)|..]; lia.
Qed.

Lemma round_half_even_ge (n : Z) q : (inject_Z n <= q)%Q -> (n <= round_half_even q)%Z.
Proof.
intros H. apply Qfloor_resp_le in H. rewrite Qfloor_Z in H.
pose proof (round_half_even_floor q). lia.
Qed.

Lemma round_half_even_le (n : Z) q : (q <= inject_Z n)%Q -> (round_half_even q <= n)%Z.
Proof.
intros H. pose proof (Qfloor_resp_le _ _ H) as Hf. rewrite Qfloor_Z in Hf.
pose proof (round_half_even_floor q) as Hr.
destruct (decide (Qfloor q = n)) as [Heq|Hne]; [|lia].
unfold round_half_even. cbv zeta.
assert (q - inject_Z (Qfloor q) < 1 # 2)%Q as Hlt.
{ rewrite Heq. apply Qle_lt_trans with (y := 0%Q); [|done].
  rewrite <- (Qplus_opp_r (inject_Z n)). by apply Qplus_le_compat; [|apply Qle_refl]. }
destruct (q - inject_Z (Qfloor q) ?= 1 # 2)%Q eqn:E; [|lia|].
- apply Qeq_alt in E. rewrite E in Hlt. by apply Qlt_irrefl in Hlt.
- apply Qgt_alt in E. exfalso. apply (Qlt_irrefl (1 # 2)). by eapply Qlt_trans.
Qed.

Lemma round2_ge (n : Z) q : (inject_Z n / 100 <= q)%Q -> (inject_Z n / 100 <= round2 q)%Q.
Proof.
intros H. unfold round2, Qdiv. apply Qmult_le_compat_r; [|done].
rewrite <- Zle_Qle. apply round_half_even_ge.
assert (inject_Z n == inject_Z n / 100 * 100)%Q as -> by field.
by apply Qmult_le_compat_r.
Qed.

Lemma round2_le (n : Z) q : (q <= inject_Z n / 100)%Q -> (round2 q <= inject_Z n / 100)%Q.
Proof.
intros H. unfold round2, Qdiv. apply Qmult_le_compat_r; [|done].
rewrite <- Zle_Qle. apply round_half_even_le.
assert (inject_Z n == inject_Z n / 100 * 100)%Q as -> by field.
by apply Qmult_le_compat_r.
Qed.

Lemma py_max_ge_l a b : (a <= py_max a b)%Q.
Proof.
unfold py_max. destruct (Qltb a b) eqn:E; [|apply Qle_refl].
apply Qltb_true in E. by apply Qlt_le_weak.
Qed.

Lemma py_max_le a b c : (a <= c)%Q -> (b <= c)%Q -> (py_max a b <= c)%Q.
Proof. intros Ha Hb. unfold py_max. by destruct (Qltb a b). Qed.

Lemma confidence_of_range (chunks : list Chunk) :
  chunks <> [] -> Forall (fun c => (0 <= distance c)%Q) chunks ->
  (0.1 <= confidence_of chunks <= 1)%Q.
Proof.
intros Hne Hpos. unfold confidence_of. cbv zeta. split; [apply py_max_ge_l|].
apply py_max_le; [done|].
assert (0 <= mean (map distance chunks))%Q as Hmean.
{ apply mean_nonneg; [by destruct chunks|].
  clear Hne. induction Hpos; simpl; by constructor. }
apply Qle_trans with (y := (1.0 - 0)%Q); [|done].
apply Qplus_le_compat; [apply Qle_refl|]. by apply Qopp_le_compat.
Qed.
End AnswerFacts.

Section AnswerTheorems.
Import RAGService.

Lemma general_knowledge_outcome query (llm : LLM) ctx :
  _generate_general_knowledge_answer query llm ctx =
    match llm (general_prompt query ctx) with
    | Return text =>
        Return {| answer := text; confidence := 0.7; sources := ["General Knowledge"];
                  context_chunks :=
                    Some match ctx with
                         | Some ((_ :: _) as chunks) => Z.of_nat (length chunks)
                         | _ => 0%Z
                         end;
                  answer_type := Some "general_knowledge" |}
    | Raise _ =>
        Return {| answer := "I'm sorry, I'm having trouble generating an answer right now. Please try again or rephrase your question.";
                  confidence := 0.0; sources := []; context_chunks := None;
                  answer_type := Some "error" |}
    end.
Proof.
unfold _generate_general_knowledge_answer.
by destruct (llm (general_prompt query ctx)).
Qed.

(** X8.  Whatever the retriever and the generator do, [process_question] returns
    a result, of type "curriculum_based", "general_knowledge" or "error",
    never "unknown"; the type is "error" exactly when the generator raised
    on the prompt it was sent, and then there is no chunk count; a
    "curriculum_based" result reports a confidence of at least 0.3 and
    counts every retrieved chunk; and when no retrieved distance is
    negative the confidence lies between 0 and 1. *)
Theorem process_question_always_answers search query (llm : LLM) uid :
  exists r,
    process_question search query llm uid = Return r /\
    (answer_type r = Some "curriculum_based" \/
     answer_type r = Some "general_knowledge" \/
     answer_type r = Some "error") /\
    (answer_type r = Some "error" <->
     exists e, llm (prompt_sent query (search query)) = Raise e) /\
    (answer_type r = Some "error" <-> context_chunks r = None) /\
    (answer_type r = Some "curriculum_based" ->
     (0.3 <= confidence r)%Q /\
     context_chunks r = Some (Z.of_nat (length (search query)))) /\
    (Forall (fun c => (0 <= distance c)%Q) (search query) ->
     (0 <= confidence r <= 1)%Q).
Proof.
unfold process_question, generate_answer_with_context, prompt_sent.
destruct (search query) as [|c rest] eqn:Hs.
- rewrite general_knowledge_outcome.
  destruct (llm (general_prompt query None)) as [text|e]; simpl;
    eexists; (split; [reflexivity|]); simpl.
  + repeat split; auto; try done. by intros [e ?].
  + repeat split; auto; try done. eauto.
- destruct (Qltb (confidence_of (c :: rest)) 0.3) eqn:Hlow.
  + rewrite general_knowledge_outcome.
    destruct (llm (general_prompt query (Some (c :: rest)))) as [text|e]; simpl;
      eexists; (split; [reflexivity|]); simpl.
    * repeat split; auto; try done. by intros [e ?].
    * repeat split; auto; try done. eauto.
  + destruct (llm (curriculum_prompt (context_of (c :: rest)) query)) as [text|e]; simpl;
      eexists; (split; [reflexivity|]); simpl.
    * apply Qltb_false in Hlow.
      assert (0.3 == inject_Z 30 / 100)%Q as H30 by reflexivity.
      assert (0.1 == inject_Z 10 / 100)%Q as H10 by reflexivity.
      assert (1 == inject_Z 100 / 100)%Q as H100 by reflexivity.
      split; [auto|]. split; [split; [done | by intros [e ?]]|].
      split; [done|]. split.
      { intros _. split; [|done]. rewrite H30. apply round2_ge. by rewrite <- H30. }
      { intros Hpos. destruct (confidence_of_range (c :: rest)) as [Hlo Hhi]; [done..|].
        split.
        - apply Qle_trans with (y := 0.1%Q); [done|].
          rewrite H10. apply round2_ge. by rewrite <- H10.
        - rewrite H100. apply round2_le. by rewrite <- H100. }
    * repeat split; auto; try done. eauto.
Qed.

(** X9.  The two ways into the general-knowledge branch differ in the prompt
    and in the chunk count only: with no chunk the generator gets the plain
    prompt and the count is 0; with chunks of confidence below 0.3 it gets
    the contents of the first two chunks as hints, while the count is that
    of all the chunks retrieved; the sources are ["General Knowledge"] in
    both. *)
Theorem fallback_hints_two_chunks_counts_all query (chunks : list Chunk) (llm : LLM) text :
  (chunks = [] -> llm (plain_prompt query) = Return text) ->
  (chunks <> [] ->
   (spec_confidence chunks < 0.3)%Q /\
   llm (hinted_prompt query (context_of (take 2 chunks))) = Return text) ->
  generate_answer_with_context query chunks llm =
    Return {| answer := text; confidence := 0.7; sources := ["General Knowledge"];
              context_chunks := Some (Z.of_nat (length chunks));
              answer_type := Some "general_knowledge" |}.
Proof.
intros Hnone Hsome. unfold generate_answer_with_context.
destruct chunks as [|c rest].
- rewrite general_knowledge_outcome. simpl. by rewrite Hnone.
- destruct Hsome as [Hlow Hllm]; [done|].
  rewrite <- confidence_of_spec in Hlow. apply Qltb_true in Hlow. rewrite Hlow.
  rewrite general_knowledge_outcome.
  change (general_prompt query (Some (c :: rest)))
    with (hinted_prompt query (context_of (take 2 (c :: rest)))).
  by rewrite Hllm.
Qed.
End AnswerTheorems.

(** ** The routes *)

Section RouteFacts.
Import Routes RAGService.

(** X10.  The route answers 400 to an empty question without calling anything.
    When the generator raises, [process_question] hands back its "error"
    result, which has no 'context_chunks' key, so the route's own lookup of
    that key raises and the client gets status 500 with the text of the
    [KeyError] instead of the error answer.  Otherwise the client gets
    status 200 with the fields of the result. *)
Theorem ask_question_statuses search (llm : LLM) user_id question :
  (question = "" ->
   ask_question search llm user_id question
   = Return {| body := ErrorBody "Question is required"; status := 400 |}) /\
  (question <> "" ->
   (forall e, llm (prompt_sent question (search question)) = Raise e ->
      ask_question search llm user_id question
      = Return {| body := ErrorBody "Error processing question: 'context_chunks'";
                  status := 500 |}) /\
   (forall text, llm (prompt_sent question (search question)) = Return text ->
      exists r n,
        process_question search question llm (Some user_id) = Return r /\
        RAGService.context_chunks r = Some n /\
        ask_question search llm user_id question
        = Return {| body := AnswerBody true question text (confidence r) (sources r) n
                              (default "unknown" (answer_type r));
                    status := 200 |})).
Proof.
split.
- by intros ->.
- intros Hq. unfold ask_question, truthy.
  destruct (String.eqb_spec question ""); [done|]. simpl.
  unfold process_question, generate_answer_with_context, prompt_sent.
  split.
  + intros e He.
    destruct (search question) as [|c rest];
      [|destruct (Qltb (confidence_of (c :: rest)) 0.3)];
      rewrite ?general_knowledge_outcome, He; reflexivity.
  + intros text Ht.
    destruct (search question) as [|c rest];
      [|destruct (Qltb (confidence_of (c :: rest)) 0.3)];
      rewrite ?general_knowledge_outcome, Ht; simpl; eexists _, _;
      (split; [reflexivity|]); (split; reflexivity).
Qed.
End RouteFacts.

(** ** The callers of [record_attempt] *)

Section CallerFacts.
Import AdaptiveLearning Routes.

Lemma table_wf_empty : table_wf ∅.
Proof. intros u p H. by rewrite lookup_empty in H. Qed.

Lemma wf_record_on_profile now a p :
  wf_profile p -> wf_profile (record_on_profile now a p).1.
Proof.
intros Hwf.
destruct (record_on_profile_cases now a p Hwf) as [(_ & d & _ & ->)|(_ & ->)].
- apply (counted_wf now a p Hwf).
- by apply interrupted_wf.
Qed.

Lemma wf_current_profile (st : Students) u now :
  table_wf st -> wf_profile (default (new_profile u now) (st !! u)).
Proof.
intros Hst. destruct (st !! u) as [p|] eqn:E; simpl; [by apply (Hst u)|].
apply wf_new_profile.
Qed.

Lemma table_wf_record_attempt (st : Students) u now a :
  table_wf st -> table_wf (record_attempt u now a st).1.
Proof.
intros Hst v p. rewrite record_attempt_lookup. case_decide as Huv.
- subst v. intros [= <-]. by apply wf_record_on_profile, wf_current_profile.
- apply Hst.
Qed.

Lemma table_wf_record_attempts calls (st : Students) :
  table_wf st -> table_wf (record_attempts calls st).
Proof.
unfold record_attempts. revert st. induction calls as [|c calls IH]; intros st Hst; [done|].
simpl. by apply IH, table_wf_record_attempt.
Qed.

Lemma record_attempt_outcome (st : Students) u now a :
  table_wf st ->
  (record_attempt u now a st).2 =
    if decide (difficulty a ∈ three) then Return tt
    else Raise (KeyError (difficulty a)).
Proof.
intros Hst. pose proof (wf_current_profile st u now Hst) as Hwf.
unfold record_attempt. case_decide as Hd.
- destruct (record_on_profile_return now a _ Hwf Hd) as [d ->]. done.
- by rewrite (record_on_profile_raise now a _ Hwf Hd).
Qed.

Lemma record_attempts_cons c calls (st : Students) :
  record_attempts (c :: calls) st
  = record_attempts calls (record_attempt (call_user c) (call_now c) (call_attempt c) st).1.
Proof. done. Qed.

Lemma record_quiz_loop_calls user_id attempt_id answers time_taken total stamp clock
    i questions (st : Students) :
  table_wf st ->
  (record_quiz_loop user_id attempt_id answers time_taken total stamp clock i questions st).1
  = record_attempts
      (until_rejected
         (quiz_calls user_id attempt_id answers time_taken total stamp clock i questions)) st.
Proof.
revert i st. induction questions as [|q rest IH]; intros i st Hst; [done|].
cbn [record_quiz_loop quiz_calls until_rejected call_attempt].
pose proof (record_attempt_outcome st user_id (clock i)
              (quiz_attempt attempt_id answers time_taken total (stamp i) i q) Hst) as Hout.
pose proof (table_wf_record_attempt st user_id (clock i)
              (quiz_attempt attempt_id answers time_taken total (stamp i) i q) Hst) as Hwf.
destruct (record_attempt user_id (clock i) _ st) as [st' out] eqn:E.
cbn [fst snd] in Hout, Hwf. subst out. case_decide as Hd.
- rewrite (IH (S i) st' Hwf), record_attempts_cons.
  cbn [call_user call_now call_attempt]. by rewrite E.
- rewrite record_attempts_cons. cbn [call_user call_now call_attempt]. by rewrite E.
Qed.

Lemma until_rejected_all calls :
  Forall (fun c => difficulty (call_attempt c) ∈ three) calls -> until_rejected calls = calls.
Proof.
induction 1 as [|c calls Hc Hcalls IH]; [done|].
simpl. rewrite decide_True by done. by rewrite IH.
Qed.

Lemma or_default_truthy fallback value :
  fallback <> "" -> or_default fallback value <> "".
Proof.
intros Hf. unfold or_default, truthy. destruct value as [v|]; [|done].
by destruct (String.eqb_spec v "").
Qed.

Section QuizCalls.
Context (user_id attempt_id : string) (answers : dict string) (time_taken : Q)
        (total : nat) (stamp clock : nat -> Z).

Lemma quiz_calls_accepted questions i :
  Forall (fun q => or_default "medium" (q_difficulty q) ∈ three) questions ->
  Forall (fun c => difficulty (call_attempt c) ∈ three)
         (quiz_calls user_id attempt_id answers time_taken total stamp clock i questions).
Proof.
intros Hall. revert i. induction Hall as [|q rest Hq Hrest IH]; intros i; simpl;
  constructor; [done|apply IH].
Qed.

Lemma quiz_calls_length questions i :
  length (quiz_calls user_id attempt_id answers time_taken total stamp clock i questions)
  = length questions.
Proof. revert i. induction questions as [|q rest IH]; intros i; simpl; [done|]. by rewrite IH. Qed.

Lemma quiz_calls_fields questions i :
  Forall (fun c => call_user c = user_id /\
                   topic (call_attempt c) <> "" /\
                   difficulty (call_attempt c) <> "" /\
                   cognitive_level (call_attempt c) <> "")
         (quiz_calls user_id attempt_id answers time_taken total stamp clock i questions).
Proof.
revert i. induction questions as [|q rest IH]; intros i; simpl; constructor; [|apply IH].
simpl. split; [done|]. repeat split; by apply or_default_truthy.
Qed.
End QuizCalls.

(** X11.  On a table built by [record_attempt] calls, the recording block of
    [submit_quiz] makes, for the questions in order, the calls of
    [record_attempt] up to and including the first whose difficulty is
    none of the three buckets, and none after it: the questions before it
    are recorded in full, that one is counted without reaching a bucket,
    the later ones are lost.  When every question's difficulty, "medium"
    where the question gives none, is a bucket, every question is recorded.
    No attempt is built with an empty topic, difficulty or cognitive
    level. *)
Theorem quiz_recording_stops_at_unknown_difficulty prior user_id attempt_id
    questions answers time_taken stamp clock :
  let st := record_attempts prior ∅ in
  let calls := quiz_calls user_id attempt_id answers time_taken (length questions) stamp clock
                          0 questions in
  record_quiz user_id attempt_id questions answers time_taken stamp clock st
    = record_attempts (until_rejected calls) st /\
  (Forall (fun q => or_default "medium" (q_difficulty q) ∈ three) questions ->
   record_quiz user_id attempt_id questions answers time_taken stamp clock st
     = record_attempts calls st) /\
  length calls = length questions /\
  Forall (fun c => call_user c = user_id /\
                   topic (call_attempt c) <> "" /\
                   difficulty (call_attempt c) <> "" /\
                   cognitive_level (call_attempt c) <> "") calls.
Proof.
intros st calls.
assert (table_wf st) as Hst by apply table_wf_record_attempts, table_wf_empty.
assert (record_quiz user_id attempt_id questions answers time_taken stamp clock st
        = record_attempts (until_rejected calls) st) as Hquiz.
{ unfold record_quiz. by apply record_quiz_loop_calls. }
split; [done|]. split; [|split].
- intros Hall. rewrite Hquiz, until_rejected_all; [done|]. by apply quiz_calls_accepted.
- apply quiz_calls_length.
- apply quiz_calls_fields.
Qed.

End CallerFacts.

(** ** The subject of a text *)

Section SubjectFacts.
Import SubjectClassifier.

Lemma fold_max_spec (best : string * Z) (rest : list (string * Z)) :
  let r := foldl (fun best item => if (best.2 <? item.2)%Z then item else best) best rest in
  exists l1 l2,
    best :: rest = l1 ++ r :: l2 /\
    Forall (fun x => (x.2 < r.2)%Z) l1 /\
    Forall (fun x => (x.2 <= r.2)%Z) l2.
Proof.
induction rest as [|x rest IH] using rev_ind.
- exists [], []. by repeat split.
- rewrite foldl_app. simpl. destruct IH as (l1 & l2 & Heq & H1 & H2).
  set (r := foldl _ best rest) in *.
  destruct (Z.ltb_spec r.2 x.2) as [Hlt|Hge].
  + exists (l1 ++ r :: l2), []. split; [|split; [|done]].
    * rewrite app_comm_cons, Heq. by rewrite <- app_assoc.
    * apply Forall_app. split; [|constructor; [done|]].
      -- eapply Forall_impl; [exact H1|]. simpl. lia.
      -- eapply Forall_impl; [exact H2|]. simpl. lia.
  + exists l1, (l2 ++ [x]). split; [|split; [done|]].
    * rewrite app_comm_cons, Heq. by rewrite <- app_assoc.
    * apply Forall_app. split; [done|]. by constructor.
Qed.

Lemma dict_map_app_inv {V W} (f : V -> W) (d : dict V) l1 k w l2 :
  dict_map f d = l1 ++ (k, w) :: l2 ->
  exists d1 v d2,
    d = d1 ++ (k, v) :: d2 /\ w = f v /\ l1 = dict_map f d1 /\ l2 = dict_map f d2.
Proof.
revert l1. induction d as [|[k0 v0] d IH]; intros l1 H.
- by destruct l1.
- destruct l1 as [|[k1 w1] l1]; simpl in H.
  + injection H as -> <- <-. by exists [], v0, d.
  + injection H as <- <- H. destruct (IH l1 H) as (d1 & v & d2 & -> & -> & -> & ->).
    by exists ((k0, v0) :: d1), v, d2.
Qed.

Lemma Forall_dict_map {V W} (f : V -> W) (P : string * W -> Prop) (d : dict V) :
  Forall P (dict_map f d) -> Forall (fun item => P (item.1, f item.2)) d.
Proof. induction d as [|[k v] d IH]; inversion 1; subst; constructor; auto. Qed.

Lemma max_key_dict_map {V} (f : V -> Z) (d : dict V) :
  d <> [] ->
  exists d1 k v d2,
    max_key (dict_map f d) = Some k /\
    d = d1 ++ (k, v) :: d2 /\
    Forall (fun item => (f item.2 < f v)%Z) d1 /\
    Forall (fun item => (f item.2 <= f v)%Z) d2.
Proof.
destruct d as [|[k0 v0] rest]; [done|]. intros _.
change (dict_map f ((k0, v0) :: rest)) with ((k0, f v0) :: dict_map f rest).
unfold max_key.
destruct (fold_max_spec (k0, f v0) (dict_map f rest)) as (l1 & l2 & Heq & H1 & H2).
destruct (foldl _ (k0, f v0) (dict_map f rest)) as [rk rv].
change ((k0, f v0) :: dict_map f rest) with (dict_map f ((k0, v0) :: rest)) in Heq.
apply dict_map_app_inv in Heq as (d1 & v & d2 & Hd & -> & -> & ->).
exists d1, rk, v, d2. split; [done|]. split; [done|].
split; [apply (Forall_dict_map _ (fun x => (x.2 < _)%Z)) in H1
       | apply (Forall_dict_map _ (fun x => (x.2 <= _)%Z)) in H2]; done.
Qed.

Lemma keyword_score_nonneg text keywords : (0 <= keyword_score text keywords)%Z.
Proof. unfold keyword_score. lia. Qed.

Lemma keyword_score_zero text keywords :
  Forall (fun keyword => contains keyword text = false) keywords ->
  keyword_score text keywords = 0%Z.
Proof.
intros H. unfold keyword_score. induction H as [|k l Hk Hl IH]; [done|].
rewrite filter_cons_False; [done|]. by rewrite Hk.
Qed.

(** X13.  [classify_subject] returns the subject whose keywords occur most in the
    lowered text, the first such subject in the order mathematics, science,
    history, geography, english, hindi: every subject before it has
    strictly fewer keywords in the text, every subject after it no more.
    So the result is one of the six subjects and never "general", and a
    text in which no keyword occurs is classified as "mathematics". *)
Theorem classify_subject_picks_first_best lower text :
  let score := keyword_score (lower text) in
  let subject := classify_subject lower text in
  (exists before keywords after,
      subject_keywords = before ++ (subject, keywords) :: after /\
      Forall (fun item => (score item.2 < score keywords)%Z) before /\
      Forall (fun item => (score item.2 <= score keywords)%Z) after) /\
  subject ∈ dict_keys subject_keywords /\
  subject <> "general" /\
  (Forall (fun item => Forall (fun keyword => contains keyword (lower text) = false) item.2)
          subject_keywords ->
   subject = "mathematics").
Proof.
intros score subject.
assert (exists before keywords after,
      subject_keywords = before ++ (subject, keywords) :: after /\
      Forall (fun item => (score item.2 < score keywords)%Z) before /\
      Forall (fun item => (score item.2 <= score keywords)%Z) after) as Hbest.
{ destruct (max_key_dict_map (keyword_score (lower text)) subject_keywords)
    as (d1 & k & v & d2 & Hmax & Hd & H1 & H2); [done|].
  assert (subject = k) as ->.
  { unfold subject, classify_subject. cbv zeta. rewrite Hmax.
    by destruct (dict_map _ subject_keywords) eqn:E. }
  by exists d1, v, d2. }
split; [exact Hbest|].
destruct Hbest as (before & keywords & after & Heq & Hlt & Hle).
assert (subject ∈ dict_keys subject_keywords) as Hin.
{ rewrite Heq. unfold dict_keys. rewrite fmap_app. simpl.
  apply elem_of_app. right. left. }
split; [done|]. split.
- intros Hgen. rewrite Hgen in Hin. vm_compute in Hin.
  repeat (apply elem_of_cons in Hin as [Hin|Hin]; [done|]). by apply elem_of_nil in Hin.
- intros Hnone.
  assert (forall item, item ∈ subject_keywords -> score item.2 = 0%Z) as Hzero.
  { intros item Hitem. apply keyword_score_zero.
    rewrite Forall_forall in Hnone. by apply Hnone. }
  destruct before as [|item before].
  + by injection Heq as <- _.
  + exfalso. inversion Hlt as [|? ? Hitem _]; subst.
    assert (score item.2 = 0%Z) as H0 by (apply Hzero; rewrite Heq; left).
    assert (score keywords = 0%Z) as H1.
    { apply (Hzero (subject, keywords)). rewrite Heq. apply elem_of_app. right. left. }
    lia.
Qed.
End SubjectFacts.

(** ** Chunks of a text *)

Section StripFacts.
Import Chunker.

Lemma lstrip_suffix s : exists ws, s = ws ++ lstrip s /\ Forall (fun c => is_space c = true) ws.
Proof.
induction s as [|c s IH]; [by exists []|]. simpl.
destruct (is_space c) eqn:E.
- destruct IH as (ws & Heq & Hws). exists (c :: ws). split; [by rewrite Heq at 1|].
  by constructor.
- by exists [].
Qed.

Lemma lstrip_head s c : head (lstrip s) = Some c -> is_space c = false.
Proof.
induction s as [|c' s IH]; [done|]. simpl.
destruct (is_space c') eqn:E; [done|]. simpl. by intros [= <-].
Qed.

Lemma lstrip_id s : (forall c, head s = Some c -> is_space c = false) -> lstrip s = s.
Proof. destruct s as [|c s]; [done|]. simpl. intros H. by rewrite (H c). Qed.

Lemma lstrip_last s c : lstrip s <> [] -> last s = Some c -> last (lstrip s) = Some c.
Proof.
destruct (lstrip_suffix s) as (ws & Heq & _). intros Hne Hlast.
rewrite Heq in Hlast. destruct (lstrip s) as [|x l] using rev_ind; [done|].
rewrite app_assoc, last_snoc in Hlast. by rewrite last_snoc.
Qed.

Lemma head_rev {A} (l : list A) : head (rev l) = last l.
Proof.
destruct l as [|x l] using rev_ind; [done|].
by rewrite rev_app_distr, last_snoc.
Qed.

Lemma last_rev {A} (l : list A) : last (rev l) = head l.
Proof. by rewrite <- head_rev, rev_involutive. Qed.

Lemma strip_piece s : exists before after, s = before ++ strip s ++ after.
Proof.
unfold strip. destruct (lstrip_suffix s) as (ws1 & H1 & _).
destruct (lstrip_suffix (rev (lstrip s))) as (ws2 & H2 & _).
exists ws1, (rev ws2). rewrite <- rev_app_distr, <- H2, rev_involutive. exact H1.
Qed.

Lemma strip_length s : length (strip s) <= length s.
Proof.
destruct (strip_piece s) as (b & a & Heq). rewrite Heq at 2.
rewrite !length_app. lia.
Qed.

Lemma strip_trimmed s : trimmed (strip s).
Proof.
unfold strip. split; intros c.
- rewrite head_rev. intros Hc.
  destruct (decide (lstrip (rev (lstrip s)) = [])) as [He|Hne]; [by rewrite He in Hc|].
  destruct (last (rev (lstrip s))) as [c'|] eqn:El.
  + rewrite (lstrip_last _ c' Hne El) in Hc. injection Hc as <-.
    rewrite last_rev in El. by apply lstrip_head in El.
  + apply last_None in El. by rewrite El in Hne.
- rewrite last_rev. apply lstrip_head.
Qed.

Lemma strip_id s : trimmed s -> strip s = s.
Proof.
intros [Hh Hl]. unfold strip. rewrite (lstrip_id s Hh).
rewrite lstrip_id; [apply rev_involutive|].
intros c. rewrite head_rev. apply Hl.
Qed.
End StripFacts.

Section NormalizeFacts.
Import Chunker.

Lemma split_from_words word s :
  Forall (fun c => is_space c = false) word ->
  Forall bare_word (split_from word s).
Proof.
revert word. induction s as [|c s IH]; intros word Hword; simpl.
- destruct word; [constructor|]. constructor; [by split|constructor].
- destruct (is_space c) eqn:E.
  + destruct word as [|x word]; [by apply IH|].
    constructor; [by split|]. by apply IH.
  + apply IH. apply Forall_app. split; [done|]. by constructor.
Qed.

Lemma split_from_blank s :
  Forall (fun c => is_space c = true) s -> split_from [] s = [].
Proof. induction 1 as [|c s Hc Hs IH]; [done|]. simpl. by rewrite Hc. Qed.

Lemma join_spaces_head w words : w <> [] -> head (join_spaces (w :: words)) = head w.
Proof. intros Hw. destruct w; [done|]. by destruct words. Qed.

Lemma join_spaces_last words :
  Forall bare_word words -> words <> [] ->
  exists w, last words = Some w /\ last (join_spaces words) = last w.
Proof.
induction 1 as [|w words Hw Hwords IH]; [done|]. intros _.
destruct words as [|w' words].
- by exists w.
- destruct IH as (v & Hv & Hlast); [done|]. exists v. split; [done|].
  change (join_spaces (w :: w' :: words)) with (w ++ space :: join_spaces (w' :: words)).
  rewrite <- Hlast.
  assert (join_spaces (w' :: words) <> []) as Hne.
  { inversion Hwords as [|? ? [Hw' _] _]; subst. destruct w'; [done|]. by destruct words. }
  destruct (join_spaces (w' :: words)) as [|x l] using rev_ind; [done|].
  by rewrite app_comm_cons, app_assoc, !last_snoc.
Qed.

Lemma join_spaces_trimmed words : Forall bare_word words -> trimmed (join_spaces words).
Proof.
intros Hwords. destruct words as [|w words]; [by split|]. split; intros c.
- inversion Hwords as [|? ? [Hne Hw] _]; subst. rewrite join_spaces_head by done.
  destruct w as [|x w]; [done|]. simpl. intros [= <-]. by inversion Hw.
- destruct (join_spaces_last (w :: words) Hwords) as (v & Hv & ->); [done|].
  intros Hc. apply last_Some_elem_of in Hv. rewrite Forall_forall in Hwords.
  destruct (Hwords v Hv) as [_ Hvs]. rewrite Forall_forall in Hvs.
  apply Hvs. by apply last_Some_elem_of.
Qed.

Lemma normalize_trimmed s : trimmed (normalize s).
Proof. apply join_spaces_trimmed, split_from_words. constructor. Qed.

Lemma normalize_blank s : Forall (fun c => is_space c = true) s -> normalize s = [].
Proof.
intros H. unfold normalize, split. rewrite split_from_blank; [done|].
unfold replace. induction H as [|c s Hc Hs IH]; [constructor|]. simpl.
constructor; [|done].
destruct (c =? newline)%N; [by destruct (space =? carriage_return)%N|].
by destruct (c =? carriage_return)%N.
Qed.
End NormalizeFacts.

Section ChunkFacts.
Import Chunker.

Lemma piece_of_trans a b c : piece_of a b -> piece_of b c -> piece_of a c.
Proof.
intros (x & y & ->) (x' & y' & ->). exists (x' ++ x), (y ++ y').
by rewrite <- !app_assoc.
Qed.

Lemma slice_piece s start stop : piece_of (slice s start stop) s.
Proof.
unfold slice. cbv zeta.
set (a := clamp (length s) start). set (k := (clamp (length s) stop - a)%nat).
exists (take a s), (drop k (drop a s)).
by rewrite take_drop, take_drop.
Qed.

Lemma slice_length s start stop :
  (0 <= start)%Z -> (0 <= stop)%Z ->
  (Z.of_nat (length (slice s start stop)) <= Z.max 0 (stop - start))%Z.
Proof.
intros Ha Hb. unfold slice, clamp. cbv zeta.
destruct (Z.ltb_spec start 0); [lia|]. destruct (Z.ltb_spec stop 0); [lia|].
rewrite length_take, length_drop. lia.
Qed.

Lemma slice_whole s stop : (Z.of_nat (length s) <= stop)%Z -> slice s 0 stop = s.
Proof.
intros H. unfold slice, clamp. cbv zeta.
destruct (Z.ltb_spec 0 0); [lia|]. destruct (Z.ltb_spec stop 0); [lia|].
simpl. rewrite drop_0. apply take_ge. lia.
Qed.

Lemma slice_tail s start stop :
  (0 <= start)%Z -> (Z.of_nat (length s) <= stop)%Z ->
  slice s start stop = drop (Z.to_nat start) s.
Proof.
intros Ha H. unfold slice, clamp. cbv zeta.
destruct (Z.ltb_spec start 0); [lia|]. destruct (Z.ltb_spec stop 0); [lia|].
destruct (Nat.le_gt_cases (Z.to_nat start) (length s)).
- rewrite (Nat.min_l (Z.to_nat start)) by lia. apply take_ge. rewrite length_drop. lia.
- rewrite (Nat.min_r (Z.to_nat start)) by lia. rewrite !drop_ge by lia. by rewrite take_nil.
Qed.

Lemma index_in_range s i :
  (0 <= i < Z.of_nat (length s))%Z -> exists c, index s i = Return c /\ s !! Z.to_nat i = Some c.
Proof.
intros H. unfold index. cbv zeta.
destruct (Z.ltb_spec i 0); [lia|].
destruct (Z.leb_spec 0 i); [|lia]. destruct (Z.ltb_spec i (Z.of_nat (length s))); [|lia].
simpl. destruct (lookup_lt_is_Some_2 s (Z.to_nat i)) as [c Hc]; [lia|].
rewrite Hc. by exists c.
Qed.

Lemma sentence_boundary_range s steps : forall i,
  (0 <= i - Z.of_nat steps + 1)%Z -> (i < Z.of_nat (length s))%Z ->
  sentence_boundary s i steps = Return None \/
  exists e, sentence_boundary s i steps = Return (Some e) /\
            (i - Z.of_nat steps + 2 <= e <= i + 1)%Z.
Proof.
induction steps as [|steps IH]; intros i Hlo Hhi; [by left|].
destruct (index_in_range s i) as (c & Hc & _); [lia|].
change (sentence_boundary s i (S steps))
  with (c ← index s i; if ends_sentence c then Return (Some (i + 1)%Z)
                        else sentence_boundary s (i - 1)%Z steps).
rewrite Hc. simpl. destruct (ends_sentence c).
- right. exists (i + 1)%Z. split; [done|lia].
- destruct (IH (i - 1)%Z) as [->|(e & -> & He)]; [lia|lia|by left|].
  right. exists e. split; [done|lia].
Qed.

Lemma sentence_boundary_none s steps : forall i,
  (0 <= i - Z.of_nat steps + 1)%Z -> (i < Z.of_nat (length s))%Z ->
  Forall (fun c => ends_sentence c = false) s ->
  sentence_boundary s i steps = Return None.
Proof.
induction steps as [|steps IH]; intros i Hlo Hhi Hs; [done|].
destruct (index_in_range s i) as (c & Hc & Hl); [lia|].
change (sentence_boundary s i (S steps))
  with (c ← index s i; if ends_sentence c then Return (Some (i + 1)%Z)
                        else sentence_boundary s (i - 1)%Z steps).
rewrite Hc. simpl. rewrite Forall_forall in Hs.
rewrite (Hs c) by (by eapply list_elem_of_lookup_2).
apply IH; [lia|lia|]. by rewrite Forall_forall.
Qed.

(** One round of the loop. *)
Lemma chunk_loop_round fuel s chunk_size overlap start chunks :
  chunk_loop (S fuel) s chunk_size overlap start chunks =
  let n := Z.of_nat (length s) in
  if (start <? n)%Z then
    let stop := (start + chunk_size)%Z in
    let found :=
      if (stop <? n)%Z
      then sentence_boundary s stop
             (Z.to_nat (stop - Z.max (start + chunk_size - 100) start))
      else Return None in
    match found with
    | Raise e => Some (Raise e)
    | Return found =>
        let stop := default stop found in
        let chunk := strip (slice s start stop) in
        let chunks := match chunk with [] => chunks | _ :: _ => chunks ++ [chunk] end in
        let start := (stop - overlap)%Z in
        if (n <=? start)%Z then Some (Return chunks)
        else chunk_loop fuel s chunk_size overlap start chunks
    end
  else Some (Return chunks).
Proof. reflexivity. Qed.

(** Where a round of the loop ends its chunk. *)
Lemma found_stop s chunk_size start :
  (0 <= start)%Z -> (1 <= chunk_size)%Z ->
  exists found,
    (if (start + chunk_size <? Z.of_nat (length s))%Z
     then sentence_boundary s (start + chunk_size)
            (Z.to_nat (start + chunk_size - Z.max (start + chunk_size - 100) start))
     else Return None) = Return found /\
    let stop := default (start + chunk_size)%Z found in
    (Z.min (start + chunk_size) (Z.max (start + chunk_size - 100) start + 2) <= stop
     <= start + chunk_size + 1)%Z.
Proof.
intros Hs Hc. destruct (Z.ltb_spec (start + chunk_size) (Z.of_nat (length s))).
- destruct (sentence_boundary_range s
    (Z.to_nat (start + chunk_size - Z.max (start + chunk_size - 100) start))
    (start + chunk_size)%Z) as [->|(e & -> & He)]; [lia|lia| |].
  + exists None. simpl. split; [done|lia].
  + exists (Some e). simpl. split; [done|lia].
- exists None. simpl. split; [done|lia].
Qed.

Lemma good_chunk_strip s chunk_size start stop :
  (0 <= chunk_size)%Z -> (0 <= start)%Z -> (0 <= stop <= start + chunk_size + 1)%Z ->
  strip (slice s start stop) <> [] ->
  good_chunk s chunk_size (strip (slice s start stop)).
Proof.
intros Hcs Ha Hb Hne. split; [done|]. split; [|split].
- pose proof (strip_length (slice s start stop)).
  pose proof (slice_length s start stop Ha (proj1 Hb)). lia.
- apply strip_trimmed.
- eapply piece_of_trans; [apply strip_piece|apply slice_piece].
Qed.

Lemma chunk_loop_good s chunk_size overlap : forall fuel start chunks,
  (0 <= overlap)%Z -> (overlap + 99 <= chunk_size)%Z -> (0 <= start)%Z ->
  (Z.max 0 (Z.of_nat (length s) - start) < Z.of_nat fuel)%Z ->
  Forall (good_chunk s chunk_size) chunks ->
  exists chunks',
    chunk_loop fuel s chunk_size overlap start chunks = Some (Return chunks') /\
    Forall (good_chunk s chunk_size) chunks'.
Proof.
induction fuel as [|fuel IH]; intros start chunks Hov Hcs Hstart Hfuel Hgood.
- exists chunks. lia.
- rewrite chunk_loop_round. cbv zeta.
  destruct (Z.ltb_spec start (Z.of_nat (length s))); [|by exists chunks].
  destruct (found_stop s chunk_size start) as (found & -> & Hstop); [lia|lia|].
  cbv zeta in Hstop. set (stop := default (start + chunk_size)%Z found) in *.
  set (chunk := strip (slice s start stop)).
  assert (Forall (good_chunk s chunk_size)
            (match chunk with [] => chunks | _ :: _ => chunks ++ [chunk] end)) as Hgood'.
  { destruct chunk as [|c chunk'] eqn:E; [done|].
    apply Forall_app. split; [done|]. constructor; [|constructor].
    rewrite <- E. apply good_chunk_strip; [lia|lia|lia|]. fold chunk. by rewrite E. }
  destruct (Z.leb_spec (Z.of_nat (length s)) (stop - overlap)); [by eexists|].
  apply IH; [lia|lia|lia|lia|done].
Qed.

Lemma chunk_loop_more_fuel s chunk_size overlap r : forall fuel fuel' start chunks,
  chunk_loop fuel s chunk_size overlap start chunks = Some r -> (fuel <= fuel')%nat ->
  chunk_loop fuel' s chunk_size overlap start chunks = Some r.
Proof.
induction fuel as [|fuel IH]; intros fuel' start chunks H Hle; [done|].
destruct fuel' as [|fuel']; [lia|].
rewrite chunk_loop_round in *. cbv zeta in *.
destruct (_ <? _)%Z; [|done].
destruct (if (_ <? _)%Z then _ else _) as [found|e]; [|done].
destruct (_ <=? _)%Z; [done|]. apply (IH fuel'); [done|lia].
Qed.

Lemma chunk_loop_spins s chunk_size : forall fuel chunks,
  (1 <= chunk_size < Z.of_nat (length s))%Z ->
  Forall (fun c => ends_sentence c = false) s ->
  chunk_loop fuel s chunk_size chunk_size 0 chunks = None.
Proof.
induction fuel as [|fuel IH]; intros chunks Hcs Hs; [done|].
rewrite chunk_loop_round. cbv zeta.
destruct (Z.ltb_spec 0 (Z.of_nat (length s))); [|lia].
destruct (Z.ltb_spec (0 + chunk_size) (Z.of_nat (length s))); [|lia].
rewrite sentence_boundary_none by (done || lia). simpl.
replace (0 + chunk_size - chunk_size)%Z with 0%Z by lia.
destruct (Z.leb_spec (Z.of_nat (length s)) 0); [lia|].
by apply IH.
Qed.
End ChunkFacts.

Section ChunkerProperties.
Import Chunker.

Lemma normalize_nil_length s : normalize s <> [] -> (0 < Z.of_nat (length (normalize s)))%Z.
Proof. destruct (normalize s); [done|]. simpl. lia. Qed.

Lemma match_nonempty {A B} (l : list A) (a b : B) :
  l <> [] -> match l with [] => a | _ :: _ => b end = b.
Proof. by destruct l. Qed.

Lemma extract_nonempty fuel s chunk_size overlap :
  normalize s <> [] ->
  extract_and_chunk_text fuel s chunk_size overlap =
  chunk_loop fuel (normalize s) chunk_size overlap 0 [].
Proof. by destruct s. Qed.

Lemma strip_tail s :
  s <> [] -> (forall c, last s = Some c -> is_space c = false) ->
  strip s = lstrip s /\ lstrip s <> [].
Proof.
intros Hne Hlast.
assert (lstrip s <> []) as Hl.
{ destruct (lstrip_suffix s) as (ws & Heq & Hws). intros He.
  rewrite He, app_nil_r in Heq. subst ws.
  destruct s as [|x s] using rev_ind; [done|].
  apply Forall_app in Hws as [_ Hx]. inversion Hx as [|? ? Hsp _]; subst.
  by rewrite (Hlast x) in Hsp by apply last_snoc. }
split; [|done]. unfold strip. rewrite lstrip_id; [apply rev_involutive|].
intros c. rewrite head_rev. intros Hc. apply Hlast.
destruct (last s) as [d|] eqn:E.
- by rewrite (lstrip_last s d Hl E) in Hc.
- apply last_None in E. done.
Qed.

(** X14.  With an overlap of at least 0 and at most [chunk_size - 99] (the defaults
    500 and 50 are such), [extract_and_chunk_text] returns: its loop ends
    after at most one round more than the normalized text has characters,
    and no index is out of range.  Every chunk it returns is non-empty, has at most
    [chunk_size + 1] characters, neither starts nor ends with whitespace, and is
    a contiguous piece of the normalized text. *)
Theorem chunks_are_trimmed_pieces (s : text) (chunk_size overlap : Z) :
  (0 <= overlap)%Z -> (overlap + 99 <= chunk_size)%Z ->
  exists chunks,
    (forall fuel, length (normalize s) < fuel ->
       extract_and_chunk_text fuel s chunk_size overlap = Some (Return chunks)) /\
    Forall (good_chunk (normalize s) chunk_size) chunks.
Proof.
intros Hov Hcs. destruct s as [|c s]; [exists []; split; [done|constructor]|].
destruct (chunk_loop_good (normalize (c :: s)) chunk_size overlap
            (S (length (normalize (c :: s)))) 0 []) as (chunks & Hrun & Hgood);
  [lia|lia|lia|lia|constructor|].
exists chunks. split; [|done]. intros fuel Hfuel.
apply (chunk_loop_more_fuel _ _ _ _ _ fuel _ _ Hrun). lia.
Qed.

(** X15.  A text of whitespace only gives no chunk, whatever the sizes; a text whose
    normalized form has at most [chunk_size - overlap] characters gives that
    form as its only chunk. *)
Theorem short_text_is_one_chunk (s : text) (chunk_size overlap : Z) (fuel : nat) :
  (Forall (fun c => is_space c = true) s ->
     extract_and_chunk_text (S fuel) s chunk_size overlap = Some (Return [])) /\
  (normalize s <> [] -> (0 <= overlap)%Z ->
   (Z.of_nat (length (normalize s)) <= chunk_size - overlap)%Z ->
     extract_and_chunk_text (S fuel) s chunk_size overlap = Some (Return [normalize s])).
Proof.
split.
- intros Hs. destruct s as [|c s]; [done|]. unfold extract_and_chunk_text.
  by rewrite (normalize_blank _ Hs).
- intros Hne Hov Hlen. rewrite extract_nonempty by done.
  pose proof (normalize_nil_length s Hne) as Hpos.
  rewrite chunk_loop_round. cbv zeta.
  destruct (Z.ltb_spec 0 (Z.of_nat (length (normalize s)))); [|lia].
  destruct (Z.ltb_spec (0 + chunk_size) (Z.of_nat (length (normalize s)))); [lia|].
  simpl default. rewrite slice_whole by lia.
  rewrite (strip_id _ (normalize_trimmed s)).
  rewrite match_nonempty by done.
  destruct (Z.leb_spec (Z.of_nat (length (normalize s))) (0 + chunk_size - overlap)); [done|lia].
Qed.

(** X16.  A text whose normalized form fits in one chunk, but has more than
    [chunk_size - overlap] characters, is returned twice over in part: the
    first chunk is the whole form, and a second chunk repeats its tail from
    position [chunk_size - overlap] on. *)
Theorem fitting_text_repeats_its_tail (s : text) (chunk_size overlap : Z) (fuel : nat) :
  let t := normalize s in
  let tail := lstrip (drop (Z.to_nat (chunk_size - overlap)) t) in
  (0 <= overlap)%Z ->
  (chunk_size - overlap < Z.of_nat (length t) <= chunk_size)%Z ->
  (Z.of_nat (length t) <= 2 * (chunk_size - overlap))%Z ->
  extract_and_chunk_text (S (S fuel)) s chunk_size overlap = Some (Return [t; tail]) /\
  tail <> [].
Proof.
intros t tail Hov Hlen Hlen2.
assert (t <> []) as Hne by (intros He; rewrite He in Hlen, Hlen2; simpl in *; lia).
assert (drop (Z.to_nat (chunk_size - overlap)) t <> []) as Hdrop.
{ intros He. apply (f_equal length) in He. rewrite length_drop in He. simpl in He. lia. }
destruct (strip_tail (drop (Z.to_nat (chunk_size - overlap)) t) Hdrop) as [Hstrip Htail].
{ intros c Hc. apply (proj2 (normalize_trimmed s)).
  fold t. rewrite <- (take_drop (Z.to_nat (chunk_size - overlap)) t).
  destruct (drop (Z.to_nat (chunk_size - overlap)) t) as [|x l] using rev_ind; [done|].
  rewrite last_snoc in Hc. by rewrite app_assoc, last_snoc. }
split; [|done]. rewrite extract_nonempty by done. fold t.
rewrite chunk_loop_round. cbv zeta.
destruct (Z.ltb_spec 0 (Z.of_nat (length t))); [|lia].
destruct (Z.ltb_spec (0 + chunk_size) (Z.of_nat (length t))); [lia|].
simpl default. rewrite slice_whole by lia.
rewrite (strip_id t (normalize_trimmed s)).
rewrite match_nonempty by done.
destruct (Z.leb_spec (Z.of_nat (length t)) (0 + chunk_size - overlap)); [lia|].
rewrite chunk_loop_round. cbv zeta.
destruct (Z.ltb_spec (0 + chunk_size - overlap) (Z.of_nat (length t))); [|lia].
destruct (Z.ltb_spec (0 + chunk_size - overlap + chunk_size) (Z.of_nat (length t))); [lia|].
simpl default. rewrite slice_tail by lia.
replace (0 + chunk_size - overlap)%Z with (chunk_size - overlap)%Z by lia.
rewrite Hstrip. fold tail. rewrite match_nonempty by done.
destruct (Z.leb_spec (Z.of_nat (length t)) (chunk_size - overlap + chunk_size - overlap)); [done|lia].
Qed.

(** X17.  With an overlap equal to the chunk size the loop does not advance: on a
    text whose normalized form is longer than a chunk and has no sentence end,
    [extract_and_chunk_text] never returns, however many rounds it is given. *)
Theorem equal_overlap_never_returns (s : text) (chunk_size : Z) (fuel : nat) :
  (1 <= chunk_size < Z.of_nat (length (normalize s)))%Z ->
  Forall (fun c => ends_sentence c = false) (normalize s) ->
  extract_and_chunk_text fuel s chunk_size chunk_size = None.
Proof.
intros Hcs Hs. rewrite extract_nonempty.
- by apply chunk_loop_spins.
- intros He. rewrite He in Hcs. simpl in Hcs. lia.
Qed.

(** X18.  An overlap beyond twice the chunk size plus the length of the normalized
    text sends the second round to an index before the start of the text: the
    call raises [IndexError]. *)
Theorem large_overlap_raises_IndexError (s : text) (chunk_size overlap : Z) (fuel : nat) :
  normalize s <> [] -> (1 <= chunk_size)%Z ->
  (2 * chunk_size + 1 + Z.of_nat (length (normalize s)) < overlap)%Z ->
  extract_and_chunk_text (S (S fuel)) s chunk_size overlap =
  Some (Raise (Exception "string index out of range")).
Proof.
intros Hne Hcs Hov. rewrite extract_nonempty by done.
pose proof (normalize_nil_length s Hne) as Hpos.
set (t := normalize s) in *.
rewrite chunk_loop_round. cbv zeta.
destruct (Z.ltb_spec 0 (Z.of_nat (length t))); [|lia].
destruct (found_stop t chunk_size 0) as (found & -> & Hstop); [lia|lia|].
cbv zeta in Hstop. set (stop := default (0 + chunk_size)%Z found) in *.
destruct (Z.leb_spec (Z.of_nat (length t)) (stop - overlap)); [lia|].
rewrite chunk_loop_round. cbv zeta.
destruct (Z.ltb_spec (stop - overlap) (Z.of_nat (length t))); [|lia].
destruct (Z.ltb_spec (stop - overlap + chunk_size) (Z.of_nat (length t))); [|lia].
destruct (Z.to_nat _) as [|steps] eqn:Esteps; [lia|].
change (sentence_boundary t (stop - overlap + chunk_size) (S steps))
  with (c ← index t (stop - overlap + chunk_size);
        if ends_sentence c then Return (Some (stop - overlap + chunk_size + 1)%Z)
        else sentence_boundary t (stop - overlap + chunk_size - 1)%Z steps).
unfold index. cbv zeta.
destruct (Z.ltb_spec (stop - overlap + chunk_size) 0); [|lia].
destruct (Z.leb_spec 0 (stop - overlap + chunk_size + Z.of_nat (length t))); [lia|].
done.
Qed.

End ChunkerProperties.

Section SearchFacts.
Import RAGService SubjectSearch.
Context (lower : string -> string) (search : string -> Z -> string -> list Chunk).

Lemma all_results_spec query top_k subjects :
  let all_results := foldl (search_subject lower search query top_k) [] subjects in
  NoDup (dict_keys all_results) /\
  forall s, dict_get s all_results =
            if bool_decide (s ∈ subjects /\ lower s ∈ known_subjects)
            then Some (search query top_k s) else None.
Proof.
cbv zeta. induction subjects as [|x l IH] using rev_ind.
- split; [constructor|]. intros s. rewrite bool_decide_eq_false_2; [done|].
  intros [H _]. by apply elem_of_nil in H.
- rewrite foldl_app. simpl. destruct IH as [Hnd Hget].
  set (d := foldl (search_subject lower search query top_k) [] l) in *.
  unfold search_subject. case_bool_decide as Hx.
  + split.
    * destruct (dict_get x d) eqn:E.
      -- by rewrite dict_keys_set_present.
      -- rewrite dict_keys_set_absent by done. apply NoDup_app. split; [done|].
         split; [|apply NoDup_singleton]. intros y Hy ->%list_elem_of_singleton.
         by apply dict_get_None_keys in E.
    * intros s. destruct (decide (x = s)) as [->|Hne].
      -- rewrite dict_get_set_eq. rewrite bool_decide_eq_true_2; [done|].
         split; [|done]. apply elem_of_app. right. by apply list_elem_of_singleton.
      -- rewrite dict_get_set_ne by done. rewrite Hget.
         rewrite (bool_decide_ext (s ∈ l /\ lower s ∈ known_subjects)
                    (s ∈ l ++ [x] /\ lower s ∈ known_subjects)); [done|].
         rewrite elem_of_app, list_elem_of_singleton. split.
         ++ intros [H1 H2]. split; [by left|done].
         ++ intros [[H1|H1] H2]; [done|by subst].
  + split; [done|]. intros s. rewrite Hget.
    rewrite (bool_decide_ext (s ∈ l /\ lower s ∈ known_subjects)
               (s ∈ l ++ [x] /\ lower s ∈ known_subjects)); [done|].
    rewrite elem_of_app, list_elem_of_singleton. split.
    * intros [H1 H2]. split; [by left|done].
    * intros [[H1| ->] H2]; done.
Qed.

Lemma elem_of_combine h (d : dict (list Chunk)) :
  h ∈ combine d <-> exists rs, (subject h, rs) ∈ d /\ chunk h ∈ rs.
Proof.
unfold combine. rewrite list_elem_of_In, in_flat_map. split.
- intros ([s rs] & Hin & Hh). apply in_map_iff in Hh as (c & <- & Hc).
  exists rs. simpl in *. by rewrite !list_elem_of_In.
- intros (rs & Hin & Hc). exists (subject h, rs). rewrite <- list_elem_of_In. split; [done|].
  apply in_map_iff. exists (chunk h). rewrite <- list_elem_of_In. split; [by destruct h|done].
Qed.

Lemma StronglySorted_app_le {A} (key : A -> Q) l1 l2 x y :
  StronglySorted (by_key key) (l1 ++ l2) -> x ∈ l1 -> y ∈ l2 -> (key x <= key y)%Q.
Proof.
induction l1 as [|z l1 IH]; simpl; intros Hs Hx Hy; [by apply elem_of_nil in Hx|].
inversion Hs as [|? ? Hs' Hall]; subst. apply elem_of_cons in Hx as [->|Hx].
- rewrite Forall_forall in Hall. apply Hall. apply elem_of_app. by right.
- by apply IH.
Qed.

(** X19.  [search_across_subjects] with a [top_k] of at least 0 returns at most
    [top_k] results, in ascending order of distance.  Each result comes from
    the search of the subject it carries, a subject that was asked for and
    whose lower-case form is one of the six known.  A hit of such a search
    that is not returned was crowded out: then exactly [top_k] results are
    returned and none of them is farther than it.  [subject_breakdown] has the
    number of hits of each subject searched, and no entry for a subject that
    was asked for but is not known, although [subjects_searched] lists it. *)
Theorem search_across_subjects_returns_nearest query subjects top_k :
  (0 <= top_k)%Z ->
  let r := search_across_subjects lower search query subjects top_k in
  let wanted s := s ∈ searched subjects /\ lower s ∈ known_subjects in
  subjects_searched r = searched subjects /\
  (Z.of_nat (length (results r)) <= top_k)%Z /\
  StronglySorted (by_key (fun h => distance (chunk h))) (results r) /\
  (forall h, h ∈ results r ->
     wanted (subject h) /\ chunk h ∈ search query top_k (subject h)) /\
  (forall s c, wanted s -> c ∈ search query top_k s ->
     {| chunk := c; subject := s |} ∈ results r \/
     (Z.of_nat (length (results r)) = top_k /\
      forall h, h ∈ results r -> (distance (chunk h) <= distance c)%Q)) /\
  (forall s, dict_get s (subject_breakdown r) =
     if bool_decide (wanted s)
     then Some (Z.of_nat (length (search query top_k s))) else None).
Proof.
intros Hk r wanted. subst r. unfold search_across_subjects. cbv zeta. simpl.
destruct (all_results_spec query top_k (searched subjects)) as [Hnd Hget].
cbv zeta in Hnd, Hget.
set (d := foldl (search_subject lower search query top_k) [] (searched subjects)) in *.
set (key := fun h : Hit => distance (chunk h)).
set (S := sort_by key (combine d)).
replace (slice_to top_k S) with (take (Z.to_nat top_k) S)
  by (rewrite <- slice_to_count; by rewrite Z2Nat.id).
assert (forall h, h ∈ S <-> h ∈ combine d) as HS.
{ intros h. unfold S. by rewrite sort_by_perm. }
split; [done|]. split; [rewrite length_take; lia|].
split; [apply StronglySorted_take, sort_by_sorted|].
split; [|split].
- intros h Hh. apply subseteq_take, HS, elem_of_combine in Hh as (rs & Hin & Hc).
  apply dict_elem_of_get in Hin; [|done]. rewrite Hget in Hin.
  case_bool_decide as Hw; [|done]. injection Hin as <-. done.
- intros s c Hw Hc.
  assert ({| chunk := c; subject := s |} ∈ S) as Hin.
  { apply HS, elem_of_combine. exists (search query top_k s). split; [|done].
    apply dict_get_elem_of. simpl. rewrite Hget. by rewrite bool_decide_eq_true_2. }
  rewrite <- (take_drop (Z.to_nat top_k) S) in Hin.
  apply elem_of_app in Hin as [Hin|Hin]; [by left|]. right. split.
  + rewrite length_take. destruct (drop (Z.to_nat top_k) S) eqn:E; [by apply elem_of_nil in Hin|].
    apply (f_equal length) in E. rewrite length_drop in E. simpl in E. lia.
  + intros h Hh.
    apply (StronglySorted_app_le key (take (Z.to_nat top_k) S) (drop (Z.to_nat top_k) S)
             h {| chunk := c; subject := s |}); [|done|done].
    rewrite take_drop. apply sort_by_sorted.
- intros s. rewrite dict_get_map, Hget. fold (wanted s). by case_bool_decide.
Qed.
End SearchFacts.

(** ** The history of a student *)

Section HistoryFacts.
Import AdaptiveLearning StudentHistory.

Lemma length_last_n_min {A} n (l : list A) : length (last_n n l) = Nat.min n (length l).
Proof. unfold last_n. rewrite length_drop. lia. Qed.

Lemma dict_get_progress_of d (stats : dict Tally) :
  NoDup (dict_keys stats) ->
  dict_get d (progress_of stats) =
  dict_get d stats ≫= fun s =>
    if (0 <? tally_total s)%Z
    then Some {| progress_total := tally_total s; progress_correct := tally_correct s;
                 progress_score := true_div (tally_correct s) (tally_total s) |}
    else None.
Proof.
unfold dict_keys, progress_of. induction stats as [|[k s] stats IH]; [done|].
rewrite fmap_cons, NoDup_cons. intros [Hk Hnd]. rewrite omap_cons_eq. simpl.
destruct (0 <? tally_total s)%Z eqn:E; simpl;
  destruct (String.eqb_spec d k) as [->|Hne]; simpl; rewrite ?E; try done; try by apply IH.
rewrite IH by done. apply dict_get_None_keys in Hk. simpl in Hk. by rewrite Hk.
Qed.

Lemma dict_get_buckets_after d t l :
  dict_get d (buckets_after t l) =
  if decide (d ∈ three) then Some (tally_of (in_bucket t d l)) else None.
Proof.
case_decide as Hd.
- apply elem_of_three in Hd. by destruct Hd as [->|[->| ->]].
- unfold buckets_after. simpl.
  destruct (String.eqb_spec d "easy") as [->|_]; [exfalso; apply Hd, elem_of_three; auto|].
  destruct (String.eqb_spec d "medium") as [->|_]; [exfalso; apply Hd, elem_of_three; auto|].
  destruct (String.eqb_spec d "hard") as [->|_]; [exfalso; apply Hd, elem_of_three; auto|].
  done.
Qed.

Lemma buckets_after_NoDup t l : NoDup (dict_keys (buckets_after t l)).
Proof. apply (bool_decide_unpack _). by vm_compute. Qed.

Lemma window_bounds (times : list Q) i :
  i < length times -> window times i <> [] /\ length (window times i) <= 5.
Proof.
intros Hi. unfold window.
assert (length (drop (i - 4) (take (i + 1) times)) = i + 1 - (i - 4)) as Hlen
  by (rewrite length_drop, length_take; lia).
split; [|lia]. intros He. rewrite He in Hlen. simpl in Hlen. lia.
Qed.

Lemma entry_pace_nonneg (times : list Q) i : (0 <= entry_pace (pace_entry times i))%Q.
Proof.
unfold pace_entry. cbv zeta. simpl.
apply Qle_trans with (inject_Z 0 / 100)%Q; [done|].
apply (round2_ge 0). apply Qle_trans with 0%Q; [done|].
destruct (Qltb 0 (mean (window times i))) eqn:E; [|done].
apply Qltb_true in E. apply Qlt_le_weak, Qlt_shift_div_l; [done|].
by rewrite Qmult_0_l.
Qed.

(** X20.  After any run of calls, for a user who had no profile before and has
    one now, [get_student_history] reports: the number of the user's calls
    and of the correct ones among them, with an overall score between 0 and
    1; as topics attempted, once each, the topics the user's calls named;
    under a topic and a difficulty an entry exactly when the difficulty is a
    bucket and some call of the user was for that topic and difficulty, with
    the number of those calls, the number of the correct ones and their
    quotient; one entry of pace history for each of the last 20 calls that
    returned, numbered from 1, averaged over a window of one to five times,
    with a pace that is not negative; and one entry of recent activity
    exactly when a call has returned. *)
Theorem history_follows_the_calls strftime isoformat (st : Students) u calls p :
  st !! u = None -> record_attempts calls st !! u = Some p ->
  let h := get_student_history strftime isoformat u (record_attempts calls st) in
  let mine := calls_of u calls in
  let times := last_n 20 (times_of (accepted mine)) in
  h_total_questions h = Z.of_nat (length mine) /\
  h_correct_answers h = Z.of_nat (length (answered_right mine)) /\
  (0 <= h_overall_score h <= 1)%Q /\
  NoDup (h_topics_attempted h) /\
  (forall t, t ∈ h_topics_attempted h <-> on_topic t mine <> []) /\
  (forall t d,
     dict_get t (h_difficulty_progression h) ≫= dict_get d =
     if decide (d ∈ three /\ in_bucket t d mine <> [])
     then Some (progress_after (in_bucket t d mine)) else None) /\
  h_learning_pace_history h = map (pace_entry times) (seq 0 (length times)) /\
  length (h_learning_pace_history h) = Nat.min 20 (length (accepted mine)) /\
  (forall i, i < length times ->
     entry_attempt (pace_entry times i) = (Z.of_nat i + 1)%Z /\
     window times i <> [] /\ length (window times i) <= 5 /\
     (0 <= entry_pace (pace_entry times i))%Q) /\
  length (h_recent_activity h) = (if decide (accepted mine = []) then 0 else 1).
Proof.
intros Hnew Hp h mine times.
pose proof (profile_after_calls u calls st Hnew) as Hinv. rewrite Hp in Hinv.
destruct Hinv as [Hne [_ Htot Hcor _ Htimes Hattr _ _]].
pose proof (profile_of_run st u calls p Hnew Hp) as Hrun.
destruct (keys_follow_calls u _ p Hrun) as [Hnd _].
pose proof (topics_follow_calls u _ p Hrun) as Htopics.
fold mine in Hne, Htot, Hcor, Htimes, Hattr, Hrun, Htopics. fold times in Htimes.
assert (length times = Nat.min 20 (length (accepted mine))) as Hlen.
{ unfold times, times_of. by rewrite length_last_n_min, length_map. }
assert (h_learning_pace_history h = map (pace_entry times) (seq 0 (length times))) as Hpace.
{ unfold h, get_student_history. rewrite Hp. simpl.
  clearbody times. destruct (recent_times p) as [[|x l]|]; simpl in Htimes; by subst times. }
rewrite Hpace. unfold h, get_student_history. rewrite Hp.
cbn [h_total_questions h_correct_answers h_overall_score h_topics_attempted
     h_difficulty_progression h_recent_activity].
split; [done|]. split; [done|]. split.
{ rewrite Htot, Hcor.
  assert (0 < Z.of_nat (length mine))%Z by (destruct mine; [done|simpl; lia]).
  destruct (Z.ltb_spec 0 (Z.of_nat (length mine))); [|lia].
  apply true_div_unit; [|done]. unfold answered_right.
  pose proof (length_filter (fun c => correct (call_attempt c) = true) mine). lia. }
split; [done|]. split.
{ intros t. rewrite <- dict_get_Some_keys, Htopics. unfold topic_after.
  destruct (on_topic t mine); split; try done; by intros [? ?]. }
split.
{ intros t d. rewrite dict_get_map, Htopics. unfold topic_after.
  destruct (on_topic t mine) eqn:Et.
  - rewrite decide_False; [done|]. intros [_ H]. by rewrite in_bucket_on_topic in H.
  - cbn [fmap option_fmap option_map mbind option_bind].
    rewrite dict_get_progress_of by apply buckets_after_NoDup.
    rewrite dict_get_buckets_after. case_decide as Hd.
    + cbn [mbind option_bind tally_of tally_total tally_correct].
      destruct (in_bucket t d mine) eqn:Eb.
      * by rewrite decide_False by (by intros [_ ?]).
      * rewrite decide_True by done.
        destruct (Z.ltb_spec 0 (Z.of_nat (length (c0 :: l0)))); [done|simpl in *; lia].
    + by rewrite decide_False by (by intros [? _]). }
split; [done|]. split; [by rewrite length_map, length_seq|]. split.
{ intros i Hi. split; [done|]. destruct (window_bounds times i Hi) as [H1 H2].
  split; [done|]. split; [done|]. apply entry_pace_nonneg. }
case_decide as Hacc.
- apply Hattr in Hacc. by rewrite Hacc.
- destruct (recent_times p) as [[|x l]|] eqn:Er; [|done|by destruct Hacc; apply Hattr].
  simpl in Htimes. exfalso. rewrite <- Htimes in Hlen. simpl in Hlen.
  destruct (accepted mine); [done|]. simpl in Hlen. lia.
Qed.
End HistoryFacts.

(** * Instances of the further properties *)

Section FurtherWitnesses.
Import AdaptiveLearning.

Lemma sample_run : record_attempts sample_calls ∅ !! "u1" = Some sample_after.
Proof. vm_compute. reflexivity. Qed.

Lemma sample_start : (∅ : Students) !! "u1" = None.
Proof. reflexivity. Qed.

Lemma buckets_count_their_calls_witness :
  exists by_difficulty,
    dict_get "Math" (topic_performance sample_after) = Some by_difficulty /\
    dict_get "easy" by_difficulty = Some {| tally_correct := 1; tally_total := 1 |} /\
    dict_get "Art" (topic_performance sample_after) = None.
Proof.
destruct (buckets_count_their_calls ∅ "u1" sample_calls sample_after sample_start sample_run)
  as [Hnone Hsome].
destruct (Hsome "Math") as (by_difficulty & Hget & _ & Hbucket); [vm_compute; discriminate|].
exists by_difficulty. split; [exact Hget|]. split.
- rewrite (Hbucket "easy"); [reflexivity|]. apply elem_of_three. auto.
- apply Hnone. reflexivity.
Defined.

Lemma levels_count_the_calls_that_returned_witness :
  dict_get "recall" (cognitive_levels sample_after)
    = Some {| tally_correct := 1; tally_total := 1 |} /\
  dict_get "analysis" (cognitive_levels sample_after) = None.
Proof.
split.
- destruct (levels_count_the_calls_that_returned ∅ "u1" sample_calls sample_after
              sample_start sample_run "recall") as [_ H].
  rewrite H; [reflexivity|]. vm_compute. discriminate.
- destruct (levels_count_the_calls_that_returned ∅ "u1" sample_calls sample_after
              sample_start sample_run "analysis") as [H _].
  apply H. reflexivity.
Defined.

Lemma counters_and_scores_stay_in_range_witness :
  NoDup (dict_keys (topic_performance sample_after)) /\
  NoDup (get_weak_topics "u1" 5 (record_attempts sample_calls ∅)).*1.
Proof.
destruct (counters_and_scores_stay_in_range ∅ "u1" sample_calls sample_after 5
            sample_start sample_run) as (_ & Hkeys & Hweak & _).
split; [exact Hkeys | exact Hweak].
Defined.


Lemma strength_analysis_reports_the_run_witness :
  let sa := get_strength_analysis "u1" (record_attempts sample_calls ∅) in
  sa_total_questions sa = 2%Z /\ sa_correct_answers sa = 1%Z /\
  (0 <= sa_overall_score sa <= 1)%Q.
Proof.
destruct (strength_analysis_reports_the_run ∅ "u1" sample_calls sample_after
            sample_start sample_run) as (Ht & Hc & _ & Hs & _).
split; [exact Ht|]. split; [exact Hc | exact Hs].
Defined.

Lemma history_follows_the_calls_witness :
  let h := StudentHistory.get_student_history
             (fun _ => "2024-01-01 00:00") (fun _ => "2024-01-01T00:00:00")
             "u1" (record_attempts sample_calls ∅) in
  StudentHistory.h_total_questions h = 2%Z /\
  length (StudentHistory.h_learning_pace_history h) = 2 /\
  length (StudentHistory.h_recent_activity h) = 1.
Proof.
destruct (history_follows_the_calls
            (fun _ => "2024-01-01 00:00") (fun _ => "2024-01-01T00:00:00")
            ∅ "u1" sample_calls sample_after sample_start sample_run)
  as (Ht & _ & _ & _ & _ & _ & _ & Hpace & _ & Hact).
split; [exact Ht|]. split; [exact Hpace | exact Hact].
Defined.
End FurtherWitnesses.

Section FurtherAnswerWitnesses.
Import RAGService.

Lemma fallback_hints_two_chunks_counts_all_witness :
  generate_answer_with_context "What is gravity?"
    [sample_chunk "a.pdf" 0.9; sample_chunk "b.pdf" 0.95; sample_chunk "c.pdf" 0.95]
    (fun _ => Return "A force.")
  = Return {| answer := "A force."; confidence := 0.7; sources := ["General Knowledge"];
              context_chunks := Some 3%Z; answer_type := Some "general_knowledge" |}.
Proof.
apply (fallback_hints_two_chunks_counts_all "What is gravity?"
         [sample_chunk "a.pdf" 0.9; sample_chunk "b.pdf" 0.95; sample_chunk "c.pdf" 0.95]
         (fun _ => Return "A force.") "A force.").
- discriminate.
- intros _. split; [vm_compute; reflexivity | reflexivity].
Defined.
End FurtherAnswerWitnesses.

Section ChunkerWitnesses.
Import Chunker.

Lemma chunks_are_trimmed_pieces_witness :
  exists chunks,
    extract_and_chunk_text 60 sample_text 500 50 = Some (Return chunks) /\
    Forall (good_chunk (normalize sample_text) 500) chunks.
Proof.
destruct (chunks_are_trimmed_pieces sample_text 500 50) as (chunks & Hrun & Hgood);
  [lia|lia|].
exists chunks. split; [|exact Hgood]. apply Hrun. vm_compute. lia.
Defined.

Lemma fitting_text_repeats_its_tail_witness :
  extract_and_chunk_text 2 sample_text 50 10
  = Some (Return [codes "Plants make food. They use light, water and air.";
                  codes "and air."]).
Proof.
destruct (fitting_text_repeats_its_tail sample_text 50 10 0) as [H _].
- lia.
- vm_compute. split; [reflexivity|discriminate].
- vm_compute. discriminate.
- exact H.
Defined.

Lemma equal_overlap_never_returns_witness :
  extract_and_chunk_text 1000 sample_run_on 10 10 = None.
Proof.
apply (equal_overlap_never_returns sample_run_on 10 1000).
- vm_compute. split; [discriminate|reflexivity].
- apply (bool_decide_unpack _). vm_compute. exact I.
Defined.

Lemma large_overlap_raises_IndexError_witness :
  extract_and_chunk_text 2 sample_text 10 100
  = Some (Raise (Exception "string index out of range")).
Proof.
apply (large_overlap_raises_IndexError sample_text 10 100 0).
- vm_compute. discriminate.
- lia.
- vm_compute. reflexivity.
Defined.
End ChunkerWitnesses.

Section SearchWitnesses.
Import RAGService SubjectSearch.

Lemma search_across_subjects_returns_nearest_witness :
  let r := search_across_subjects (fun s => s) sample_search "light" None 1 in
  (Z.of_nat (length (results r)) <= 1)%Z /\
  dict_get "science" (subject_breakdown r) = Some 2%Z.
Proof.
destruct (search_across_subjects_returns_nearest (fun s => s) sample_search "light" None 1)
  as (_ & Hlen & _ & _ & _ & Hcount); [lia|].
split; [exact Hlen|]. rewrite Hcount. reflexivity.
Defined.
End SearchWitnesses.

